(** * Sentiment analysis system: ensemble scoring and stream manager

    A shallow embedding of
    - [src/core/sentiment_analyzer.py]  (class [SentimentAnalyzer]),
    - [src/core/emotion_detector.py]    (class [EmotionDetector]),
    - [src/streaming/stream_manager.py] (class [StreamManager]).

    Conventions of the embedding.
    - Python floats are read as the rationals they denote ([Qc]): the
      comparisons and the order of the operations are those of the source,
      the rounding of the results is not modelled there.  Module [Binary64]
      transcribes the weight normalization and the weighted sums of the
      sentiment ensemble on binary64 floats, for the statements in which
      rounding takes part.  Float division by zero raises
      [ZeroDivisionError], which is written out wherever the source divides.
    - A Python call that may raise returns an [outcome]; [try ... except
      Exception] is [try_except].  Logging has no effect on the state and is
      left out.
    - Third-party models (the transformer pipelines, VADER, TextBlob, the
      NLTK tokenizer) are functions stored in the [models] dictionary, as in
      the source; they may raise.
    - Dictionaries are [gmap]s; a dictionary whose iteration order matters
      (the per-call [results]) is an association list in insertion order.
    - The [async] methods of the manager are state-passing functions: each
      returns the manager it leaves behind together with how the call ended.
      An adapter task runs between two calls of the manager, over the
      clock readings it makes; identifiers and clocks come from an
      [environment].
    - A registered callback is arbitrary code that can call back into the
      manager while it is awaited; what it does there is a [reentry]. *)

From Stdlib Require Import Ascii QArith Qcanon Qcabs Lqa Floats.
From stdpp Require Import gmap strings list numbers.

#[local] Set Warnings "-clear-no-such-hyp".
#[local] Set Warnings "-inexact-float".

Local Open Scope string_scope.
Local Open Scope Qc_scope.

(** ** Exceptions and outcomes *)

Module Py.

Inductive exn :=
| ValueError (msg : string)
| KeyError (key : string)
| TypeError (msg : string)
| ZeroDivisionError
| Exception (msg : string).

(** [str(e)] *)
Definition str (e : exn) : string :=
  match e with
  | ValueError msg | TypeError msg | Exception msg => msg
  | KeyError key => "'" +:+ key +:+ "'"
  | ZeroDivisionError => "float division by zero"
  end.

Inductive outcome (A : Type) :=
| Returns (a : A)
| Raises (e : exn).
Arguments Returns {A} a.
Arguments Raises {A} e.

#[global] Instance outcome_ret : MRet outcome := fun A a => Returns a.
#[global] Instance outcome_bind : MBind outcome := fun A B k m =>
  match m with
  | Returns a => k a
  | Raises e => Raises e
  end.

#[global] Instance outcome_fmap : FMap outcome := fun A B f m =>
  match m with
  | Returns a => Returns (f a)
  | Raises e => Raises e
  end.

(** [try: m except Exception as e: h e] *)
Definition try_except {A} (m : outcome A) (h : exn -> outcome A) : outcome A :=
  match m with
  | Returns a => Returns a
  | Raises e => h e
  end.

(** [except Exception as e: logger.error(...); raise] *)
Definition log_and_raise {A} (m : outcome A) : outcome A :=
  try_except m (fun e => Raises e).

Definition returned {A} (m : outcome A) : Prop :=
  match m with Returns _ => True | Raises _ => False end.

(** [sum(...)] over a list of floats, starting from [0]; the floats are
    read as rationals, for which the order of the additions plays no part
    ([Binary64.sum] adds binary64 floats from left to right). *)
Definition sum (l : list Qc) : Qc := foldr Qcplus 0 l.

(** [x / y] on floats read as rationals ([Binary64.truediv] rounds). *)
Definition truediv (x y : Qc) : outcome Qc :=
  if decide (y = 0) then Raises ZeroDivisionError else Returns (x / y).

(** [d[k]] on a dictionary. *)
Definition getitem {V} (d : gmap string V) (k : string) : outcome V :=
  match d !! k with
  | Some v => Returns v
  | None => Raises (KeyError k)
  end.

(** [{m: weights[m] / total_weight for m in available_models if m in weights}];
    the same comprehension normalizes the weights in both ensembles. *)
Fixpoint normalized_comprehension (weights : gmap string Qc) (total_weight : Qc)
    (available_models : list string) : outcome (gmap string Qc) :=
  match available_models with
  | [] => Returns ∅
  | model :: rest =>
      match weights !! model with
      | Some w =>
          q ← truediv w total_weight;
          d ← normalized_comprehension weights total_weight rest;
          Returns (<[model := q]> d)
      | None => normalized_comprehension weights total_weight rest
      end
  end.

(** [sum(weights[m] for m in available_models if m in weights)] *)
Definition total_of (weights : gmap string Qc) (available_models : list string) : Qc :=
  sum (omap (fun model => weights !! model) available_models).

(** [sum(d.values())] *)
Definition dict_sum (d : gmap string Qc) : Qc :=
  map_fold (fun _ v acc => v + acc) 0 d.

End Py.

Import Py.

(** A float literal [n/d]. *)
Definition qc (n : Z) (d : positive) : Qc := Q2Qc (n # d).

(** ** [SentimentAnalyzer] *)

Module Sentiment.

Inductive label := positive | negative | neutral.

#[global] Instance label_eq_dec : EqDecision label.
Proof. solve_decision. Defined.

(** The ["scores"] dictionary of a single model's result. *)
Inductive model_scores :=
| BertScores (pos neg : Qc)
| VaderScores (pos neg neu compound : Qc)
| TextBlobScores (polarity subjectivity : Qc).

(** [scores["positive"]] and the like: a missing key raises. *)
Definition scores_positive (s : model_scores) : outcome Qc :=
  match s with
  | BertScores p _ | VaderScores p _ _ _ => Returns p
  | TextBlobScores _ _ => Raises (KeyError "positive")
  end.

Definition scores_negative (s : model_scores) : outcome Qc :=
  match s with
  | BertScores _ n | VaderScores _ n _ _ => Returns n
  | TextBlobScores _ _ => Raises (KeyError "negative")
  end.

Definition scores_neutral (s : model_scores) : outcome Qc :=
  match s with
  | VaderScores _ _ u _ => Returns u
  | _ => Raises (KeyError "neutral")
  end.

Definition scores_polarity (s : model_scores) : outcome Qc :=
  match s with
  | TextBlobScores p _ => Returns p
  | _ => Raises (KeyError "polarity")
  end.

(** The dictionary a single model returns. *)
Record model_result := {
  mr_sentiment : label;
  mr_confidence : Qc;
  mr_model : string;
  mr_scores : model_scores
}.

(** The dictionary the ensemble returns. *)
Record ensemble_result := {
  sentiment : label;
  confidence : Qc;
  model : string;
  positive_score : Qc;
  negative_score : Qc;
  neutral_score : Qc;
  individual_results : list (string * model_result)
}.

Inductive result :=
| OfModel (r : model_result)
| OfEnsemble (r : ensemble_result).

(** The result of [analyze]: the model's dictionary with ["processing_time"]. *)
Record analysis := {
  body : result;
  processing_time : Qc
}.

(** VADER's [polarity_scores] dictionary. *)
Record vader_raw := { v_pos : Qc; v_neg : Qc; v_neu : Qc; v_compound : Qc }.

(** The values of [self.models]. *)
Inductive model_entry :=
| BertModel (softmax : string -> outcome (Qc * Qc))
    (* tokenizer, classifier and softmax: (scores[0][0], scores[0][1]) *)
| VaderModel (polarity_scores : string -> outcome vader_raw)
| TextBlobModel (blob_sentiment : string -> outcome (Qc * Qc))
    (* TextBlob(text).sentiment: (polarity, subjectivity) *)
| CustomModel (weights : gmap string Qc).

Record SentimentAnalyzer := {
  model_type : string;
  models : gmap string model_entry
}.

Definition default_weights : gmap string Qc :=
  <["bert" := qc 6 10]> (<["vader" := qc 3 10]> (<["textblob" := qc 1 10]> ∅)).

Definition _analyze_with_bert (self : SentimentAnalyzer) (text : string)
    : outcome model_result :=
  log_and_raise (
    entry ← getitem (models self) "bert";
    match entry with
    | BertModel softmax =>
        '(s0, s1) ← softmax text;
        (* argmax over (negative, positive) *)
        let sentiment_id := if decide (s0 < s1) then 1%nat else 0%nat in
        let confidence := if decide (sentiment_id = 1%nat) then s1 else s0 in
        let sentiment := if decide (sentiment_id = 1%nat) then positive else negative in
        Returns {| mr_sentiment := sentiment; mr_confidence := confidence;
                   mr_model := "bert"; mr_scores := BertScores s1 s0 |}
    | _ => Raises (TypeError "bert")
    end).

Definition _analyze_with_vader (self : SentimentAnalyzer) (text : string)
    : outcome model_result :=
  log_and_raise (
    entry ← getitem (models self) "vader";
    match entry with
    | VaderModel polarity_scores =>
        scores ← polarity_scores text;
        let sentiment :=
          if decide (qc 5 100 ≤ v_compound scores) then positive
          else if decide (v_compound scores ≤ - qc 5 100) then negative
          else neutral in
        let confidence := Qcabs (v_compound scores) in
        let confidence :=
          if decide (sentiment = neutral) then 1 - confidence else confidence in
        Returns {| mr_sentiment := sentiment; mr_confidence := confidence;
                   mr_model := "vader";
                   mr_scores := VaderScores (v_pos scores) (v_neg scores)
                                  (v_neu scores) (v_compound scores) |}
    | _ => Raises (TypeError "vader")
    end).

Definition _analyze_with_textblob (self : SentimentAnalyzer) (text : string)
    : outcome model_result :=
  log_and_raise (
    entry ← getitem (models self) "textblob";
    match entry with
    | TextBlobModel blob_sentiment =>
        '(polarity, subjectivity) ← blob_sentiment text;
        let sentiment :=
          if decide (qc 5 100 < polarity) then positive
          else if decide (polarity < - qc 5 100) then negative
          else neutral in
        let confidence := Qcabs polarity * subjectivity in
        let confidence :=
          if decide (sentiment = neutral) then 1 - confidence else confidence in
        Returns {| mr_sentiment := sentiment; mr_confidence := confidence;
                   mr_model := "textblob";
                   mr_scores := TextBlobScores polarity subjectivity |}
    | _ => Raises (TypeError "textblob")
    end).

(** The three running sums of the ensemble loop. *)
Record tally := { t_pos : Qc; t_neg : Qc; t_neu : Qc }.

(** One iteration of [for model, result in results.items()]. *)
Definition accumulate (normalized_weights : gmap string Qc)
    (acc : tally) (model : string) (result : model_result) : outcome tally :=
  if decide (model = "bert") then
    p ← scores_positive (mr_scores result);
    w ← getitem normalized_weights model;
    let acc := {| t_pos := t_pos acc + p * w; t_neg := t_neg acc; t_neu := t_neu acc |} in
    n ← scores_negative (mr_scores result);
    w ← getitem normalized_weights model;
    Returns {| t_pos := t_pos acc; t_neg := t_neg acc + n * w; t_neu := t_neu acc |}
  else if decide (model = "vader") then
    p ← scores_positive (mr_scores result);
    w ← getitem normalized_weights model;
    let acc := {| t_pos := t_pos acc + p * w; t_neg := t_neg acc; t_neu := t_neu acc |} in
    n ← scores_negative (mr_scores result);
    w ← getitem normalized_weights model;
    let acc := {| t_pos := t_pos acc; t_neg := t_neg acc + n * w; t_neu := t_neu acc |} in
    u ← scores_neutral (mr_scores result);
    w ← getitem normalized_weights model;
    Returns {| t_pos := t_pos acc; t_neg := t_neg acc; t_neu := t_neu acc + u * w |}
  else if decide (model = "textblob") then
    polarity ← scores_polarity (mr_scores result);
    if decide (0 < polarity) then
      w ← getitem normalized_weights model;
      Returns {| t_pos := t_pos acc + polarity * w; t_neg := t_neg acc; t_neu := t_neu acc |}
    else if decide (polarity < 0) then
      w ← getitem normalized_weights model;
      Returns {| t_pos := t_pos acc; t_neg := t_neg acc + Qcabs polarity * w; t_neu := t_neu acc |}
    else
      w ← getitem normalized_weights model;
      Returns {| t_pos := t_pos acc; t_neg := t_neg acc; t_neu := t_neu acc + w |}
  else Returns acc.

Fixpoint weighted_scores (normalized_weights : gmap string Qc)
    (results : list (string * model_result)) (acc : tally) : outcome tally :=
  match results with
  | [] => Returns acc
  | (model, result) :: rest =>
      acc ← accumulate normalized_weights acc model result;
      weighted_scores normalized_weights rest acc
  end.

(** [# Determine final sentiment] *)
Definition final_sentiment (t : tally) : label * Qc :=
  if decide (t_neg t < t_pos t ∧ t_neu t < t_pos t) then (positive, t_pos t)
  else if decide (t_pos t < t_neg t ∧ t_neu t < t_neg t) then (negative, t_neg t)
  else (neutral, t_neu t).

(** [if name in self.models: results[name] = run(text)] *)
Definition collect (self : SentimentAnalyzer) (name : string)
    (run : SentimentAnalyzer -> string -> outcome model_result) (text : string)
    (results : list (string * model_result)) : outcome (list (string * model_result)) :=
  match models self !! name with
  | Some _ => r ← run self text; Returns (results ++ [(name, r)])%list
  | None => Returns results
  end.

(** [self.models["custom"]["weights"] if "custom" in self.models else {...}] *)
Definition ensemble_weights (self : SentimentAnalyzer) : outcome (gmap string Qc) :=
  match models self !! "custom" with
  | Some (CustomModel weights) => Returns weights
  | Some _ => Raises (KeyError "weights")
  | None => Returns default_weights
  end.

(** [# Get results from individual models]: the three [if name in self.models]
    statements, in this order. *)
Definition collect_results (self : SentimentAnalyzer) (text : string)
    : outcome (list (string * model_result)) :=
  results ← collect self "bert" _analyze_with_bert text [];
  results ← collect self "vader" _analyze_with_vader text results;
  collect self "textblob" _analyze_with_textblob text results.

Definition zero_tally : tally := {| t_pos := 0; t_neg := 0; t_neu := 0 |}.

(** The returned dictionary. *)
Definition ensemble_dict (results : list (string * model_result)) (t : tally)
    : ensemble_result :=
  let '(sentiment, confidence) := final_sentiment t in
  {| sentiment := sentiment; confidence := confidence; model := "ensemble";
     positive_score := t_pos t; negative_score := t_neg t;
     neutral_score := t_neu t; individual_results := results |}.

(** [# Normalize weights based on available models] to the [return]. *)
Definition combine (weights : gmap string Qc) (results : list (string * model_result))
    : outcome ensemble_result :=
  let available_models := results.*1 in
  let total_weight := total_of weights available_models in
  normalized_weights ← normalized_comprehension weights total_weight available_models;
  t ← weighted_scores normalized_weights results zero_tally;
  Returns (ensemble_dict results t).

Definition _analyze_with_ensemble (self : SentimentAnalyzer) (text : string)
    : outcome ensemble_result :=
  log_and_raise (
    results ← collect_results self text;
    weights ← ensemble_weights self;
    combine weights results).

Definition _analyze_with_custom (self : SentimentAnalyzer) (text : string)
    : outcome ensemble_result :=
  _analyze_with_ensemble self text.

(** [analyze]; [elapsed] is [time.time() - start_time]. *)
Definition analyze (self : SentimentAnalyzer) (elapsed : Qc) (text : string)
    : outcome analysis :=
  log_and_raise (
    result ←
      (if decide (model_type self = "bert") then OfModel <$> _analyze_with_bert self text
       else if decide (model_type self = "vader") then OfModel <$> _analyze_with_vader self text
       else if decide (model_type self = "textblob") then OfModel <$> _analyze_with_textblob self text
       else if decide (model_type self = "custom") then OfEnsemble <$> _analyze_with_custom self text
       else if decide (model_type self = "all") then OfEnsemble <$> _analyze_with_ensemble self text
       else Raises (ValueError ("Unknown model type: " +:+ model_type self)));
    Returns {| body := result; processing_time := elapsed |}).

(** *** Reference descriptions used by the statements *)

(** What the specification asks of the combined scores: every available
    backend adds its scores, each multiplied by the weight applied to the
    backend, to the three running sums; a polarity counts as a positive
    score, as a negative score or as a vote for neutral, by its sign. *)
Definition add_share (applied : string -> Qc) (t : tally)
    (entry : string * model_result) : tally :=
  let w := applied entry.1 in
  match mr_scores entry.2 with
  | BertScores p n =>
      {| t_pos := t_pos t + p * w; t_neg := t_neg t + n * w; t_neu := t_neu t |}
  | VaderScores p n u _ =>
      {| t_pos := t_pos t + p * w; t_neg := t_neg t + n * w; t_neu := t_neu t + u * w |}
  | TextBlobScores p _ =>
      if decide (0 < p) then
        {| t_pos := t_pos t + p * w; t_neg := t_neg t; t_neu := t_neu t |}
      else if decide (p < 0) then
        {| t_pos := t_pos t; t_neg := t_neg t + Qcabs p * w; t_neu := t_neu t |}
      else {| t_pos := t_pos t; t_neg := t_neg t; t_neu := t_neu t + w |}
  end.

Definition weighted_sum (applied : string -> Qc)
    (results : list (string * model_result)) : tally :=
  foldl (add_share applied) zero_tally results.

(** The result stored under a model's name has the scores of that model. *)
Definition shaped (entry : string * model_result) : Prop :=
  match mr_scores entry.2 with
  | BertScores _ _ => entry.1 = "bert"
  | VaderScores _ _ _ _ => entry.1 = "vader"
  | TextBlobScores _ _ => entry.1 = "textblob"
  end.

(** The three combined scores of an ensemble result. *)
Definition combined_scores (r : ensemble_result) : tally :=
  {| t_pos := positive_score r; t_neg := negative_score r; t_neu := neutral_score r |}.

(** *** Loading the models and batches *)

(** What the [_load_*_model] methods obtain from outside (imports,
    downloads, files): the model object, or the exception raised on the
    way. *)
Record loaders := {
  load_bert : outcome (string -> outcome (Qc * Qc));
  load_vader : outcome (string -> outcome vader_raw);
  load_textblob : outcome (string -> outcome (Qc * Qc))
}.

Definition _load_bert_model (env : loaders) (models : gmap string model_entry)
    : outcome (gmap string model_entry) :=
  log_and_raise (m ← load_bert env; Returns (<["bert" := BertModel m]> models)).

Definition _load_vader_model (env : loaders) (models : gmap string model_entry)
    : outcome (gmap string model_entry) :=
  log_and_raise (m ← load_vader env; Returns (<["vader" := VaderModel m]> models)).

Definition _load_textblob_model (env : loaders) (models : gmap string model_entry)
    : outcome (gmap string model_entry) :=
  log_and_raise (m ← load_textblob env; Returns (<["textblob" := TextBlobModel m]> models)).

Definition _load_custom_model (models : gmap string model_entry)
    : outcome (gmap string model_entry) :=
  log_and_raise (
    Returns (<["custom" :=
      CustomModel (<["bert" := qc 6 10]> (<["vader" := qc 3 10]>
                     (<["textblob" := qc 1 10]> ∅)))]> models)).

Definition load_models (env : loaders) (model_type : string)
    (models : gmap string model_entry) : outcome (gmap string model_entry) :=
  log_and_raise (
    models ← (if decide (model_type = "bert" ∨ model_type = "all")
              then _load_bert_model env models else Returns models);
    models ← (if decide (model_type = "vader" ∨ model_type = "all")
              then _load_vader_model env models else Returns models);
    models ← (if decide (model_type = "textblob" ∨ model_type = "all")
              then _load_textblob_model env models else Returns models);
    if decide (model_type = "custom" ∨ model_type = "all")
    then _load_custom_model models else Returns models).

(** [__init__]; [default_model] is [MODEL_CONFIG["default_model"]], read
    only when [model_type] is [None] or empty. *)
Definition __init__ (env : loaders) (default_model : outcome string)
    (model_type : option string) : outcome SentimentAnalyzer :=
  model_type ←
    match model_type with
    | Some t => if decide (t = "") then default_model else Returns t
    | None => default_model
    end;
  models ← load_models env model_type ∅;
  Returns {| model_type := model_type; models := models |}.

(** [batch_analyze]; [clock i] is the time the [i]-th call of [analyze]
    measures. *)
Fixpoint batch_analyze_from (self : SentimentAnalyzer) (clock : nat -> Qc) (i : nat)
    (texts : list string) : outcome (list analysis) :=
  match texts with
  | [] => Returns []
  | text :: rest =>
      result ← analyze self (clock i) text;
      results ← batch_analyze_from self clock (S i) rest;
      Returns (result :: results)
  end.

Definition batch_analyze (self : SentimentAnalyzer) (clock : nat -> Qc)
    (texts : list string) : outcome (list analysis) :=
  batch_analyze_from self clock 0 texts.

(** [health_check]: the model type and the names of the loaded models. *)
Definition health_check (self : SentimentAnalyzer) : string * string * gset string :=
  ("healthy", model_type self, dom (models self)).

End Sentiment.

(** ** [EmotionDetector] *)

Module Emotion.

(** [self.emotions] *)
Definition emotions : list string :=
  ["joy"; "anger"; "fear"; "sadness"; "surprise"; "disgust"].

(** [str.lower] and [str.isalpha], on ASCII text. *)
Definition lower_ascii (c : ascii) : ascii :=
  let n := nat_of_ascii c in
  if decide (65 ≤ n ≤ 90)%nat then ascii_of_nat (n + 32) else c.

Fixpoint lower (s : string) : string :=
  match s with
  | EmptyString => EmptyString
  | String c s => String (lower_ascii c) (lower s)
  end.

Definition isalpha_ascii (c : ascii) : bool :=
  let n := nat_of_ascii c in
  bool_decide ((65 ≤ n ≤ 90)%nat ∨ (97 ≤ n ≤ 122)%nat).

Fixpoint all_alpha (s : string) : bool :=
  match s with
  | EmptyString => true
  | String c s => isalpha_ascii c && all_alpha s
  end.

Definition isalpha (s : string) : bool :=
  match s with
  | EmptyString => false
  | _ => all_alpha s
  end.

(** The values of [self.models]. *)
Inductive model_entry :=
| TransformerModel (classifier : string -> outcome (list (string * Qc)))
    (* model(text)[0]: the (label, score) predictions *)
| RuleBasedModel (lexicon : list (string * list string)) (stopwords : gset string)
| CustomModel (weights : gmap string Qc).

Record EmotionDetector := {
  model_type : string;
  models : gmap string model_entry;
  word_tokenize : string -> outcome (list string)  (* nltk.word_tokenize *)
}.

Definition default_weights : gmap string Qc :=
  <["transformer" := qc 7 10]> (<["rule-based" := qc 3 10]> ∅).

(** [{emotion: v for emotion in self.emotions}] *)
Definition constant_scores (v : Qc) : gmap string Qc :=
  list_to_map ((fun emotion => (emotion, v)) <$> emotions).

(** [{emotion: 1.0 / len(self.emotions) for emotion in self.emotions}] *)
Definition uniform_scores : gmap string Qc :=
  constant_scores (1 / Qc_of_Z (Z.of_nat (length emotions))).

(** [for token in tokens: for emotion, words in lexicon.items():
       if token in words: emotion_counts[emotion] += 1] *)
Fixpoint count_token (token : string) (lexicon : list (string * list string))
    (emotion_counts : gmap string nat) : outcome (gmap string nat) :=
  match lexicon with
  | [] => Returns emotion_counts
  | (emotion, words) :: rest =>
      if decide (token ∈ words) then
        c ← getitem emotion_counts emotion;
        count_token token rest (<[emotion := S c]> emotion_counts)
      else count_token token rest emotion_counts
  end.

Fixpoint count_tokens (tokens : list string) (lexicon : list (string * list string))
    (emotion_counts : gmap string nat) : outcome (gmap string nat) :=
  match tokens with
  | [] => Returns emotion_counts
  | token :: rest =>
      emotion_counts ← count_token token lexicon emotion_counts;
      count_tokens rest lexicon emotion_counts
  end.

Definition qc_of_nat (n : nat) : Qc := Qc_of_Z (Z.of_nat n).

Definition _detect_with_rule_based (self : EmotionDetector) (text : string)
    : outcome (gmap string Qc) :=
  try_except (
    entry ← getitem (models self) "rule-based";
    match entry with
    | RuleBasedModel lexicon stopwords =>
        tokens ← word_tokenize self (lower text);
        let tokens :=
          filter (fun token => isalpha token = true ∧ token ∉ stopwords) tokens in
        emotion_counts ←
          count_tokens tokens lexicon
            (list_to_map ((fun emotion => (emotion, 0%nat)) <$> emotions));
        let total := sum_list (snd <$> map_to_list emotion_counts) in
        let total_count := if decide (total = 0%nat) then 1%nat else total in
        let emotion_scores : gmap string Qc :=
          (fun count => qc_of_nat count / qc_of_nat total_count) <$> emotion_counts in
        if decide (map_Forall (fun _ score => score = 0) emotion_scores) then
          let emotion_scores := constant_scores (qc 1 10) in
          let total := sum (snd <$> map_to_list emotion_scores) in
          Returns ((fun score => score / total) <$> emotion_scores)
        else Returns emotion_scores
    | _ => Raises (KeyError "lexicon")
    end)
  (fun _ => Returns uniform_scores).

(** [for pred in predictions: emotion_scores[pred["label"].lower()] = pred["score"]] *)
Definition prediction_scores (predictions : list (string * Qc)) : gmap string Qc :=
  foldl (fun emotion_scores pred => <[lower pred.1 := pred.2]> emotion_scores)
        ∅ predictions.

(** [for emotion in self.emotions:
       if emotion not in emotion_scores: emotion_scores[emotion] = 0.0] *)
Definition ensure_all (emotion_scores : gmap string Qc) : gmap string Qc :=
  foldl (fun emotion_scores emotion =>
           match emotion_scores !! emotion with
           | Some _ => emotion_scores
           | None => <[emotion := 0]> emotion_scores
           end) emotion_scores emotions.

Definition _detect_with_transformer (self : EmotionDetector) (text : string)
    : outcome (gmap string Qc) :=
  try_except (
    entry ← getitem (models self) "transformer";
    match entry with
    | TransformerModel classifier =>
        predictions ← classifier text;
        Returns (ensure_all (prediction_scores predictions))
    | _ => Raises (KeyError "model")
    end)
  (fun _ => _detect_with_rule_based self text).

(** [for emotion in self.emotions:
       if emotion in result:
         emotion_scores[emotion] += result[emotion] * normalized_weights[model]] *)
Fixpoint accumulate (normalized_weights : gmap string Qc) (model : string)
    (result : gmap string Qc) (todo : list string) (emotion_scores : gmap string Qc)
    : outcome (gmap string Qc) :=
  match todo with
  | [] => Returns emotion_scores
  | emotion :: rest =>
      match result !! emotion with
      | Some score =>
          acc ← getitem emotion_scores emotion;
          w ← getitem normalized_weights model;
          accumulate normalized_weights model result rest
            (<[emotion := acc + score * w]> emotion_scores)
      | None => accumulate normalized_weights model result rest emotion_scores
      end
  end.

Fixpoint weighted_scores (normalized_weights : gmap string Qc)
    (results : list (string * gmap string Qc)) (emotion_scores : gmap string Qc)
    : outcome (gmap string Qc) :=
  match results with
  | [] => Returns emotion_scores
  | (model, result) :: rest =>
      emotion_scores ← accumulate normalized_weights model result emotions emotion_scores;
      weighted_scores normalized_weights rest emotion_scores
  end.

(** [if name in self.models: results[name] = run(text)] *)
Definition collect (self : EmotionDetector) (name : string)
    (run : EmotionDetector -> string -> outcome (gmap string Qc)) (text : string)
    (results : list (string * gmap string Qc))
    : outcome (list (string * gmap string Qc)) :=
  match models self !! name with
  | Some _ => r ← run self text; Returns (results ++ [(name, r)])%list
  | None => Returns results
  end.

Definition ensemble_weights (self : EmotionDetector) : outcome (gmap string Qc) :=
  match models self !! "custom" with
  | Some (CustomModel weights) => Returns weights
  | Some _ => Raises (KeyError "weights")
  | None => Returns default_weights
  end.

(** [# Get results from individual models] *)
Definition collect_results (self : EmotionDetector) (text : string)
    : outcome (list (string * gmap string Qc)) :=
  results ← collect self "transformer" _detect_with_transformer text [];
  collect self "rule-based" _detect_with_rule_based text results.

(** [# Normalize weights based on available models] to the [return]. *)
Definition combine (weights : gmap string Qc) (results : list (string * gmap string Qc))
    : outcome (gmap string Qc) :=
  let available_models := results.*1 in
  let total_weight := total_of weights available_models in
  normalized_weights ← normalized_comprehension weights total_weight available_models;
  weighted_scores normalized_weights results (constant_scores 0).

Definition _detect_with_ensemble (self : EmotionDetector) (text : string)
    : outcome (gmap string Qc) :=
  try_except (
    results ← collect_results self text;
    weights ← ensemble_weights self;
    combine weights results)
  (fun _ => Returns uniform_scores).

Definition _detect_with_custom (self : EmotionDetector) (text : string)
    : outcome (gmap string Qc) :=
  _detect_with_ensemble self text.

(** The [if/elif] chain of [detect] that picks the model. *)
Definition dispatch (self : EmotionDetector) (text : string) : outcome (gmap string Qc) :=
  let has_transformer := bool_decide (is_Some (models self !! "transformer")) in
  if decide (model_type self = "transformer" ∧ has_transformer = true) then
    _detect_with_transformer self text
  else if decide (model_type self = "rule-based"
                  ∨ (model_type self = "transformer" ∧ has_transformer = false)) then
    _detect_with_rule_based self text
  else if decide (model_type self = "custom") then _detect_with_custom self text
  else if decide (model_type self = "all") then _detect_with_ensemble self text
  else _detect_with_rule_based self text.

(** The body of [detect] around the dispatch: [dispatched] is the outcome of
    the chosen [_detect_with_*] method, [elapsed] is [time.time() - start_time]. *)
Definition detect_body (dispatched : outcome (gmap string Qc)) (elapsed : Qc)
    : outcome (gmap string Qc) :=
  try_except (
    result ← dispatched;
    let result := <["processing_time" := elapsed]> result in
    Returns (filter (fun kv => kv.1 ∈ emotions) result))
  (fun _ => Returns (constant_scores 0)).

Definition detect (self : EmotionDetector) (elapsed : Qc) (text : string)
    : outcome (gmap string Qc) :=
  detect_body (dispatch self text) elapsed.

(** What the specification asks of a combined emotion score: the sum, over
    the available backends that score the emotion, of the score multiplied
    by the weight applied to the backend. *)
Definition weighted_sum (applied : string -> Qc)
    (results : list (string * gmap string Qc)) (emotion : string) : Qc :=
  foldl (fun acc (entry : string * gmap string Qc) =>
           match entry.2 !! emotion with
           | Some score => acc + score * applied entry.1
           | None => acc
           end) 0 results.

(** Every one of the six emotions has a score in [m]. *)
Definition covers (m : gmap string Qc) : Prop :=
  ∀ k, k ∈ emotions → is_Some (m !! k).

(** *** Loading the models and batches *)

(** What the [_load_*_model] methods obtain from outside: the transformer
    pipeline and the NLTK stopword list, or the exception raised on the way. *)
Record loaders := {
  load_pipeline : outcome (string -> outcome (list (string * Qc)));
  load_stopwords : outcome (gset string)
}.

Definition emotion_lexicon : list (string * list string) :=
  [("joy", ["happy"; "joy"; "delighted"; "pleased"; "glad"; "excited"; "cheerful"]);
   ("anger", ["angry"; "furious"; "outraged"; "annoyed"; "irritated"; "enraged"]);
   ("fear", ["afraid"; "scared"; "frightened"; "terrified"; "anxious"; "worried"]);
   ("sadness", ["sad"; "unhappy"; "depressed"; "gloomy"; "miserable"; "heartbroken"]);
   ("surprise", ["surprised"; "amazed"; "astonished"; "shocked"; "stunned"]);
   ("disgust", ["disgusted"; "revolted"; "nauseated"; "repulsed"; "appalled"])].

Definition _load_rule_based_model (env : loaders) (models : gmap string model_entry)
    : outcome (gmap string model_entry) :=
  log_and_raise (
    stopwords ← load_stopwords env;
    Returns (<["rule-based" := RuleBasedModel emotion_lexicon stopwords]> models)).

(** On failure the transformer loader falls back to the rule-based model. *)
Definition _load_transformer_model (env : loaders) (models : gmap string model_entry)
    : outcome (gmap string model_entry) :=
  try_except (
    classifier ← load_pipeline env;
    Returns (<["transformer" := TransformerModel classifier]> models))
  (fun _ => _load_rule_based_model env models).

Definition _load_custom_model (models : gmap string model_entry)
    : outcome (gmap string model_entry) :=
  log_and_raise (
    Returns (<["custom" :=
      CustomModel (<["transformer" := qc 7 10]> (<["rule-based" := qc 3 10]> ∅))]>
      models)).

Definition load_models (env : loaders) (model_type : string)
    (models : gmap string model_entry) : outcome (gmap string model_entry) :=
  log_and_raise (
    models ← (if decide (model_type = "transformer" ∨ model_type = "all")
              then _load_transformer_model env models else Returns models);
    models ← (if decide (model_type = "rule-based" ∨ model_type = "all")
              then _load_rule_based_model env models else Returns models);
    if decide (model_type = "custom" ∨ model_type = "all")
    then _load_custom_model models else Returns models).

(** [__init__]: [model_type or "transformer"]. *)
Definition __init__ (env : loaders) (tokenizer : string -> outcome (list string))
    (model_type : option string) : outcome EmotionDetector :=
  let model_type :=
    match model_type with
    | Some t => if decide (t = "") then "transformer" else t
    | None => "transformer"
    end in
  models ← load_models env model_type ∅;
  Returns {| model_type := model_type; models := models; word_tokenize := tokenizer |}.

(** [batch_detect]; [clock i] is the time the [i]-th call of [detect]
    measures. *)
Fixpoint batch_detect_from (self : EmotionDetector) (clock : nat -> Qc) (i : nat)
    (texts : list string) : outcome (list (gmap string Qc)) :=
  match texts with
  | [] => Returns []
  | text :: rest =>
      result ← detect self (clock i) text;
      results ← batch_detect_from self clock (S i) rest;
      Returns (result :: results)
  end.

Definition batch_detect (self : EmotionDetector) (clock : nat -> Qc)
    (texts : list string) : outcome (list (gmap string Qc)) :=
  batch_detect_from self clock 0 texts.

End Emotion.

(** ** The ensemble on binary64 floats *)

(** The definitions above read Python's floats as the rationals they
    denote: every comparison and the order of the operations are kept, the
    rounding of their results is not.  This module transcribes the weight
    normalization, which is the same in [_analyze_with_ensemble] and in
    [_detect_with_ensemble], and the weighted sums of
    [_analyze_with_ensemble] once more, on binary64 floats, for the
    statements in which rounding takes part. *)
Module Binary64.

(** [sum(...)]: the items are added one by one, from left to right, to the
    start value [0], as CPython up to 3.11 does; two items are added in this
    way by every version. *)
Definition sum (l : list float) : float := foldl PrimFloat.add 0%float l.

(** [x / y]: a divisor equal to zero, of either sign, raises. *)
Definition truediv (x y : float) : outcome float :=
  if (y =? 0)%float then Raises ZeroDivisionError else Returns (x / y)%float.

(** [sum(weights[m] for m in available_models if m in weights)];
    [available_models] lists the set in the order in which it is iterated. *)
Definition total_of (weights : gmap string float) (available_models : list string)
    : float :=
  sum (omap (fun model => weights !! model) available_models).

(** [{m: weights[m] / total_weight for m in available_models if m in weights}] *)
Fixpoint normalized_comprehension (weights : gmap string float) (total_weight : float)
    (available_models : list string) : outcome (gmap string float) :=
  match available_models with
  | [] => Returns ∅
  | model :: rest =>
      match weights !! model with
      | Some w =>
          q ← truediv w total_weight;
          d ← normalized_comprehension weights total_weight rest;
          Returns (<[model := q]> d)
      | None => normalized_comprehension weights total_weight rest
      end
  end.

(** The weights [_analyze_with_ensemble] uses without a custom entry. *)
Definition default_weights : gmap string float :=
  <["bert" := 0.6%float]> (<["vader" := 0.3%float]> (<["textblob" := 0.1%float]> ∅)).

(** The ["scores"] dictionary of a single model's result. *)
Inductive model_scores :=
| BertScores (pos neg : float)
| VaderScores (pos neg neu compound : float)
| TextBlobScores (polarity subjectivity : float).

Definition scores_positive (s : model_scores) : outcome float :=
  match s with
  | BertScores p _ | VaderScores p _ _ _ => Returns p
  | TextBlobScores _ _ => Raises (KeyError "positive")
  end.

Definition scores_negative (s : model_scores) : outcome float :=
  match s with
  | BertScores _ n | VaderScores _ n _ _ => Returns n
  | TextBlobScores _ _ => Raises (KeyError "negative")
  end.

Definition scores_neutral (s : model_scores) : outcome float :=
  match s with
  | VaderScores _ _ u _ => Returns u
  | _ => Raises (KeyError "neutral")
  end.

Definition scores_polarity (s : model_scores) : outcome float :=
  match s with
  | TextBlobScores p _ => Returns p
  | _ => Raises (KeyError "polarity")
  end.

(** The three running sums of the ensemble loop. *)
Record tally := { t_pos : float; t_neg : float; t_neu : float }.

Definition zero_tally : tally := {| t_pos := 0; t_neg := 0; t_neu := 0 |}.

(** One iteration of [for model, result in results.items()]; [scores] is
    [result["scores"]]. *)
Definition accumulate (normalized_weights : gmap string float)
    (acc : tally) (model : string) (scores : model_scores) : outcome tally :=
  if decide (model = "bert") then
    p ← scores_positive scores;
    w ← getitem normalized_weights model;
    let acc := {| t_pos := t_pos acc + p * w; t_neg := t_neg acc; t_neu := t_neu acc |} in
    n ← scores_negative scores;
    w ← getitem normalized_weights model;
    Returns {| t_pos := t_pos acc; t_neg := t_neg acc + n * w; t_neu := t_neu acc |}
  else if decide (model = "vader") then
    p ← scores_positive scores;
    w ← getitem normalized_weights model;
    let acc := {| t_pos := t_pos acc + p * w; t_neg := t_neg acc; t_neu := t_neu acc |} in
    n ← scores_negative scores;
    w ← getitem normalized_weights model;
    let acc := {| t_pos := t_pos acc; t_neg := t_neg acc + n * w; t_neu := t_neu acc |} in
    u ← scores_neutral scores;
    w ← getitem normalized_weights model;
    Returns {| t_pos := t_pos acc; t_neg := t_neg acc; t_neu := t_neu acc + u * w |}
  else if decide (model = "textblob") then
    polarity ← scores_polarity scores;
    if (0 <? polarity)%float then
      w ← getitem normalized_weights model;
      Returns {| t_pos := t_pos acc + polarity * w; t_neg := t_neg acc; t_neu := t_neu acc |}
    else if (polarity <? 0)%float then
      w ← getitem normalized_weights model;
      Returns {| t_pos := t_pos acc; t_neg := t_neg acc + abs polarity * w;
                 t_neu := t_neu acc |}
    else
      w ← getitem normalized_weights model;
      Returns {| t_pos := t_pos acc; t_neg := t_neg acc; t_neu := t_neu acc + w |}
  else Returns acc.

Fixpoint weighted_scores (normalized_weights : gmap string float)
    (results : list (string * model_scores)) (acc : tally) : outcome tally :=
  match results with
  | [] => Returns acc
  | (model, scores) :: rest =>
      acc ← accumulate normalized_weights acc model scores;
      weighted_scores normalized_weights rest acc
  end.

(** [# Normalize weights based on available models] to the end of the
    loop; [available_models] is [set(results.keys())] in the order in which
    it is iterated, [results] the dictionary in insertion order. *)
Definition combine (weights : gmap string float) (available_models : list string)
    (results : list (string * model_scores)) : outcome tally :=
  let total_weight := total_of weights available_models in
  normalized_weights ← normalized_comprehension weights total_weight available_models;
  weighted_scores normalized_weights results zero_tally.

End Binary64.

(** ** [StreamManager] *)

Module Streams.

(** The values of the ["status"] key. *)
Inductive status := initializing | running | completed | error | stopped.

#[global] Instance status_eq_dec : EqDecision status.
Proof. solve_decision. Defined.

Definition terminal (s : status) : bool :=
  match s with
  | completed | error | stopped => true
  | initializing | running => false
  end.

(** A value of [self.active_streams]. *)
Record stream_info := {
  id : string;
  source : string;
  query : string;
  duration : Z;
  start_time : string;
  stream_status : status;
  data_count : nat;
  stream_error : option string
}.

Definition set_status (st : status) (s : stream_info) : stream_info :=
  {| id := id s; source := source s; query := query s; duration := duration s;
     start_time := start_time s; stream_status := st;
     data_count := data_count s; stream_error := stream_error s |}.

Definition set_error (msg : string) (s : stream_info) : stream_info :=
  {| id := id s; source := source s; query := query s; duration := duration s;
     start_time := start_time s; stream_status := stream_status s;
     data_count := data_count s; stream_error := Some msg |}.

Definition incr_data_count (s : stream_info) : stream_info :=
  {| id := id s; source := source s; query := query s; duration := duration s;
     start_time := start_time s; stream_status := stream_status s;
     data_count := S (data_count s); stream_error := stream_error s |}.

(** An element of a [self.stream_results] list. *)
Record stream_item := {
  timestamp : string;
  text : string;
  processed : bool;
  sentiment : option Sentiment.analysis;
  emotions : option (gmap string Qc);
  processed_text : option string
}.

(** A registered callback: [await callback(stream_id, text)]. *)
Definition callback := string -> string -> outcome unit.

Record StreamManager := {
  active_streams : gmap string stream_info;
  stream_results : gmap string (list stream_item);
  stream_callbacks : gmap string (list callback)
}.

(** [__init__] *)
Definition init : StreamManager :=
  {| active_streams := ∅; stream_results := ∅; stream_callbacks := ∅ |}.

Definition with_active (f : gmap string stream_info -> gmap string stream_info)
    (self : StreamManager) : StreamManager :=
  {| active_streams := f (active_streams self);
     stream_results := stream_results self;
     stream_callbacks := stream_callbacks self |}.

Definition with_results
    (f : gmap string (list stream_item) -> gmap string (list stream_item))
    (self : StreamManager) : StreamManager :=
  {| active_streams := active_streams self;
     stream_results := f (stream_results self);
     stream_callbacks := stream_callbacks self |}.

Definition with_callbacks
    (f : gmap string (list callback) -> gmap string (list callback))
    (self : StreamManager) : StreamManager :=
  {| active_streams := active_streams self;
     stream_results := stream_results self;
     stream_callbacks := f (stream_callbacks self) |}.

(** [self.active_streams[stream_id][key] = v]: raises [KeyError] on an
    unknown id, and then changes nothing. *)
Definition update_stream (stream_id : string) (f : stream_info -> stream_info)
    (self : StreamManager) : StreamManager * outcome unit :=
  match active_streams self !! stream_id with
  | Some s => (with_active <[stream_id := f s]> self, Returns tt)
  | None => (self, Raises (KeyError stream_id))
  end.

(** What a call reads from outside the manager. *)
Record environment := {
  uuid4 : string;                       (* str(uuid.uuid4()) *)
  now : string;                         (* datetime.now() *)
  launch : string -> outcome unit
    (* the body of [_start_<source>_stream] before the status update:
       imports, credentials, client set-up and [asyncio.create_task] *)
}.

(** The shape shared by the four [_start_*_stream] methods. *)
Definition start_adapter (launched : outcome unit) (stream_id : string)
    (self : StreamManager) : StreamManager :=
  match launched with
  | Returns _ => (update_stream stream_id (set_status running) self).1
  | Raises e =>
      let self := (update_stream stream_id (set_status error) self).1 in
      (update_stream stream_id (set_error (str e)) self).1
  end.

Definition _start_twitter_stream (env : environment) := start_adapter (launch env "twitter").
Definition _start_reddit_stream (env : environment) := start_adapter (launch env "reddit").
Definition _start_kafka_stream (env : environment) := start_adapter (launch env "kafka").
Definition _start_custom_stream (env : environment) := start_adapter (launch env "custom").

Definition start_stream (env : environment) (source query : string) (duration : Z)
    (self : StreamManager) : StreamManager * outcome string :=
  let stream_id := uuid4 env in
  let self :=
    with_active <[stream_id :=
      {| id := stream_id; source := source; query := query; duration := duration;
         start_time := now env; stream_status := initializing;
         data_count := 0; stream_error := None |}]> self in
  let self := with_results <[stream_id := []]> self in
  if decide (source = "twitter") then
    (_start_twitter_stream env stream_id self, Returns stream_id)
  else if decide (source = "reddit") then
    (_start_reddit_stream env stream_id self, Returns stream_id)
  else if decide (source = "kafka") then
    (_start_kafka_stream env stream_id self, Returns stream_id)
  else if decide (source = "custom") then
    (_start_custom_stream env stream_id self, Returns stream_id)
  else (self, Raises (ValueError ("Unknown source: " +:+ source))).

(** [_process_stream_data] up to the callbacks: the item is stored and
    counted; a [KeyError] on the way is logged and dropped. *)
Definition _process_stream_data (iso_now : string) (stream_id text : string)
    (self : StreamManager) : StreamManager :=
  match stream_results self !! stream_id with
  | None => self
  | Some items =>
      let item := {| timestamp := iso_now; text := text; processed := false;
                     sentiment := None; emotions := None; processed_text := None |} in
      let self := with_results <[stream_id := (items ++ [item])%list]> self in
      (update_stream stream_id incr_data_count self).1
  end.

(** A registered callable is arbitrary code.  Its entry in
    [stream_callbacks] tells how [await callback(stream_id, text)] ends;
    while it runs it can also hold a reference to the manager, call its
    methods and write its tables, and other tasks run while it is
    suspended: [reenter cb stream_id text] is what happens to the manager
    during that call. *)
Definition reentry := callback -> string -> string -> StreamManager -> StreamManager.

(** [for callback in self.stream_callbacks[stream_id]:
       await callback(stream_id, text)], from index [i] of the list.
    The list is read again at every step, as Python's list iterator does, so
    a callable appended meanwhile (by [register_callback], from a callback)
    is awaited too and the loop need not end: [fuel] bounds the number of
    steps, [None] tells that it was not enough.  The list object is
    identified with the entry of the table. *)
Fixpoint await_callbacks (reenter : reentry) (fuel i : nat) (stream_id text : string)
    (self : StreamManager) : option (StreamManager * outcome unit) :=
  match fuel with
  | O => None
  | S fuel =>
      match stream_callbacks self !! stream_id ≫= (fun callbacks => callbacks !! i) with
      | None => Some (self, Returns tt)
      | Some cb =>
          let self := reenter cb stream_id text self in
          match cb stream_id text with
          | Raises e => Some (self, Raises e)
          | Returns _ => await_callbacks reenter fuel (S i) stream_id text self
          end
      end
  end.

(** [_process_stream_data] with the callbacks it awaits.  The callbacks are
    reached when the statements before them raised nothing; an exception of
    a callback ends the loop and is logged and dropped. *)
Definition _process_stream_data_awaiting (reenter : reentry) (fuel : nat)
    (iso_now stream_id text : string) (self : StreamManager) : option StreamManager :=
  let pushed := _process_stream_data iso_now stream_id text self in
  match stream_results self !! stream_id, active_streams self !! stream_id,
        stream_callbacks self !! stream_id with
  | Some _, Some _, Some _ => fst <$> await_callbacks reenter fuel 0 stream_id text pushed
  | _, _, _ => Some pushed
  end.

(** The loop of [process_stream]; [todo] is the part of the list still to
    visit, [i] its first index, [items] the list as updated so far.  The
    second component lists the indices scored, the third how the loop ended. *)
Fixpoint process_loop (text_processor : string -> outcome string)
    (sentiment_analyzer : string -> outcome Sentiment.analysis)
    (todo : list stream_item) (i : nat) (items : list stream_item)
    : list stream_item * list nat * outcome unit :=
  match todo with
  | [] => (items, [], Returns tt)
  | item :: rest =>
      if processed item then
        process_loop text_processor sentiment_analyzer rest (S i) items
      else
        match text_processor (text item) with
        | Raises e => (items, [], Raises e)
        | Returns ptext =>
            match sentiment_analyzer ptext with
            | Raises e => (items, [], Raises e)
            | Returns sentiment_result =>
                let item' :=
                  {| timestamp := timestamp item; text := text item;
                     processed := true; sentiment := Some sentiment_result;
                     emotions := emotions item; processed_text := Some ptext |} in
                let '(items, scored, r) :=
                  process_loop text_processor sentiment_analyzer rest (S i)
                    (<[i := item']> items) in
                (items, i :: scored, r)
            end
        end
  end.

(** [process_stream]: the manager afterwards, the indices scored, and the
    exception its [except] clause logged, if any.  The call itself always
    returns [None]. *)
Definition process_stream_run (text_processor : string -> outcome string)
    (sentiment_analyzer : string -> outcome Sentiment.analysis)
    (stream_id : string) (self : StreamManager)
    : StreamManager * list nat * outcome unit :=
  match active_streams self !! stream_id with
  | None => (self, [], Raises (ValueError ("Stream " +:+ stream_id +:+ " not found")))
  | Some _ =>
      match stream_results self !! stream_id with
      | None => (self, [], Raises (KeyError stream_id))
      | Some items =>
          let '(items', scored, r) :=
            process_loop text_processor sentiment_analyzer items 0 items in
          (with_results <[stream_id := items']> self, scored, r)
      end
  end.

Definition process_stream (text_processor : string -> outcome string)
    (sentiment_analyzer : string -> outcome Sentiment.analysis)
    (stream_id : string) (self : StreamManager) : StreamManager * outcome unit :=
  let '(self', _, logged) :=
    process_stream_run text_processor sentiment_analyzer stream_id self in
  (self', try_except logged (fun _ => Returns tt)).

Definition register_callback (stream_id : string) (cb : callback)
    (self : StreamManager) : StreamManager * outcome unit :=
  let self :=
    match stream_callbacks self !! stream_id with
    | None => with_callbacks <[stream_id := []]> self
    | Some _ => self
    end in
  match stream_callbacks self !! stream_id with
  | Some cbs => (with_callbacks <[stream_id := (cbs ++ [cb])%list]> self, Returns tt)
  | None => (self, Raises (KeyError stream_id))
  end.

Definition get_stream_status (stream_id : string) (self : StreamManager)
    : StreamManager * outcome stream_info :=
  match active_streams self !! stream_id with
  | None => (self, Raises (ValueError ("Stream " +:+ stream_id +:+ " not found")))
  | Some s => (self, Returns s)
  end.

(** [results[-limit:]] *)
Definition last_items {A} (limit : Z) (results : list A) : list A :=
  if decide (0 < limit)%Z then drop (length results - Z.to_nat limit) results
  else drop (Z.to_nat (- limit)) results.

Definition get_stream_results (stream_id : string) (limit : Z) (processed_only : bool)
    (self : StreamManager) : StreamManager * outcome (list stream_item) :=
  match stream_results self !! stream_id with
  | None => (self, Raises (ValueError ("Stream " +:+ stream_id +:+ " not found")))
  | Some results =>
      let results :=
        if processed_only then filter (fun item => processed item = true) results
        else results in
      (self, Returns (last_items limit results))
  end.

Definition stop_stream (stream_id : string) (self : StreamManager)
    : StreamManager * outcome unit :=
  match active_streams self !! stream_id with
  | None => (self, Raises (ValueError ("Stream " +:+ stream_id +:+ " not found")))
  | Some _ => update_stream stream_id (set_status stopped) self
  end.

(** One reading of the clocks by the loop of [_run_custom_stream]:
    [time.time()], then [datetime.now()] for the sample text and for the
    item's timestamp. *)
Record tick := { time_s : Qc; now_text : string; now_iso : string }.

(** The [while True] loop of [_run_custom_stream] over the clock readings it
    makes; [None] when the readings end before the loop does (the task is
    still running). *)
Fixpoint custom_loop (stream_id query : string) (duration : Z) (start : Qc)
    (ticks : list tick) (self : StreamManager) : option StreamManager :=
  match ticks with
  | [] => None
  | t :: rest =>
      if decide ((0 < duration)%Z ∧ Qc_of_Z duration < time_s t - start) then Some self
      else
        let sample_text :=
          ("Sample data for query '" +:+ query +:+ "' at " +:+ now_text t)%string in
        custom_loop stream_id query duration start rest
          (_process_stream_data (now_iso t) stream_id sample_text self)
  end.

(** [_run_custom_stream], the adapter task of a custom stream. *)
Definition _run_custom_stream (stream_id query : string) (duration : Z) (start : Qc)
    (ticks : list tick) (self : StreamManager) : option (StreamManager * outcome unit) :=
  self ← custom_loop stream_id query duration start ticks self;
  Some (
    match update_stream stream_id (set_status completed) self with
    | (self, Returns _) => (self, Returns tt)
    | (self, Raises e) =>
        match update_stream stream_id (set_status error) self with
        | (self, Raises e') => (self, Raises e')
        | (self, Returns _) => update_stream stream_id (set_error (str e)) self
        end
    end).

(** The [except] clause shared by the [_run_*_stream] tasks: the adapter
    raised [e] while running. *)
Definition adapter_failed (stream_id msg : string) (self : StreamManager)
    : StreamManager * outcome unit :=
  match update_stream stream_id (set_status error) self with
  | (self, Raises e) => (self, Raises e)
  | (self, Returns _) => update_stream stream_id (set_error msg) self
  end.

(** *** Reference descriptions used by the statements *)

(** What the specification asks of one item in a scoring pass: an item with
    [processed = true] is skipped; any other is normalized, scored, and
    written back with [processed = true] and its results. *)
Definition score_item (text_processor : string -> outcome string)
    (sentiment_analyzer : string -> outcome Sentiment.analysis)
    (item : stream_item) : outcome stream_item :=
  if processed item then Returns item
  else
    ptext ← text_processor (text item);
    sentiment_result ← sentiment_analyzer ptext;
    Returns {| timestamp := timestamp item; text := text item;
               processed := true; sentiment := Some sentiment_result;
               emotions := emotions item; processed_text := Some ptext |}.

(** The indices, counted from [i], of the items with [processed = false]. *)
Fixpoint unprocessed_from (i : nat) (items : list stream_item) : list nat :=
  match items with
  | [] => []
  | item :: rest =>
      if processed item then unprocessed_from (S i) rest
      else i :: unprocessed_from (S i) rest
  end.

(** The ["status"] of a session, if the session exists. *)
Definition status_of (self : StreamManager) (stream_id : string) : option status :=
  stream_status <$> active_streams self !! stream_id.

(** The adapter kinds [start_stream] knows. *)
Definition known_sources : list string := ["twitter"; "reddit"; "kafka"; "custom"].

(** [health_check]: the number of sessions in [active_streams] and their
    ids. *)
Definition health_check (self : StreamManager) : string * nat * gset string :=
  ("healthy", size (active_streams self), dom (active_streams self)).

(** The two tables agree: the same ids, and each session's [data_count] is
    the length of its result list. *)
Definition consistent (self : StreamManager) : Prop :=
  ∀ stream_id,
    match active_streams self !! stream_id, stream_results self !! stream_id with
    | Some s, Some items => data_count s = length items
    | None, None => True
    | _, _ => False
    end.

(** One action on the manager: a call of a public method, a push by an
    adapter task, or an adapter task reaching its end. *)
Inductive step : StreamManager -> StreamManager -> Prop :=
| step_start env source query duration self :
    step self (start_stream env source query duration self).1
| step_push iso_now stream_id text self :
    step self (_process_stream_data iso_now stream_id text self)
| step_process text_processor sentiment_analyzer stream_id self :
    step self (process_stream text_processor sentiment_analyzer stream_id self).1
| step_register stream_id cb self :
    step self (register_callback stream_id cb self).1
| step_status stream_id self :
    step self (get_stream_status stream_id self).1
| step_results stream_id limit processed_only self :
    step self (get_stream_results stream_id limit processed_only self).1
| step_stop stream_id self :
    step self (stop_stream stream_id self).1
| step_task_end stream_id query duration start ticks self self' r :
    _run_custom_stream stream_id query duration start ticks self = Some (self', r) ->
    step self self'
| step_task_failed stream_id msg self :
    step self (adapter_failed stream_id msg self).1.

(** The managers that [__init__] and any sequence of actions lead to. *)
Definition reachable (self : StreamManager) : Prop := rtc step init self.

(** A clock reading at which the loop of [_run_custom_stream] breaks. *)
Definition expired (duration : Z) (start : Qc) (t : tick) : Prop :=
  (0 < duration)%Z ∧ Qc_of_Z duration < time_s t - start.


End Streams.

(** ** Example configurations *)

Module Examples.

(** A sentiment analyzer created with [model_type = "custom"]: [load_models]
    loads the custom entry only. *)
Definition custom_only : Sentiment.SentimentAnalyzer :=
  {| Sentiment.model_type := "custom";
     Sentiment.models := {[ "custom" := Sentiment.CustomModel Sentiment.default_weights ]} |}.

(** An emotion detector created with [model_type = "custom"]. *)
Definition custom_only_detector : Emotion.EmotionDetector :=
  {| Emotion.model_type := "custom";
     Emotion.models := {[ "custom" := Emotion.CustomModel Emotion.default_weights ]};
     Emotion.word_tokenize := fun _ => Returns [] |}.

(** Only VADER in [models], reporting positive 0.8, negative 0.1, neutral 0.1. *)
Definition vader_only : Sentiment.SentimentAnalyzer :=
  {| Sentiment.model_type := "all";
     Sentiment.models :=
       {[ "vader" := Sentiment.VaderModel (fun _ =>
            Returns {| Sentiment.v_pos := qc 8 10; Sentiment.v_neg := qc 1 10;
                       Sentiment.v_neu := qc 1 10; Sentiment.v_compound := qc 7 10 |}) ]} |}.

(** Only the transformer in [models], reporting joy 0.9 and sadness 0.1. *)
Definition transformer_only : Emotion.EmotionDetector :=
  {| Emotion.model_type := "all";
     Emotion.models :=
       {[ "transformer" := Emotion.TransformerModel (fun _ =>
            Returns [("Joy", qc 9 10); ("Sadness", qc 1 10)]) ]};
     Emotion.word_tokenize := fun _ => Returns [] |}.

(** All three sentiment backends and the custom entry, as [load_models]
    leaves them for [model_type = "all"]; TextBlob reports polarity 0. *)
Definition all_models : Sentiment.SentimentAnalyzer :=
  {| Sentiment.model_type := "all";
     Sentiment.models :=
       <["bert" := Sentiment.BertModel (fun _ => Returns (qc 1 10, qc 9 10))]>
       (<["vader" := Sentiment.VaderModel (fun _ =>
            Returns {| Sentiment.v_pos := qc 8 10; Sentiment.v_neg := qc 1 10;
                       Sentiment.v_neu := qc 1 10; Sentiment.v_compound := qc 7 10 |})]>
       (<["textblob" := Sentiment.TextBlobModel (fun _ => Returns (0, qc 5 10))]>
       {[ "custom" := Sentiment.CustomModel Sentiment.default_weights ]})) |}.

(** What the backends of [vader_only] and [transformer_only] return. *)
Definition vader_only_results : list (string * Sentiment.model_result) :=
  Eval vm_compute in
    match Sentiment.collect_results vader_only "I love this" with
    | Returns results => results
    | Raises _ => []
    end.

Definition vader_only_result : Sentiment.ensemble_result :=
  Eval vm_compute in
    match Sentiment._analyze_with_ensemble vader_only "I love this" with
    | Returns r => r
    | Raises _ => Sentiment.ensemble_dict [] Sentiment.zero_tally
    end.

Definition transformer_only_results : list (string * gmap string Qc) :=
  Eval vm_compute in
    match Emotion.collect_results transformer_only "I love this" with
    | Returns results => results
    | Raises _ => []
    end.

(** What the backends of [all_models] return for one text. *)
Definition all_models_results : list (string * Sentiment.model_result) :=
  Eval vm_compute in
    match Sentiment.collect_results all_models "I love this" with
    | Returns results => results
    | Raises _ => []
    end.

Definition all_models_textblob : Sentiment.model_result :=
  {| Sentiment.mr_sentiment := Sentiment.neutral;
     Sentiment.mr_confidence := 1 - Qcabs 0 * qc 5 10;
     Sentiment.mr_model := "textblob";
     Sentiment.mr_scores := Sentiment.TextBlobScores 0 (qc 5 10) |}.

(** The weights [all_models] applies, and the sums before TextBlob's turn. *)
Definition all_models_weights : gmap string Qc :=
  Eval vm_compute in
    match normalized_comprehension Sentiment.default_weights
            (total_of Sentiment.default_weights all_models_results.*1)
            all_models_results.*1 with
    | Returns nw => nw
    | Raises _ => ∅
    end.

Definition all_models_others_tally : Sentiment.tally :=
  Eval vm_compute in
    match Sentiment.weighted_scores all_models_weights (take 2 all_models_results)
            Sentiment.zero_tally with
    | Returns t => t
    | Raises _ => Sentiment.zero_tally
    end.

(** BERT and VADER in [models]; the BERT call raises. *)
Definition failing_bert : Sentiment.SentimentAnalyzer :=
  {| Sentiment.model_type := "all";
     Sentiment.models :=
       <["bert" := Sentiment.BertModel (fun _ => Raises (Exception "CUDA out of memory"))]>
       {[ "vader" := Sentiment.VaderModel (fun _ =>
            Returns {| Sentiment.v_pos := qc 8 10; Sentiment.v_neg := qc 1 10;
                       Sentiment.v_neu := qc 1 10; Sentiment.v_compound := qc 7 10 |}) ]} |}.

(** Clocks and identifiers for one call of [start_stream]; every adapter
    launches. *)
Definition env1 : Streams.environment :=
  {| Streams.uuid4 := "3f2b8c1e-0001";
     Streams.now := "2024-01-01 00:00:00";
     Streams.launch := fun _ => Returns tt |}.

(** A text processor and an analyzer for [process_stream]. *)
Definition plain_processor : string -> outcome string := fun text => Returns text.

Definition vader_analyzer : string -> outcome Sentiment.analysis :=
  Sentiment.analyze vader_only 0.

Definition failing_analyzer : string -> outcome Sentiment.analysis :=
  Sentiment.analyze failing_bert 0.

(** A manager with one custom stream, started and running. *)
Definition one_stream : Streams.StreamManager :=
  (Streams.start_stream env1 "custom" "python" 60 Streams.init).1.

(** The same with two items pushed by the adapter. *)
Definition two_items : Streams.StreamManager :=
  Streams._process_stream_data "2024-01-01T00:00:02" "3f2b8c1e-0001" "bad"
    (Streams._process_stream_data "2024-01-01T00:00:01" "3f2b8c1e-0001" "good"
       one_stream).

(** The stream of [one_stream] after its adapter task completed. *)
Definition completed_stream : Streams.StreamManager :=
  (Streams.update_stream "3f2b8c1e-0001" (Streams.set_status Streams.completed)
     one_stream).1.

(** The clock reading at which the adapter of [one_stream] sees its 60
    seconds elapsed. *)
Definition late_tick : Streams.tick :=
  {| Streams.time_s := qc 61 1; Streams.now_text := "2024-01-01 00:01:01";
     Streams.now_iso := "2024-01-01T00:01:01" |}.

(** [two_items] after a pass of [process_stream] with [vader_analyzer]. *)
Definition two_items_scored : Streams.StreamManager :=
  Eval vm_compute in
    (Streams.process_stream plain_processor vader_analyzer "3f2b8c1e-0001" two_items).1.

(** [one_stream] after [stop_stream]. *)
Definition stopped_stream : Streams.StreamManager :=
  (Streams.stop_stream "3f2b8c1e-0001" one_stream).1.


(** Loaders whose three models load. *)
Definition loaders_ok : Sentiment.loaders :=
  {| Sentiment.load_bert := Returns (fun _ => Returns (qc 1 10, qc 9 10));
     Sentiment.load_vader := Returns (fun _ =>
       Returns {| Sentiment.v_pos := qc 8 10; Sentiment.v_neg := qc 1 10;
                  Sentiment.v_neu := qc 1 10; Sentiment.v_compound := qc 7 10 |});
     Sentiment.load_textblob := Returns (fun _ => Returns (0, qc 5 10)) |}.

(** [MODEL_CONFIG] without a ["default_model"] key. *)
Definition no_default_model : outcome string := Raises (KeyError "default_model").

(** Emotion loaders: the transformer pipeline cannot be fetched, the
    stopword list is there. *)
Definition no_pipeline : Emotion.loaders :=
  {| Emotion.load_pipeline := Raises (Exception "connection error");
     Emotion.load_stopwords := Returns {[ "i"; "am"; "so" ]} |}.

(** A tokenizer that splits nothing. *)
Definition one_token : string -> outcome (list string) := fun text => Returns [text]%list.

(** Only VADER loaded, and a custom entry that gives it the weight 0. *)
Definition zero_weight : Sentiment.SentimentAnalyzer :=
  {| Sentiment.model_type := "all";
     Sentiment.models :=
       <["vader" := Sentiment.VaderModel (fun _ =>
            Returns {| Sentiment.v_pos := qc 8 10; Sentiment.v_neg := qc 1 10;
                       Sentiment.v_neu := qc 1 10; Sentiment.v_compound := qc 7 10 |})]>
       {[ "custom" := Sentiment.CustomModel {[ "vader" := 0 ]} ]} |}.

Definition zero_weight_results : list (string * Sentiment.model_result) :=
  Eval vm_compute in
    match Sentiment.collect_results zero_weight "I love this" with
    | Returns results => results
    | Raises _ => []
    end.

(** Only the transformer loaded, and a custom entry that gives it the weight 0. *)
Definition zero_weight_detector : Emotion.EmotionDetector :=
  {| Emotion.model_type := "all";
     Emotion.models :=
       <["transformer" := Emotion.TransformerModel (fun _ =>
            Returns [("Joy", qc 9 10); ("Sadness", qc 1 10)])]>
       {[ "custom" := Emotion.CustomModel {[ "transformer" := 0 ]} ]};
     Emotion.word_tokenize := fun _ => Returns [] |}.

(** A callable that returns [None], and one that, while it is awaited,
    stops the stream of [one_stream]. *)
Definition notify : Streams.callback := fun _ _ => Returns tt.

Definition stop_on_push : Streams.reentry :=
  fun _ _ _ manager => (Streams.stop_stream "3f2b8c1e-0001" manager).1.

Definition quiet : Streams.reentry := fun _ _ _ manager => manager.

(** [one_stream] with [notify] registered for its stream. *)
Definition notified_stream : Streams.StreamManager :=
  (Streams.register_callback "3f2b8c1e-0001" notify one_stream).1.

(** Probe backends: each reports the score 1.0 for positive. *)
Definition probe_results : list (string * Binary64.model_scores) :=
  [("bert", Binary64.BertScores 1 0);
   ("vader", Binary64.VaderScores 1 0 0 1);
   ("textblob", Binary64.TextBlobScores 1 1)]%float.

End Examples.

(** * Properties *)

(** ** Arithmetic on outcomes and rationals *)

Lemma qc_eq (x y : Qc) : (x == y)%Q -> x = y.
Proof. apply Qc_is_canon. Qed.

(** Closed equalities between rationals. *)
Ltac qc_closed := apply qc_eq; vm_compute; reflexivity.

Lemma processing_time_no_emotion : "processing_time" ∉ Emotion.emotions.
Proof. apply (bool_decide_unpack _). by vm_compute. Qed.

Lemma filter_processing_time (elapsed : Qc) (m : gmap string Qc) :
  (∀ k, is_Some (m !! k) → k ∈ Emotion.emotions) →
  filter (λ kv, kv.1 ∈ Emotion.emotions) (<["processing_time" := elapsed]> m) = m.
Proof.
  intros Hm. rewrite map_filter_insert_False.
  - rewrite map_filter_delete. rewrite (map_filter_id _ m).
    + apply delete_id. destruct (m !! "processing_time") eqn:E; [|done].
      destruct processing_time_no_emotion. apply Hm. eauto.
    + intros k x Hk. simpl. apply Hm. eauto.
  - apply processing_time_no_emotion.
Qed.

Lemma constant_scores_lookup (v : Qc) (k : string) :
  Emotion.constant_scores v !! k = if decide (k ∈ Emotion.emotions) then Some v else None.
Proof.
  unfold Emotion.constant_scores.
  destruct (decide (k ∈ Emotion.emotions)) as [Hin|Hnin].
  - apply elem_of_list_to_map_1'.
    + intros y [z [[= <- <-] _]]%list_elem_of_fmap. done.
    + apply list_elem_of_fmap. eauto.
  - apply not_elem_of_list_to_map_1. rewrite <- list_fmap_compose.
    by rewrite list_fmap_id.
Qed.

Lemma constant_scores_keys (v : Qc) (k : string) :
  is_Some (Emotion.constant_scores v !! k) → k ∈ Emotion.emotions.
Proof. rewrite constant_scores_lookup. case_decide; [done | by intros [? ?]]. Qed.

(** ** The ensembles without a backend *)

(** C1.  Whatever the weights are, when none of the sentiment backends
    (bert, vader, textblob) is in [models], the sentiment ensemble returns
    the label neutral with confidence 0 and the scores 0, 0, 0; when none of
    the emotion backends (transformer, rule-based) is in [models], the
    emotion ensemble returns the score 0 for each of the six emotions.  Both
    are returns, not exceptions, also through [analyze] and [detect]. *)
Theorem no_backend_degraded_default
    (self : Sentiment.SentimentAnalyzer) (det : Emotion.EmotionDetector)
    (text : string) (elapsed : Qc) (w w' : gmap string Qc) :
  Sentiment.models self !! "bert" = None →
  Sentiment.models self !! "vader" = None →
  Sentiment.models self !! "textblob" = None →
  Sentiment.ensemble_weights self = Returns w →
  Emotion.models det !! "transformer" = None →
  Emotion.models det !! "rule-based" = None →
  Emotion.ensemble_weights det = Returns w' →
  let degraded :=
    {| Sentiment.sentiment := Sentiment.neutral; Sentiment.confidence := 0;
       Sentiment.model := "ensemble";
       Sentiment.positive_score := 0; Sentiment.negative_score := 0;
       Sentiment.neutral_score := 0; Sentiment.individual_results := [] |} in
  Sentiment._analyze_with_ensemble self text = Returns degraded ∧
  (Sentiment.model_type self = "all" ∨ Sentiment.model_type self = "custom" →
   Sentiment.analyze self elapsed text =
     Returns {| Sentiment.body := Sentiment.OfEnsemble degraded;
                Sentiment.processing_time := elapsed |}) ∧
  Emotion._detect_with_ensemble det text = Returns (Emotion.constant_scores 0) ∧
  (Emotion.model_type det = "all" ∨ Emotion.model_type det = "custom" →
   Emotion.detect det elapsed text = Returns (Emotion.constant_scores 0)) ∧
  (∀ emotion, Emotion.constant_scores 0 !! emotion =
     if decide (emotion ∈ Emotion.emotions) then Some 0 else None).
Proof.
  intros Hb Hv Ht Hw Htr Hrb Hw' degraded.
  assert (Hens : Sentiment._analyze_with_ensemble self text = Returns degraded).
  { unfold Sentiment._analyze_with_ensemble, Sentiment.collect_results, Sentiment.collect.
    rewrite Hb, Hv, Ht. simpl. rewrite Hw. simpl.
    unfold Sentiment.combine, Sentiment.ensemble_dict, Sentiment.final_sentiment. simpl.
    repeat case_decide; try done; exfalso;
      match goal with H : _ ∧ _ |- _ => destruct H as [H _]; by apply Qclt_not_eq in H end. }
  assert (Hdet : Emotion._detect_with_ensemble det text
                 = Returns (Emotion.constant_scores 0)).
  { unfold Emotion._detect_with_ensemble, Emotion.collect_results, Emotion.collect.
    rewrite Htr, Hrb. simpl. rewrite Hw'. done. }
  split_and!; [done | | done | | apply constant_scores_lookup].
  - intros [Hm|Hm]; unfold Sentiment.analyze, Sentiment._analyze_with_custom;
      rewrite Hm; simpl; rewrite Hens; done.
  - intros [Hm|Hm]; unfold Emotion.detect, Emotion.dispatch, Emotion._detect_with_custom;
      rewrite Hm; repeat case_decide; try (exfalso; intuition discriminate);
      rewrite Hdet; unfold Emotion.detect_body; simpl; f_equal;
      apply filter_processing_time, constant_scores_keys.
Qed.

Lemma no_backend_degraded_default_witness :
  Sentiment._analyze_with_ensemble Examples.custom_only "I love this" =
    Returns {| Sentiment.sentiment := Sentiment.neutral; Sentiment.confidence := 0;
               Sentiment.model := "ensemble";
               Sentiment.positive_score := 0; Sentiment.negative_score := 0;
               Sentiment.neutral_score := 0; Sentiment.individual_results := [] |} ∧
  Emotion._detect_with_ensemble Examples.custom_only_detector "I love this" =
    Returns (Emotion.constant_scores 0).
Proof.
  destruct (no_backend_degraded_default
              Examples.custom_only Examples.custom_only_detector "I love this" 0
              Sentiment.default_weights Emotion.default_weights)
    as (H1 & _ & H3 & _); try reflexivity.
  split; [exact H1 | exact H3].
Defined.

(** ** Inverting the sentiment ensemble *)

Lemma bind_returns {A B} (m : outcome A) (k : A → outcome B) (b : B) :
  m ≫= k = Returns b → ∃ a, m = Returns a ∧ k a = Returns b.
Proof. destruct m; simpl; [eauto | discriminate]. Qed.

Lemma log_and_raise_id {A} (m : outcome A) : log_and_raise m = m.
Proof. by destruct m. Qed.

Lemma ensemble_returns (self : Sentiment.SentimentAnalyzer) (text : string)
    (r : Sentiment.ensemble_result) :
  Sentiment._analyze_with_ensemble self text = Returns r →
  ∃ results weights normalized_weights t,
    Sentiment.collect_results self text = Returns results ∧
    Sentiment.ensemble_weights self = Returns weights ∧
    normalized_comprehension weights (total_of weights results.*1) results.*1
      = Returns normalized_weights ∧
    Sentiment.weighted_scores normalized_weights results Sentiment.zero_tally
      = Returns t ∧
    r = Sentiment.ensemble_dict results t.
Proof.
  unfold Sentiment._analyze_with_ensemble. rewrite log_and_raise_id. intros H.
  apply bind_returns in H as (results & H1 & H).
  apply bind_returns in H as (weights & Hw & H).
  apply bind_returns in H as (nw & Hn & H).
  apply bind_returns in H as (t & Ht & [= <-]).
  by exists results, weights, nw, t.
Qed.

(** ** The label rule *)

Lemma final_sentiment_rule (t : Sentiment.tally) :
  let p := Sentiment.t_pos t in
  let n := Sentiment.t_neg t in
  let u := Sentiment.t_neu t in
  ((Sentiment.final_sentiment t).1 = Sentiment.positive ↔ n < p ∧ u < p) ∧
  ((Sentiment.final_sentiment t).1 = Sentiment.negative ↔ p < n ∧ u < n) ∧
  ((Sentiment.final_sentiment t).1 = Sentiment.neutral ↔
     ¬ (n < p ∧ u < p) ∧ ¬ (p < n ∧ u < n)) ∧
  (Sentiment.final_sentiment t).2 =
    match (Sentiment.final_sentiment t).1 with
    | Sentiment.positive => p
    | Sentiment.negative => n
    | Sentiment.neutral => u
    end.
Proof.
  simpl. unfold Sentiment.final_sentiment.
  destruct (decide (Sentiment.t_neg t < Sentiment.t_pos t
                    ∧ Sentiment.t_neu t < Sentiment.t_pos t)) as [Hp|Hp];
    [|destruct (decide (Sentiment.t_pos t < Sentiment.t_neg t
                        ∧ Sentiment.t_neu t < Sentiment.t_neg t)) as [Hn|Hn]];
    simpl; split_and!; try done; try tauto.
  - split; [done|]. intros [Hlt _]. destruct Hp as [Hp _].
    destruct (Qclt_not_le _ _ Hp). by apply Qclt_le_weak.
  - split; [done | tauto].
  - split; [done | tauto].
Qed.

(** C4.  On every result of the sentiment ensemble, with [p], [n], [u] the
    combined positive, negative and neutral scores: the label is positive
    iff [p] is strictly greater than both [n] and [u]; it is negative iff [n]
    is strictly greater than both [p] and [u]; it is neutral in every other
    case (ties and all-zero included); and the confidence is the score of
    the bucket the label names, the neutral score itself for neutral. *)
Theorem ensemble_label_rule (self : Sentiment.SentimentAnalyzer) (text : string)
    (r : Sentiment.ensemble_result) :
  Sentiment._analyze_with_ensemble self text = Returns r →
  let p := Sentiment.positive_score r in
  let n := Sentiment.negative_score r in
  let u := Sentiment.neutral_score r in
  (Sentiment.sentiment r = Sentiment.positive ↔ n < p ∧ u < p) ∧
  (Sentiment.sentiment r = Sentiment.negative ↔ p < n ∧ u < n) ∧
  (Sentiment.sentiment r = Sentiment.neutral ↔
     ¬ (n < p ∧ u < p) ∧ ¬ (p < n ∧ u < n)) ∧
  Sentiment.confidence r =
    match Sentiment.sentiment r with
    | Sentiment.positive => p
    | Sentiment.negative => n
    | Sentiment.neutral => u
    end.
Proof.
  intros H. apply ensemble_returns in H as (results & ? & ? & t & H).
  destruct H as (_ & _ & _ & _ & Hr). subst r.
  pose proof (final_sentiment_rule t) as Ht. revert Ht.
  unfold Sentiment.ensemble_dict. by destruct (Sentiment.final_sentiment t).
Qed.

Lemma ensemble_label_rule_witness :
  Sentiment._analyze_with_ensemble Examples.vader_only "I love this"
    = Returns Examples.vader_only_result ∧
  (Sentiment.sentiment Examples.vader_only_result = Sentiment.positive ↔
     Sentiment.negative_score Examples.vader_only_result
       < Sentiment.positive_score Examples.vader_only_result
     ∧ Sentiment.neutral_score Examples.vader_only_result
       < Sentiment.positive_score Examples.vader_only_result) ∧
  Sentiment.sentiment Examples.vader_only_result = Sentiment.positive ∧
  Sentiment.confidence Examples.vader_only_result = qc 8 10.
Proof.
  assert (H : Sentiment._analyze_with_ensemble Examples.vader_only "I love this"
              = Returns Examples.vader_only_result) by (vm_compute; reflexivity).
  split; [exact H|].
  split; [|split; [reflexivity | qc_closed]].
  exact (proj1 (ensemble_label_rule Examples.vader_only "I love this" _ H)).
Defined.

(** ** Renormalized weights *)

Lemma normalized_comprehension_lookup (weights : gmap string Qc) (total : Qc)
    (available : list string) :
  total ≠ 0 →
  ∃ nw, normalized_comprehension weights total available = Returns nw ∧
        ∀ m, nw !! m = if decide (m ∈ available)
                       then (λ w, w / total) <$> weights !! m else None.
Proof.
  intros Htot. induction available as [|a l (nw & Hnw & Hl)];
    cbn [normalized_comprehension].
  - exists ∅. split; [done|]. intros m. rewrite lookup_empty.
    by rewrite decide_False by apply not_elem_of_nil.
  - destruct (weights !! a) as [w|] eqn:Hw.
    + unfold truediv. rewrite decide_False by done. simpl. rewrite Hnw. simpl.
      eexists. split; [done|]. intros m.
      destruct (decide (m = a)) as [->|Hne].
      * rewrite lookup_insert_eq, Hw, decide_True by left. done.
      * rewrite lookup_insert_ne, Hl by done.
        repeat case_decide; try done; set_solver.
    + exists nw. split; [done|]. intros m. rewrite Hl.
      destruct (decide (m = a)) as [->|Hne].
      * rewrite Hw. simpl. rewrite (decide_True (P := a ∈ a :: l)) by left.
        by case_decide.
      * repeat case_decide; try done; set_solver.
Qed.

Lemma dict_sum_insert (d : gmap string Qc) (k : string) (v : Qc) :
  d !! k = None → dict_sum (<[k := v]> d) = v + dict_sum d.
Proof.
  intros Hk. unfold dict_sum. rewrite map_fold_insert_L; [done| |done].
  intros. ring.
Qed.

Lemma normalized_comprehension_sum (weights : gmap string Qc) (total : Qc)
    (available : list string) (nw : gmap string Qc) :
  NoDup available →
  normalized_comprehension weights total available = Returns nw →
  dict_sum nw = Py.sum (omap (λ m, weights !! m) available) / total
  ∧ ∀ m, m ∉ available → nw !! m = None.
Proof.
  intros Hnd. revert nw. induction Hnd as [|a l Ha Hnd IH]; intros nw; simpl.
  - intros [= <-]. split; [|done]. unfold dict_sum. rewrite map_fold_empty.
    unfold Qcdiv. ring.
  - destruct (weights !! a) as [w|] eqn:Hw.
    + intros H. apply bind_returns in H as (q & Hq & H).
      apply bind_returns in H as (d & Hd & [= <-]).
      destruct (IH d Hd) as [Hsum Hout].
      unfold truediv in Hq. case_decide; [done|]. injection Hq as <-.
      split.
      * rewrite dict_sum_insert by by apply Hout. rewrite Hsum. csimpl.
        unfold Qcdiv. ring.
      * intros m Hm. rewrite lookup_insert_ne by set_solver. apply Hout. set_solver.
    + intros H. destruct (IH nw H) as [Hsum Hout]. split; [done|].
      intros m Hm. apply Hout. set_solver.
Qed.

Lemma sentiment_collect_keys (self : Sentiment.SentimentAnalyzer) (name : string)
    run (text : string) (rs rs' : list (string * Sentiment.model_result)) :
  Sentiment.collect self name run text rs = Returns rs' →
  rs'.*1 = rs.*1 ∨ rs'.*1 = (rs.*1 ++ [name])%list.
Proof.
  unfold Sentiment.collect. destruct (Sentiment.models self !! name).
  - intros (r & _ & [= <-])%bind_returns. right. by rewrite fmap_app.
  - intros [= <-]. by left.
Qed.

Lemma sentiment_results_nodup (self : Sentiment.SentimentAnalyzer) (text : string)
    (results : list (string * Sentiment.model_result)) :
  Sentiment.collect_results self text = Returns results → NoDup results.*1.
Proof.
  unfold Sentiment.collect_results. intros H.
  apply bind_returns in H as (r1 & H1 & H).
  apply bind_returns in H as (r2 & H2 & H3).
  apply sentiment_collect_keys in H1, H2, H3.
  destruct H1 as [E1|E1], H2 as [E2|E2], H3 as [E3|E3];
    rewrite E3, E2, E1; apply (bool_decide_unpack _); by vm_compute.
Qed.

Lemma emotion_collect_keys (det : Emotion.EmotionDetector) (name : string)
    run (text : string) (rs rs' : list (string * gmap string Qc)) :
  Emotion.collect det name run text rs = Returns rs' →
  rs'.*1 = rs.*1 ∨ rs'.*1 = (rs.*1 ++ [name])%list.
Proof.
  unfold Emotion.collect. destruct (Emotion.models det !! name).
  - intros (r & _ & [= <-])%bind_returns. right. by rewrite fmap_app.
  - intros [= <-]. by left.
Qed.

Lemma emotion_results_nodup (det : Emotion.EmotionDetector) (text : string)
    (results : list (string * gmap string Qc)) :
  Emotion.collect_results det text = Returns results → NoDup results.*1.
Proof.
  unfold Emotion.collect_results. intros H.
  apply bind_returns in H as (r1 & H1 & H2).
  apply emotion_collect_keys in H1, H2.
  destruct H1 as [E1|E1], H2 as [E2|E2];
    rewrite E2, E1; apply (bool_decide_unpack _); by vm_compute.
Qed.

(** Only the configured weights of the available backends are read. *)
Lemma total_of_agree (weights weights' : gmap string Qc) (available : list string) :
  (∀ m, m ∈ available → weights' !! m = weights !! m) →
  total_of weights' available = total_of weights available.
Proof.
  intros H. unfold total_of. f_equal.
  induction available as [|a l IH]; [done|]. csimpl.
  rewrite (H a) by left. rewrite IH; [done|]. intros m Hm. apply H. by right.
Qed.

Lemma normalized_comprehension_agree (weights weights' : gmap string Qc) (total : Qc)
    (available : list string) :
  (∀ m, m ∈ available → weights' !! m = weights !! m) →
  normalized_comprehension weights' total available
  = normalized_comprehension weights total available.
Proof.
  intros H. induction available as [|a l IH]; [done|]. simpl.
  rewrite (H a) by left. rewrite IH; [done|]. intros m Hm. apply H. by right.
Qed.

(** The weights a call applies, for any list of available backends. *)
Lemma renormalized (weights : gmap string Qc) (available : list string) :
  NoDup available →
  0 < total_of weights available →
  ∃ nw,
    normalized_comprehension weights (total_of weights available) available
      = Returns nw ∧
    (∀ m, nw !! m =
       if decide (m ∈ available)
       then (λ w, w / total_of weights available) <$> weights !! m else None) ∧
    dict_sum nw = 1.
Proof.
  intros Hnd Hpos.
  assert (Hne : total_of weights available ≠ 0).
  { intros E. rewrite E in Hpos. by apply Qclt_not_eq in Hpos. }
  destruct (normalized_comprehension_lookup weights _ available Hne) as (nw & Hnw & Hl).
  exists nw. split_and!; [done..|].
  destruct (normalized_comprehension_sum _ _ _ _ Hnd Hnw) as [-> _].
  fold (total_of weights available). unfold Qcdiv. by apply Qcmult_inv_r.
Qed.

(** ** The applied weights in the combined scores *)

Lemma bert_shaped (self : Sentiment.SentimentAnalyzer) (text : string)
    (r : Sentiment.model_result) :
  Sentiment._analyze_with_bert self text = Returns r → Sentiment.shaped ("bert", r).
Proof.
  unfold Sentiment._analyze_with_bert. rewrite log_and_raise_id. intros H.
  apply bind_returns in H as (entry & _ & H).
  destruct entry as [softmax| | |]; try done.
  apply bind_returns in H as ([s0 s1] & _ & [= <-]). done.
Qed.

Lemma vader_shaped (self : Sentiment.SentimentAnalyzer) (text : string)
    (r : Sentiment.model_result) :
  Sentiment._analyze_with_vader self text = Returns r → Sentiment.shaped ("vader", r).
Proof.
  unfold Sentiment._analyze_with_vader. rewrite log_and_raise_id. intros H.
  apply bind_returns in H as (entry & _ & H).
  destruct entry as [|polarity_scores| |]; try done.
  apply bind_returns in H as (scores & _ & [= <-]). done.
Qed.

Lemma textblob_shaped (self : Sentiment.SentimentAnalyzer) (text : string)
    (r : Sentiment.model_result) :
  Sentiment._analyze_with_textblob self text = Returns r →
  Sentiment.shaped ("textblob", r).
Proof.
  unfold Sentiment._analyze_with_textblob. rewrite log_and_raise_id. intros H.
  apply bind_returns in H as (entry & _ & H).
  destruct entry as [| |blob_sentiment|]; try done.
  apply bind_returns in H as ([polarity subjectivity] & _ & [= <-]). done.
Qed.

Lemma collect_shaped (self : Sentiment.SentimentAnalyzer) (name : string)
    run (text : string) (rs rs' : list (string * Sentiment.model_result)) :
  (∀ r, run self text = Returns r → Sentiment.shaped (name, r)) →
  Sentiment.collect self name run text rs = Returns rs' →
  Forall Sentiment.shaped rs → Forall Sentiment.shaped rs'.
Proof.
  intros Hrun. unfold Sentiment.collect. destruct (Sentiment.models self !! name).
  - intros (r & Hr & [= <-])%bind_returns Hrs.
    apply list.Forall_app. split; [done|]. apply list.Forall_cons. split; [by apply Hrun|done].
  - by intros [= <-].
Qed.

Lemma collect_results_shaped (self : Sentiment.SentimentAnalyzer) (text : string)
    (results : list (string * Sentiment.model_result)) :
  Sentiment.collect_results self text = Returns results →
  Forall Sentiment.shaped results.
Proof.
  unfold Sentiment.collect_results. intros H.
  apply bind_returns in H as (r1 & H1 & H).
  apply bind_returns in H as (r2 & H2 & H3).
  eapply collect_shaped; [apply textblob_shaped | exact H3 |].
  eapply collect_shaped; [apply vader_shaped | exact H2 |].
  eapply collect_shaped; [apply bert_shaped | exact H1 |]. done.
Qed.

Lemma accumulate_add_share (nw : gmap string Qc) (applied : string → Qc)
    (t : Sentiment.tally) (model : string) (r : Sentiment.model_result) (w : Qc) :
  Sentiment.shaped (model, r) →
  nw !! model = Some w → applied model = w →
  Sentiment.accumulate nw t model r = Returns (Sentiment.add_share applied t (model, r)).
Proof.
  unfold Sentiment.shaped, Sentiment.accumulate, Sentiment.add_share, getitem. simpl.
  intros Hshape Hw ->. rewrite Hw.
  destruct (Sentiment.mr_scores r) as [p n|p n u c|p s]; simpl in *; subst model;
    repeat (rewrite decide_False by done); simpl; try done.
  repeat case_decide; done.
Qed.

Lemma weighted_scores_weighted_sum (nw : gmap string Qc)
    (results : list (string * Sentiment.model_result)) (t : Sentiment.tally) :
  Forall Sentiment.shaped results →
  (∀ m, m ∈ results.*1 → is_Some (nw !! m)) →
  Sentiment.weighted_scores nw results t =
    Returns (foldl (Sentiment.add_share (λ m, default 0 (nw !! m))) t results).
Proof.
  revert t. induction results as [|[m r] results IH]; intros t Hshape Hnw; [done|].
  apply list.Forall_cons in Hshape as [Hm Hshape].
  destruct (Hnw m) as [w Hw]; [rewrite fmap_cons; left|].
  cbn [Sentiment.weighted_scores foldl].
  rewrite (accumulate_add_share nw (λ m, default 0 (nw !! m)) t m r w Hm Hw)
    by (by rewrite Hw).
  simpl. apply IH; [done|]. intros m' Hm'. apply Hnw. rewrite fmap_cons. by right.
Qed.

Lemma emotion_accumulate_lookup (nw : gmap string Qc) (model : string)
    (result : gmap string Qc) (w : Qc) (todo : list string)
    (scores : gmap string Qc) :
  nw !! model = Some w →
  NoDup todo →
  (∀ e, e ∈ todo → is_Some (scores !! e)) →
  ∃ scores',
    Emotion.accumulate nw model result todo scores = Returns scores' ∧
    ∀ e, scores' !! e =
      if decide (e ∈ todo)
      then match result !! e with
           | Some score => (λ acc, acc + score * w) <$> scores !! e
           | None => scores !! e
           end
      else scores !! e.
Proof.
  intros Hw. revert scores.
  induction todo as [|e0 todo IH]; intros scores Hnd Hsome; cbn [Emotion.accumulate].
  - exists scores. split; [done|]. intros e. by rewrite decide_False by apply not_elem_of_nil.
  - apply list.NoDup_cons in Hnd as [Hnotin Hnd].
    destruct (result !! e0) as [score|] eqn:Hres.
    + destruct (Hsome e0) as [acc Hacc]; [left|].
      unfold getitem. rewrite Hacc. simpl. rewrite Hw. simpl.
      destruct (IH (<[e0 := acc + score * w]> scores) Hnd) as (scores' & Hrun & Hl).
      { intros e He. destruct (decide (e = e0)) as [->|Hne].
        - by rewrite lookup_insert_eq.
        - rewrite lookup_insert_ne by done. apply Hsome. by right. }
      exists scores'. split; [done|]. intros e. rewrite Hl.
      destruct (decide (e = e0)) as [->|Hne].
      * rewrite decide_False by done. rewrite decide_True by left.
        by rewrite lookup_insert_eq, Hres, Hacc.
      * rewrite lookup_insert_ne by done.
        destruct (decide (e ∈ todo)) as [Hin|Hnin].
        -- by rewrite decide_True by (by right).
        -- rewrite decide_False; [done|]. intros [?|?]%elem_of_cons; done.
    + destruct (IH scores Hnd) as (scores' & Hrun & Hl).
      { intros e He. apply Hsome. by right. }
      exists scores'. split; [done|]. intros e. rewrite Hl.
      destruct (decide (e = e0)) as [->|Hne].
      * rewrite decide_False by done. rewrite decide_True by left. by rewrite Hres.
      * destruct (decide (e ∈ todo)) as [Hin|Hnin].
        -- by rewrite decide_True by (by right).
        -- rewrite decide_False; [done|]. intros [?|?]%elem_of_cons; done.
Qed.

Lemma emotions_nodup : NoDup Emotion.emotions.
Proof. apply (bool_decide_unpack _). by vm_compute. Qed.

Lemma emotion_weighted_scores_lookup (nw : gmap string Qc)
    (results : list (string * gmap string Qc)) (scores : gmap string Qc) :
  (∀ m, m ∈ results.*1 → is_Some (nw !! m)) →
  (∀ e, e ∈ Emotion.emotions → is_Some (scores !! e)) →
  ∃ scores',
    Emotion.weighted_scores nw results scores = Returns scores' ∧
    ∀ e, scores' !! e =
      if decide (e ∈ Emotion.emotions)
      then (λ start,
              foldl (λ acc (entry : string * gmap string Qc),
                       match entry.2 !! e with
                       | Some score => acc + score * default 0 (nw !! entry.1)
                       | None => acc
                       end) start results) <$> scores !! e
      else scores !! e.
Proof.
  revert scores. induction results as [|[m result] results IH]; intros scores Hnw Hsome.
  - exists scores. split; [done|]. intros e. case_decide; [|done].
    by destruct (scores !! e).
  - destruct (Hnw m) as [w Hw]; [rewrite fmap_cons; left|].
    destruct (emotion_accumulate_lookup nw m result w Emotion.emotions scores Hw
                emotions_nodup Hsome) as (scores1 & Hrun1 & Hl1).
    destruct (IH scores1) as (scores' & Hrun & Hl).
    { intros m' Hm'. apply Hnw. rewrite fmap_cons. by right. }
    { intros e He. rewrite Hl1, decide_True by done.
      destruct (Hsome e He) as [acc Hacc]. rewrite Hacc. by destruct (result !! e). }
    exists scores'. split.
    { cbn [Emotion.weighted_scores]. rewrite Hrun1. simpl. exact Hrun. }
    intros e. rewrite Hl. case_decide as He; [|by rewrite Hl1, decide_False].
    rewrite Hl1, decide_True by done. cbn [foldl]. simpl. rewrite Hw. simpl.
    destruct (Hsome e He) as [acc Hacc]. rewrite Hacc.
    by destruct (result !! e).
Qed.

Lemma binary64_normalized_lookup (weights : gmap string float) (total : float)
    (available : list string) :
  (total =? 0)%float = false →
  ∃ nw, Binary64.normalized_comprehension weights total available = Returns nw ∧
        ∀ m, nw !! m = if decide (m ∈ available)
                       then (λ w, (w / total)%float) <$> weights !! m else None.
Proof.
  intros Htot. induction available as [|a l (nw & Hnw & Hl)];
    cbn [Binary64.normalized_comprehension].
  - exists ∅. split; [done|]. intros m. rewrite lookup_empty.
    by rewrite decide_False by apply not_elem_of_nil.
  - destruct (weights !! a) as [w|] eqn:Hw.
    + unfold Binary64.truediv. rewrite Htot. simpl. rewrite Hnw. simpl.
      eexists. split; [done|]. intros m.
      destruct (decide (m = a)) as [->|Hne].
      * rewrite lookup_insert_eq, Hw, decide_True by left. done.
      * rewrite lookup_insert_ne, Hl by done.
        repeat case_decide; try done; set_solver.
    + exists nw. split; [done|]. intros m. rewrite Hl.
      destruct (decide (m = a)) as [->|Hne].
      * rewrite Hw. simpl. rewrite (decide_True (P := a ∈ a :: l)) by left.
        by case_decide.
      * repeat case_decide; try done; set_solver.
Qed.

(** C3, as the code has it.  In a sentiment call and in an emotion call
    alike, the weight applied to an available backend (one with a result in
    this call) that has a configured weight is the configured weight divided
    by the sum of the configured weights of the available backends, on the
    rationals and on binary64 floats alike, and a backend that is not
    available has no applied weight.  When every available backend is
    configured and that sum is positive the call returns, each combined
    score is the sum over the available backends of the backend's score
    times its applied weight, and the configured weight of a backend that is
    not available has no effect on the result.  On the rationals the applied
    weights sum to 1. *)
Theorem applied_weights_renormalized
    (self : Sentiment.SentimentAnalyzer) (det : Emotion.EmotionDetector)
    (text : string)
    (sresults : list (string * Sentiment.model_result))
    (eresults : list (string * gmap string Qc))
    (sweights eweights : gmap string Qc)
    (fweights : gmap string float) (order : list string) :
  Sentiment.collect_results self text = Returns sresults →
  Sentiment.ensemble_weights self = Returns sweights →
  (∀ m, m ∈ sresults.*1 → is_Some (sweights !! m)) →
  0 < total_of sweights sresults.*1 →
  Emotion.collect_results det text = Returns eresults →
  Emotion.ensemble_weights det = Returns eweights →
  (∀ m, m ∈ eresults.*1 → is_Some (eweights !! m)) →
  0 < total_of eweights eresults.*1 →
  (∃ nw r,
     normalized_comprehension sweights (total_of sweights sresults.*1) sresults.*1
       = Returns nw ∧
     (∀ m, nw !! m =
        if decide (m ∈ sresults.*1)
        then (λ w, w / total_of sweights sresults.*1) <$> sweights !! m else None) ∧
     dict_sum nw = 1 ∧
     Sentiment._analyze_with_ensemble self text = Returns r ∧
     Sentiment.combined_scores r
       = Sentiment.weighted_sum (λ m, default 0 (nw !! m)) sresults ∧
     (∀ weights',
        (∀ m, m ∈ sresults.*1 → weights' !! m = sweights !! m) →
        Sentiment.combine weights' sresults = Sentiment.combine sweights sresults)) ∧
  (∃ nw scores,
     normalized_comprehension eweights (total_of eweights eresults.*1) eresults.*1
       = Returns nw ∧
     (∀ m, nw !! m =
        if decide (m ∈ eresults.*1)
        then (λ w, w / total_of eweights eresults.*1) <$> eweights !! m else None) ∧
     dict_sum nw = 1 ∧
     Emotion._detect_with_ensemble det text = Returns scores ∧
     (∀ emotion, scores !! emotion =
        if decide (emotion ∈ Emotion.emotions)
        then Some (Emotion.weighted_sum (λ m, default 0 (nw !! m)) eresults emotion)
        else None) ∧
     (∀ weights',
        (∀ m, m ∈ eresults.*1 → weights' !! m = eweights !! m) →
        Emotion.combine weights' eresults = Emotion.combine eweights eresults)) ∧
  ((Binary64.total_of fweights order =? 0)%float = false →
   ∃ nw,
     Binary64.normalized_comprehension fweights (Binary64.total_of fweights order) order
       = Returns nw ∧
     ∀ m, nw !! m =
       if decide (m ∈ order)
       then (λ w, (w / Binary64.total_of fweights order)%float) <$> fweights !! m
       else None).
Proof.
  intros Hs Hsw Hsall Hspos He Hew Heall Hepos. split_and!.
  - destruct (renormalized sweights sresults.*1) as (nw & Hnw & Hl & Hsum);
      [by eapply sentiment_results_nodup | done |].
    assert (Hin : ∀ m, m ∈ sresults.*1 → is_Some (nw !! m)).
    { intros m Hm. rewrite Hl, decide_True by done.
      destruct (Hsall m Hm) as [c ->]. by eexists. }
    exists nw. eexists. split_and!; [done | done | done | | | ].
    + unfold Sentiment._analyze_with_ensemble, Sentiment.combine.
      rewrite Hs. simpl. rewrite Hsw. simpl. rewrite Hnw. simpl.
      rewrite (weighted_scores_weighted_sum nw sresults Sentiment.zero_tally);
        [| by eapply collect_results_shaped | done].
      simpl. reflexivity.
    + unfold Sentiment.combined_scores, Sentiment.ensemble_dict, Sentiment.weighted_sum.
      destruct (Sentiment.final_sentiment _). simpl.
      by destruct (foldl _ _ _).
    + intros weights' Hagree. unfold Sentiment.combine.
      by rewrite (total_of_agree sweights weights' _ Hagree),
        (normalized_comprehension_agree sweights weights' _ _ Hagree).
  - destruct (renormalized eweights eresults.*1) as (nw & Hnw & Hl & Hsum);
      [by eapply emotion_results_nodup | done |].
    assert (Hin : ∀ m, m ∈ eresults.*1 → is_Some (nw !! m)).
    { intros m Hm. rewrite Hl, decide_True by done.
      destruct (Heall m Hm) as [c ->]. by eexists. }
    destruct (emotion_weighted_scores_lookup nw eresults (Emotion.constant_scores 0) Hin)
      as (scores & Hrun & Hscores).
    { intros e He'. by rewrite constant_scores_lookup, decide_True. }
    exists nw, scores. split_and!; [done | done | done | | | ].
    + unfold Emotion._detect_with_ensemble, Emotion.combine.
      rewrite He. simpl. rewrite Hew. simpl. rewrite Hnw. simpl. by rewrite Hrun.
    + intros emotion. rewrite Hscores, constant_scores_lookup.
      by case_decide.
    + intros weights' Hagree. unfold Emotion.combine.
      by rewrite (total_of_agree eweights weights' _ Hagree),
        (normalized_comprehension_agree eweights weights' _ _ Hagree).
  - apply binary64_normalized_lookup.
Qed.

Lemma applied_weights_renormalized_witness :
  (∃ r, Sentiment._analyze_with_ensemble Examples.vader_only "I love this" = Returns r ∧
        Sentiment.combined_scores r
          = {| Sentiment.t_pos := qc 8 10; Sentiment.t_neg := qc 1 10;
               Sentiment.t_neu := qc 1 10 |}) ∧
  (∃ scores,
     Emotion._detect_with_ensemble Examples.transformer_only "I love this"
       = Returns scores ∧
     scores !! "joy" = Some (qc 9 10)).
Proof.
  destruct (applied_weights_renormalized
              Examples.vader_only Examples.transformer_only "I love this"
              Examples.vader_only_results Examples.transformer_only_results
              Sentiment.default_weights Emotion.default_weights
              Binary64.default_weights ["vader"]%list)
    as [(nw & r & _ & Hl & _ & Hr & Hscores & _)
        [(nw' & scores & _ & Hl' & _ & Hrun & Hlookup & _) _]].
  - vm_compute; reflexivity.
  - vm_compute; reflexivity.
  - intros m Hm. change (m ∈ ["vader"]%list) in Hm.
    apply list_elem_of_singleton in Hm as ->. by eexists.
  - vm_compute; reflexivity.
  - vm_compute; reflexivity.
  - vm_compute; reflexivity.
  - intros m Hm. change (m ∈ ["transformer"]%list) in Hm.
    apply list_elem_of_singleton in Hm as ->. by eexists.
  - vm_compute; reflexivity.
  - split.
    + exists r. split; [exact Hr|]. rewrite Hscores.
      pose proof (Hl "vader") as Hv. rewrite decide_True in Hv by (by left).
      unfold Sentiment.weighted_sum, Examples.vader_only_results. simpl.
      unfold Sentiment.add_share. simpl. rewrite Hv. simpl.
      f_equal; qc_closed.
    + exists scores. split; [exact Hrun|]. rewrite Hlookup.
      rewrite decide_True by (apply (bool_decide_unpack _); by vm_compute).
      pose proof (Hl' "transformer") as Hv. rewrite decide_True in Hv by (by left).
      unfold Emotion.weighted_sum, Examples.transformer_only_results. simpl.
      rewrite Hv. simpl. f_equal; qc_closed.
Defined.

(** C3 as stated fails on the floats the code computes with: the applied
    weights need not sum to 1.  With the weights 0.6, 0.3, 0.1 of the code
    and vader and textblob available, the total is 0.4, the applied weights
    are 0.7499999999999999 and 0.25, and their sum is 0.9999999999999999 in
    either order.  With all three available and the set iterated in the
    order bert, vader, textblob, the total is 0.9999999999999999, the
    applied weights are 0.6000000000000001, 0.30000000000000004 and
    0.10000000000000002, their sum is 1.0000000000000002, and backends that
    each report the positive score 1.0 get the combined positive score
    1.0000000000000002. *)
Lemma applied_weights_sum_rounded :
  Binary64.total_of Binary64.default_weights ["vader"; "textblob"] = 0.4%float ∧
  Binary64.total_of Binary64.default_weights ["textblob"; "vader"] = 0.4%float ∧
  Binary64.normalized_comprehension Binary64.default_weights 0.4 ["vader"; "textblob"]
    = Returns (<["vader" := 0.7499999999999999%float]> (<["textblob" := 0.25%float]> ∅)) ∧
  Binary64.sum [0.7499999999999999; 0.25]%float = 0.9999999999999999%float ∧
  Binary64.sum [0.25; 0.7499999999999999]%float = 0.9999999999999999%float ∧
  (0.9999999999999999 <? 1)%float = true ∧
  Binary64.total_of Binary64.default_weights ["bert"; "vader"; "textblob"]
    = 0.9999999999999999%float ∧
  Binary64.normalized_comprehension Binary64.default_weights 0.9999999999999999
    ["bert"; "vader"; "textblob"]
    = Returns (<["bert" := 0.6000000000000001%float]>
                 (<["vader" := 0.30000000000000004%float]>
                    (<["textblob" := 0.10000000000000002%float]> ∅))) ∧
  Binary64.sum [0.6000000000000001; 0.30000000000000004; 0.10000000000000002]%float
    = 1.0000000000000002%float ∧
  (1 <? 1.0000000000000002)%float = true ∧
  Binary64.combine Binary64.default_weights ["bert"; "vader"; "textblob"]
    Examples.probe_results
    = Returns {| Binary64.t_pos := 1.0000000000000002; Binary64.t_neg := 0;
                 Binary64.t_neu := 0 |}.
Proof. split_and!; vm_compute; reflexivity. Qed.

(** ** The contribution of the polarity backend *)

Lemma weighted_scores_app (nw : gmap string Qc)
    (l1 l2 : list (string * Sentiment.model_result)) (acc : Sentiment.tally) :
  Sentiment.weighted_scores nw (l1 ++ l2) acc =
  (acc ← Sentiment.weighted_scores nw l1 acc; Sentiment.weighted_scores nw l2 acc).
Proof.
  revert acc. induction l1 as [|[m r] l1 IH]; intros acc; simpl; [done|].
  destruct (Sentiment.accumulate nw acc m r); simpl; [apply IH | done].
Qed.

Lemma normalized_weight_inv (weights : gmap string Qc) (total : Qc)
    (available : list string) (nw : gmap string Qc) (m : string) (w : Qc) :
  normalized_comprehension weights total available = Returns nw →
  nw !! m = Some w →
  ∃ c, weights !! m = Some c ∧ total ≠ 0 ∧ w = c / total.
Proof.
  revert nw. induction available as [|a l IH]; intros nw; simpl.
  - intros [= <-]. by rewrite lookup_empty.
  - destruct (weights !! a) as [c|] eqn:Hc; [|apply IH].
    intros H. apply bind_returns in H as (q & Hq & H).
    apply bind_returns in H as (d & Hd & [= <-]).
    unfold truediv in Hq. case_decide; [done|]. injection Hq as <-.
    destruct (decide (m = a)) as [->|Hne].
    + rewrite lookup_insert_eq. intros [= <-]. eauto.
    + rewrite lookup_insert_ne by done. by apply IH.
Qed.

(** C9.  When the polarity backend (textblob) takes part in a sentiment
    ensemble call with polarity [p] and weight [w] (the weight the call holds
    for that backend), its iteration adds, to the sums [t0] accumulated from
    the other backends: [p * w] to the positive score and nothing elsewhere
    if [p > 0]; [|p| * w] to the negative score and nothing elsewhere if
    [p < 0]; exactly [w] to the neutral score and nothing elsewhere if
    [p = 0].  The polarity-derived amount is not rescaled against the other
    backends' scores.  [w] is the backend's configured weight [c] over the
    total of the call, so it is [c] itself when that total is 1, as with all
    three backends under the configured weights. *)
Theorem polarity_backend_contribution (self : Sentiment.SentimentAnalyzer)
    (text : string) (others : list (string * Sentiment.model_result))
    (tb : Sentiment.model_result) (p s : Qc) (weights nw : gmap string Qc) (w : Qc)
    (t0 : Sentiment.tally) :
  let results := (others ++ [("textblob", tb)])%list in
  let total := total_of weights results.*1 in
  Sentiment.collect_results self text = Returns results →
  Sentiment.mr_scores tb = Sentiment.TextBlobScores p s →
  Sentiment.ensemble_weights self = Returns weights →
  normalized_comprehension weights total results.*1 = Returns nw →
  nw !! "textblob" = Some w →
  Sentiment.weighted_scores nw others Sentiment.zero_tally = Returns t0 →
  (∃ r, Sentiment._analyze_with_ensemble self text = Returns r ∧
     (0 < p →
        Sentiment.positive_score r = Sentiment.t_pos t0 + p * w ∧
        Sentiment.negative_score r = Sentiment.t_neg t0 ∧
        Sentiment.neutral_score r = Sentiment.t_neu t0) ∧
     (p < 0 →
        Sentiment.positive_score r = Sentiment.t_pos t0 ∧
        Sentiment.negative_score r = Sentiment.t_neg t0 + Qcabs p * w ∧
        Sentiment.neutral_score r = Sentiment.t_neu t0) ∧
     (p = 0 →
        Sentiment.positive_score r = Sentiment.t_pos t0 ∧
        Sentiment.negative_score r = Sentiment.t_neg t0 ∧
        Sentiment.neutral_score r = Sentiment.t_neu t0 + w)) ∧
  (∃ c, weights !! "textblob" = Some c ∧ w = c / total ∧ (total = 1 → w = c)).
Proof.
  intros results total Hres Hsc Hw Hnw Hlk Ht0. split.
  - unfold Sentiment._analyze_with_ensemble, Sentiment.combine.
    rewrite Hres. simpl. rewrite Hw. simpl.
    fold results. fold total. rewrite Hnw. simpl.
    unfold results. rewrite weighted_scores_app, Ht0. simpl.
    unfold Sentiment.accumulate. simpl. rewrite Hsc. simpl.
    unfold getitem. rewrite Hlk.
    destruct (decide (0 < p)) as [Hp|Hp]; [|destruct (decide (p < 0)) as [Hn|Hn]];
      simpl; (eexists; split; [reflexivity|]);
      unfold Sentiment.ensemble_dict;
      match goal with |- context [Sentiment.final_sentiment ?t] =>
        destruct (Sentiment.final_sentiment t) end; simpl.
    + split_and!; [done | | ].
      * intros Hn. destruct (Qclt_not_le _ _ Hp). by apply Qclt_le_weak.
      * intros ->. by apply Qclt_not_eq in Hp.
    + split_and!; [done | done | ].
      intros ->. by apply Qclt_not_eq in Hn.
    + split_and!; done.
  - destruct (normalized_weight_inv _ _ _ _ _ _ Hnw Hlk) as (c & Hc & Hne & ->).
    exists c. split_and!; [done..|].
    intros ->. apply (right_id 1 Qcdiv).
Qed.

Lemma polarity_backend_contribution_witness :
  ∃ r, Sentiment._analyze_with_ensemble Examples.all_models "I love this" = Returns r ∧
       Sentiment.positive_score r = qc 78 100 ∧
       Sentiment.negative_score r = qc 9 100 ∧
       Sentiment.neutral_score r = qc 3 100 + qc 1 10.
Proof.
  destruct (polarity_backend_contribution Examples.all_models "I love this"
              (take 2 Examples.all_models_results) Examples.all_models_textblob
              0 (qc 5 10) Sentiment.default_weights Examples.all_models_weights
              (qc 1 10) Examples.all_models_others_tally)
    as [(r & Hr & _ & _ & H0) _].
  1-6: vm_compute; reflexivity.
  exists r. split; [exact Hr|].
  destruct (H0 eq_refl) as (-> & -> & ->).
  split_and!; qc_closed.
Defined.

(** ** A backend that raises *)

Lemma collect_raises (self : Sentiment.SentimentAnalyzer) (name : string) run
    (text : string) (rs : list (string * Sentiment.model_result)) (e : exn) :
  is_Some (Sentiment.models self !! name) →
  run self text = Raises e →
  Sentiment.collect self name run text rs = Raises e.
Proof. intros [entry Hentry] Hrun. unfold Sentiment.collect. by rewrite Hentry, Hrun. Qed.

Lemma ensemble_raises_of_collect (self : Sentiment.SentimentAnalyzer) (text : string)
    (e : exn) :
  Sentiment.collect_results self text = Raises e →
  Sentiment._analyze_with_ensemble self text = Raises e.
Proof. intros H. unfold Sentiment._analyze_with_ensemble. by rewrite H. Qed.

Lemma analyze_raises_of_ensemble (self : Sentiment.SentimentAnalyzer) (elapsed : Qc)
    (text : string) (e : exn) :
  Sentiment.model_type self = "all" ∨ Sentiment.model_type self = "custom" →
  Sentiment._analyze_with_ensemble self text = Raises e →
  Sentiment.analyze self elapsed text = Raises e.
Proof.
  intros [Hm|Hm] He; unfold Sentiment.analyze, Sentiment._analyze_with_custom;
    rewrite Hm; simpl; by rewrite He.
Qed.

(** C2, as the code has it.  For every text and every set of loaded
    backends: when the scoring call of a loaded sentiment backend raises,
    the ensemble does not leave that backend out; it re-raises, and so does
    [analyze] (for the model types that reach the ensemble).  No result is
    returned. *)
Theorem backend_failure_propagates (self : Sentiment.SentimentAnalyzer)
    (elapsed : Qc) (text name : string)
    (run : Sentiment.SentimentAnalyzer → string → outcome Sentiment.model_result)
    (e : exn) :
  (name, run) ∈ [("bert", Sentiment._analyze_with_bert);
                 ("vader", Sentiment._analyze_with_vader);
                 ("textblob", Sentiment._analyze_with_textblob)] →
  is_Some (Sentiment.models self !! name) →
  run self text = Raises e →
  ∃ e', Sentiment._analyze_with_ensemble self text = Raises e' ∧
        (Sentiment.model_type self = "all" ∨ Sentiment.model_type self = "custom" →
         Sentiment.analyze self elapsed text = Raises e').
Proof.
  intros Hin Hloaded Hrun.
  assert (∃ e', Sentiment.collect_results self text = Raises e') as [e' He'].
  { unfold Sentiment.collect_results.
    destruct (Sentiment.collect self "bert" Sentiment._analyze_with_bert text [])
      as [r1|e1] eqn:H1; simpl; [|eauto].
    destruct (Sentiment.collect self "vader" Sentiment._analyze_with_vader text r1)
      as [r2|e2] eqn:H2; simpl; [|eauto].
    apply elem_of_cons in Hin as [[= -> ->]|Hin].
    { by rewrite (collect_raises _ _ _ _ _ _ Hloaded Hrun) in H1. }
    apply elem_of_cons in Hin as [[= -> ->]|Hin].
    { by rewrite (collect_raises _ _ _ _ _ _ Hloaded Hrun) in H2. }
    apply elem_of_cons in Hin as [[= -> ->]|Hin]; [|by apply elem_of_nil in Hin].
    rewrite (collect_raises _ _ _ _ _ _ Hloaded Hrun). eauto. }
  exists e'. split.
  - by apply ensemble_raises_of_collect.
  - intros Hm. by apply analyze_raises_of_ensemble, ensemble_raises_of_collect.
Qed.

Lemma backend_failure_propagates_witness :
  ∃ e', Sentiment._analyze_with_ensemble Examples.failing_bert "I love this" = Raises e' ∧
        (Sentiment.model_type Examples.failing_bert = "all"
         ∨ Sentiment.model_type Examples.failing_bert = "custom" →
         Sentiment.analyze Examples.failing_bert 0 "I love this" = Raises e').
Proof.
  apply (backend_failure_propagates Examples.failing_bert 0 "I love this" "bert"
           Sentiment._analyze_with_bert (Exception "CUDA out of memory")).
  - left.
  - vm_compute. eauto.
  - vm_compute. reflexivity.
Defined.

(** C2 as stated fails: with BERT and VADER loaded and the BERT call
    raising, the ensemble and [analyze] raise that exception instead of
    returning a result computed from VADER alone. *)
Lemma backend_failure_aborts_combine :
  Sentiment._analyze_with_bert Examples.failing_bert "I love this"
    = Raises (Exception "CUDA out of memory") ∧
  returned (Sentiment._analyze_with_vader Examples.failing_bert "I love this") ∧
  Sentiment._analyze_with_ensemble Examples.failing_bert "I love this"
    = Raises (Exception "CUDA out of memory") ∧
  Sentiment.analyze Examples.failing_bert 0 "I love this"
    = Raises (Exception "CUDA out of memory") ∧
  ¬ returned (Sentiment._analyze_with_ensemble Examples.failing_bert "I love this").
Proof. split_and!; try (vm_compute; reflexivity); vm_compute; tauto. Qed.

(** ** [detect] never raises *)

(** C10.  [detect] returns on every input; whatever exception the
    dispatched [_detect_with_*] method lets escape, [detect] returns the
    dictionary that maps joy, anger, fear, sadness, surprise and disgust to
    0.0 and holds no other key. *)
Theorem detect_never_raises (self : Emotion.EmotionDetector) (elapsed : Qc)
    (text : string) (dispatched : outcome (gmap string Qc)) (e : exn) :
  returned (Emotion.detect self elapsed text) ∧
  returned (Emotion.detect_body dispatched elapsed) ∧
  Emotion.detect_body (Raises e) elapsed = Returns (Emotion.constant_scores 0) ∧
  Emotion.emotions = ["joy"; "anger"; "fear"; "sadness"; "surprise"; "disgust"] ∧
  (∀ emotion, Emotion.constant_scores 0 !! emotion =
     if decide (emotion ∈ Emotion.emotions) then Some 0 else None).
Proof.
  assert (Hb : ∀ d, returned (Emotion.detect_body d elapsed)) by by intros [?|?].
  split_and!; [apply Hb | apply Hb | done | done | apply constant_scores_lookup].
Qed.

(** ** Starting a stream from an unknown source *)

(** C5, what the code does.  For every source outside the four known kinds,
    [start_stream] raises [ValueError], yet the manager it leaves behind
    holds a session record for the generated id, in status initializing with
    an empty result list: the record is stored before the source is checked
    and is not removed when the check fails. *)
Theorem unknown_source_leaves_session (env : Streams.environment)
    (source query : string) (duration : Z) (self : Streams.StreamManager) :
  source ∉ Streams.known_sources →
  let after := (Streams.start_stream env source query duration self).1 in
  (Streams.start_stream env source query duration self).2
    = Raises (ValueError ("Unknown source: " +:+ source)) ∧
  Streams.active_streams after !! Streams.uuid4 env =
    Some {| Streams.id := Streams.uuid4 env; Streams.source := source;
            Streams.query := query; Streams.duration := duration;
            Streams.start_time := Streams.now env;
            Streams.stream_status := Streams.initializing;
            Streams.data_count := 0; Streams.stream_error := None |} ∧
  Streams.stream_results after !! Streams.uuid4 env = Some [] ∧
  (Streams.active_streams self !! Streams.uuid4 env = None → after ≠ self).
Proof.
  intros Hsrc. unfold Streams.start_stream.
  assert (Hn : ∀ k, k ∈ Streams.known_sources → source ≠ k) by by intros k Hk ->.
  rewrite !decide_False by (apply Hn, (bool_decide_unpack _); by vm_compute).
  simpl. split_and!; [done | apply lookup_insert_eq | apply lookup_insert_eq |].
  intros Hfresh Heq.
  apply (f_equal (λ m, Streams.active_streams m !! Streams.uuid4 env)) in Heq.
  simpl in Heq. by rewrite lookup_insert_eq, Hfresh in Heq.
Qed.

Lemma unknown_source_leaves_session_witness :
  let after :=
    (Streams.start_stream Examples.env1 "facebook" "python" 60 Streams.init).1 in
  (Streams.start_stream Examples.env1 "facebook" "python" 60 Streams.init).2
    = Raises (ValueError "Unknown source: facebook") ∧
  Streams.active_streams after !! "3f2b8c1e-0001" =
    Some {| Streams.id := "3f2b8c1e-0001"; Streams.source := "facebook";
            Streams.query := "python"; Streams.duration := 60;
            Streams.start_time := "2024-01-01 00:00:00";
            Streams.stream_status := Streams.initializing;
            Streams.data_count := 0; Streams.stream_error := None |} ∧
  Streams.stream_results after !! "3f2b8c1e-0001" = Some [] ∧
  (Streams.active_streams Streams.init !! "3f2b8c1e-0001" = None →
   after ≠ Streams.init).
Proof.
  apply (unknown_source_leaves_session Examples.env1 "facebook" "python" 60 Streams.init).
  apply (bool_decide_unpack _). by vm_compute.
Defined.

(** ** Calls with an unknown session id *)

(** C8, as the code has it.  For a session id that is in neither table:
    the status query, the results query and [stop_stream] raise
    [ValueError] ("Stream ... not found") to their caller and leave the
    manager as it was; [process_stream] leaves the manager as it was too,
    and its not-found error ends inside the call (logged), which returns
    normally; [register_callback] makes no check: it returns normally and
    stores the callback under the unknown id, leaving both session tables
    as they were. *)
Theorem unknown_session_id (self : Streams.StreamManager) (stream_id : string)
    (limit : Z) (processed_only : bool)
    (text_processor : string → outcome string)
    (sentiment_analyzer : string → outcome Sentiment.analysis)
    (cb : Streams.callback) :
  Streams.active_streams self !! stream_id = None →
  Streams.stream_results self !! stream_id = None →
  let not_found := ValueError ("Stream " +:+ stream_id +:+ " not found") in
  Streams.get_stream_status stream_id self = (self, Raises not_found) ∧
  Streams.get_stream_results stream_id limit processed_only self
    = (self, Raises not_found) ∧
  Streams.stop_stream stream_id self = (self, Raises not_found) ∧
  Streams.process_stream_run text_processor sentiment_analyzer stream_id self
    = (self, [], Raises not_found) ∧
  Streams.process_stream text_processor sentiment_analyzer stream_id self
    = (self, Returns tt) ∧
  (let after := (Streams.register_callback stream_id cb self).1 in
   (Streams.register_callback stream_id cb self).2 = Returns tt ∧
   Streams.stream_callbacks after !! stream_id =
     Some (default [] (Streams.stream_callbacks self !! stream_id) ++ [cb])%list ∧
   Streams.active_streams after = Streams.active_streams self ∧
   Streams.stream_results after = Streams.stream_results self).
Proof.
  intros Ha Hr not_found.
  unfold Streams.get_stream_status, Streams.get_stream_results, Streams.stop_stream,
    Streams.process_stream, Streams.process_stream_run, Streams.register_callback.
  rewrite Ha, Hr. split_and!; try done.
  - destruct (Streams.stream_callbacks self !! stream_id) as [cbs|] eqn:Hc; simpl.
    + by rewrite Hc.
    + by rewrite lookup_insert_eq.
  - destruct (Streams.stream_callbacks self !! stream_id) as [cbs|] eqn:Hc; simpl.
    + rewrite Hc. simpl. apply lookup_insert_eq.
    + rewrite lookup_insert_eq. simpl. apply lookup_insert_eq.
  - destruct (Streams.stream_callbacks self !! stream_id) as [cbs|] eqn:Hc; simpl.
    + by rewrite Hc.
    + by rewrite lookup_insert_eq.
  - destruct (Streams.stream_callbacks self !! stream_id) as [cbs|] eqn:Hc; simpl.
    + by rewrite Hc.
    + by rewrite lookup_insert_eq.
Qed.

Lemma unknown_session_id_witness :
  Streams.get_stream_status "no-such-id" Examples.one_stream
    = (Examples.one_stream, Raises (ValueError "Stream no-such-id not found")) ∧
  Streams.stop_stream "no-such-id" Examples.one_stream
    = (Examples.one_stream, Raises (ValueError "Stream no-such-id not found")) ∧
  Streams.process_stream Examples.plain_processor Examples.vader_analyzer
    "no-such-id" Examples.one_stream = (Examples.one_stream, Returns tt).
Proof.
  destruct (unknown_session_id Examples.one_stream "no-such-id" 100 false
              Examples.plain_processor Examples.vader_analyzer (λ _ _, Returns tt))
    as (H1 & _ & H3 & _ & H5 & _).
  1-2: vm_compute; reflexivity.
  split_and!; [exact H1 | exact H3 | exact H5].
Defined.

(** C8 as stated fails for two of the five operations: on an id that no
    table knows, [register_callback] returns normally and changes the
    manager, and [process_stream] returns normally instead of rejecting the
    call. *)
Lemma unknown_id_not_rejected :
  Streams.active_streams Streams.init !! "no-such-id" = None ∧
  (Streams.register_callback "no-such-id" (λ _ _, Returns tt) Streams.init).2
    = Returns tt ∧
  (Streams.register_callback "no-such-id" (λ _ _, Returns tt) Streams.init).1
    ≠ Streams.init ∧
  (Streams.process_stream Examples.plain_processor Examples.vader_analyzer
     "no-such-id" Streams.init).2 = Returns tt.
Proof.
  split_and!; try reflexivity.
  intros Heq.
  apply (f_equal (λ m, Streams.stream_callbacks m !! "no-such-id")) in Heq.
  vm_compute in Heq. discriminate.
Qed.

(** ** The scoring pass *)

Section ScoringPass.

Variable text_processor : string → outcome string.
Variable sentiment_analyzer : string → outcome Sentiment.analysis.

Local Abbreviation score := (Streams.score_item text_processor sentiment_analyzer).
Local Abbreviation loop := (Streams.process_loop text_processor sentiment_analyzer).

Lemma score_item_processed (item item' : Streams.stream_item) :
  score item = Returns item' → Streams.processed item' = true.
Proof.
  unfold Streams.score_item. destruct (Streams.processed item) eqn:Hp.
  - by intros [= <-].
  - intros H. apply bind_returns in H as (pt & _ & H).
    by apply bind_returns in H as (res & _ & [= <-]).
Qed.

Lemma score_item_raises (item : Streams.stream_item) (e : exn) :
  score item = Raises e → Streams.processed item = false.
Proof.
  unfold Streams.score_item. by destruct (Streams.processed item).
Qed.

(** The loop, from any position: [pre] is the part of the list already
    passed. *)
Lemma process_loop_spec (todo pre items' : list Streams.stream_item)
    (scored : list nat) (r : outcome unit) :
  loop todo (length pre) (pre ++ todo) = (items', scored, r) →
  ∃ done done' rest,
    todo = (done ++ rest)%list ∧
    items' = (pre ++ done' ++ rest)%list ∧
    Forall2 (λ item item', score item = Returns item') done done' ∧
    scored = Streams.unprocessed_from (length pre) done ∧
    match r with
    | Returns _ => rest = []
    | Raises e => ∃ item rest', rest = item :: rest' ∧ score item = Raises e
    end.
Proof.
  revert pre items' scored r.
  induction todo as [|item todo IH]; intros pre items' scored r; simpl.
  - intros [= <- <- <-]. by exists [], [], [].
  - assert (Hstep : ∀ x : Streams.stream_item,
              (pre ++ x :: todo = (pre ++ [x]) ++ todo)%list
              ∧ S (length pre) = length (pre ++ [x])).
    { intros x. rewrite <- app_assoc, length_app. simpl. split; [done | lia]. }
    destruct (Streams.processed item) eqn:Hp.
    + destruct (Hstep item) as [-> ->]. intros H.
      apply IH in H as (done & done' & rest & -> & -> & HF & -> & Hr).
      exists (item :: done), (item :: done'), rest.
      split_and!; [done | by rewrite <- app_assoc | | | done].
      * constructor; [|done]. unfold Streams.score_item. by rewrite Hp.
      * simpl. rewrite Hp. by destruct (Hstep item) as [_ <-].
    + destruct (text_processor (Streams.text item)) as [pt|e] eqn:Htp.
      * destruct (sentiment_analyzer pt) as [res|e] eqn:Hsa.
        -- rewrite insert_app_r_alt, Nat.sub_diag by done. simpl.
           match goal with |- context [(pre ++ ?x :: todo)%list] => set (item' := x) end.
           destruct (Hstep item') as [-> ->].
           destruct (loop todo (length (pre ++ [item'])) ((pre ++ [item']) ++ todo)%list)
             as [[items1 scored1] r1] eqn:H1.
           intros [= <- <- <-].
           apply IH in H1 as (done & done' & rest & -> & -> & HF & -> & Hr).
           exists (item :: done), (item' :: done'), rest.
           split_and!; [done | by rewrite <- app_assoc | | | done].
           ++ constructor; [|done]. unfold Streams.score_item.
              rewrite Hp, Htp. simpl. by rewrite Hsa.
           ++ simpl. rewrite Hp. by destruct (Hstep item') as [_ <-].
        -- intros [= <- <- <-]. exists [], [], (item :: todo).
           split_and!; try done. exists item, todo. split; [done|].
           unfold Streams.score_item. rewrite Hp, Htp. simpl. by rewrite Hsa.
      * intros [= <- <- <-]. exists [], [], (item :: todo).
        split_and!; try done. exists item, todo. split; [done|].
        unfold Streams.score_item. by rewrite Hp, Htp.
Qed.

End ScoringPass.

Lemma process_loop_all_processed
    (text_processor : string → outcome string)
    (sentiment_analyzer : string → outcome Sentiment.analysis)
    (todo : list Streams.stream_item) (i : nat) (items : list Streams.stream_item) :
  Forall (λ item, Streams.processed item = true) todo →
  Streams.process_loop text_processor sentiment_analyzer todo i items
    = (items, [], Returns tt).
Proof.
  intros H. revert i. induction H as [|item todo Hp _ IH]; intros i; simpl; [done|].
  by rewrite Hp.
Qed.

Lemma elem_of_unprocessed_from (i j : nat) (items : list Streams.stream_item) :
  j ∈ Streams.unprocessed_from i items ↔
  (i ≤ j)%nat ∧ ∃ item, items !! (j - i)%nat = Some item ∧ Streams.processed item = false.
Proof.
  revert i. induction items as [|item items IH]; intros i; simpl.
  - split; [by intros ?%elem_of_nil | by intros (_ & ? & ? & _)].
  - assert (Hnext : (S i ≤ j)%nat → (j - i)%nat = S (j - S i)) by lia.
    destruct (Streams.processed item) eqn:Hp.
    + rewrite IH. split.
      * intros (Hle & it & Hit & Hpit). split; [lia|]. exists it.
        by rewrite (Hnext Hle).
      * intros (Hle & it & Hit & Hpit).
        destruct (decide (j = i)) as [->|Hne].
        { rewrite Nat.sub_diag in Hit. simpl in Hit. congruence. }
        assert (Hlt : (S i ≤ j)%nat) by lia. split; [done|]. exists it.
        by rewrite (Hnext Hlt) in Hit.
    + rewrite elem_of_cons, IH. split.
      * intros [->|(Hle & it & Hit & Hpit)].
        { split; [done|]. exists item. by rewrite Nat.sub_diag. }
        split; [lia|]. exists it. by rewrite (Hnext Hle).
      * intros (Hle & it & Hit & Hpit).
        destruct (decide (j = i)) as [->|Hne]; [by left|]. right.
        assert (Hlt : (S i ≤ j)%nat) by lia. split; [done|]. exists it.
        by rewrite (Hnext Hlt) in Hit.
Qed.

Lemma NoDup_unprocessed_from (i : nat) (items : list Streams.stream_item) :
  NoDup (Streams.unprocessed_from i items).
Proof.
  revert i. induction items as [|item items IH]; intros i; simpl; [constructor|].
  destruct (Streams.processed item); [apply IH|].
  constructor; [|apply IH]. rewrite elem_of_unprocessed_from. lia.
Qed.

(** C7, as the code has it.  A pass of [process_stream] over the buffer of
    an existing session walks the items in order.  Up to the first item
    whose normalization or scoring raises (the whole buffer when none does),
    it scores exactly the items with [processed = false], each once, writes
    [processed = true] and the results to each of them, and leaves the items
    with [processed = true] as they are.  When an item's scoring raises, the
    pass stops there: that item and the later ones stay as they were, and
    the call still returns normally.  After a pass in which nothing raised,
    every item is processed, and a second pass (with no push in between,
    whatever the processor and analyzer do) changes nothing and scores
    nothing. *)
Theorem scoring_pass
    (text_processor text_processor' : string → outcome string)
    (sentiment_analyzer sentiment_analyzer' : string → outcome Sentiment.analysis)
    (stream_id : string) (self self1 : Streams.StreamManager)
    (s : Streams.stream_info) (items : list Streams.stream_item)
    (scored : list nat) (r : outcome unit) :
  Streams.active_streams self !! stream_id = Some s →
  Streams.stream_results self !! stream_id = Some items →
  Streams.process_stream_run text_processor sentiment_analyzer stream_id self
    = (self1, scored, r) →
  ∃ done done' rest,
    items = (done ++ rest)%list ∧
    self1 = Streams.with_results <[stream_id := (done' ++ rest)%list]> self ∧
    Forall2 (λ item item',
               Streams.score_item text_processor sentiment_analyzer item
                 = Returns item') done done' ∧
    scored = Streams.unprocessed_from 0 done ∧
    NoDup scored ∧
    (∀ j, j ∈ scored ↔ ∃ item, done !! j = Some item ∧ Streams.processed item = false) ∧
    Streams.process_stream text_processor sentiment_analyzer stream_id self
      = (self1, Returns tt) ∧
    match r with
    | Returns _ =>
        rest = [] ∧
        Forall (λ item, Streams.processed item = true) done' ∧
        Streams.process_stream_run text_processor' sentiment_analyzer' stream_id self1
          = (self1, [], Returns tt)
    | Raises e =>
        ∃ item rest', rest = item :: rest' ∧ Streams.processed item = false ∧
          Streams.score_item text_processor sentiment_analyzer item = Raises e
    end.
Proof.
  intros Ha Hr Hrun.
  assert (Hps : Streams.process_stream text_processor sentiment_analyzer stream_id self
                = (self1, Returns tt)).
  { unfold Streams.process_stream. rewrite Hrun. by destruct r as [[]|?]. }
  unfold Streams.process_stream_run in Hrun. rewrite Ha, Hr in Hrun.
  destruct (Streams.process_loop text_processor sentiment_analyzer items 0 items)
    as [[items' scored'] r'] eqn:Hloop.
  injection Hrun as <- <- <-.
  apply (process_loop_spec _ _ items [] items' scored' r') in Hloop
    as (done & done' & rest & -> & -> & HF & -> & Hend).
  exists done, done', rest. simpl.
  split_and!; [done | done | done | done | apply NoDup_unprocessed_from | | done | ].
  - intros j. rewrite elem_of_unprocessed_from, Nat.sub_0_r.
    split; [by intros [_ ?] | intros ?; split; [lia | done]].
  - destruct r' as [[]|e].
    + subst rest. rewrite app_nil_r.
      assert (Hall : Forall (λ item, Streams.processed item = true) done').
      { clear -HF. induction HF as [|?????]; constructor;
          [by eapply score_item_processed | done]. }
      split_and!; [done | done |].
      unfold Streams.process_stream_run. simpl. rewrite Ha, lookup_insert_eq.
      rewrite process_loop_all_processed by done.
      unfold Streams.with_results. simpl. by rewrite insert_insert_eq.
    + destruct Hend as (item & rest' & -> & Hitem). exists item, rest'.
      split_and!; [done | by eapply score_item_raises | done].
Qed.

Lemma scoring_pass_witness :
  Streams.process_stream Examples.plain_processor Examples.vader_analyzer
    "3f2b8c1e-0001" Examples.two_items = (Examples.two_items_scored, Returns tt) ∧
  Streams.process_stream_run Examples.plain_processor Examples.failing_analyzer
    "3f2b8c1e-0001" Examples.two_items_scored
    = (Examples.two_items_scored, [], Returns tt).
Proof.
  destruct (Streams.active_streams Examples.two_items !! "3f2b8c1e-0001")
    as [s|] eqn:Ha; [|vm_compute in Ha; discriminate].
  destruct (Streams.stream_results Examples.two_items !! "3f2b8c1e-0001")
    as [items|] eqn:Hr; [|vm_compute in Hr; discriminate].
  destruct (scoring_pass Examples.plain_processor Examples.plain_processor
              Examples.vader_analyzer Examples.failing_analyzer
              "3f2b8c1e-0001" Examples.two_items Examples.two_items_scored
              s items [0; 1]%nat (Returns tt) Ha Hr)
    as (done & done' & rest & _ & _ & _ & _ & _ & _ & Hps & _ & _ & Hagain).
  { vm_compute. reflexivity. }
  split; [exact Hps | exact Hagain].
Defined.

(** C7 as stated fails when scoring raises: with an analyzer whose backend
    raises, the pass over two unprocessed items returns normally and leaves
    both with [processed = false] and no result. *)
Lemma failed_scoring_leaves_items_unprocessed :
  (λ items : list Streams.stream_item, Streams.processed <$> items) <$>
    Streams.stream_results Examples.two_items !! "3f2b8c1e-0001"
    = Some [false; false] ∧
  (Streams.process_stream Examples.plain_processor Examples.failing_analyzer
     "3f2b8c1e-0001" Examples.two_items).2 = Returns tt ∧
  (λ items : list Streams.stream_item, Streams.processed <$> items) <$>
    Streams.stream_results
      (Streams.process_stream Examples.plain_processor Examples.failing_analyzer
         "3f2b8c1e-0001" Examples.two_items).1 !! "3f2b8c1e-0001"
    = Some [false; false] ∧
  (λ items : list Streams.stream_item, Streams.sentiment <$> items) <$>
    Streams.stream_results
      (Streams.process_stream Examples.plain_processor Examples.failing_analyzer
         "3f2b8c1e-0001" Examples.two_items).1 !! "3f2b8c1e-0001"
    = Some [None; None].
Proof. split_and!; vm_compute; reflexivity. Qed.

(** ** Status writes *)

Lemma update_stream_status_of (f : Streams.stream_info → Streams.stream_info)
    (stream_id stream_id' : string) (self : Streams.StreamManager) :
  (∀ s, Streams.stream_status (f s) = Streams.stream_status s) →
  Streams.status_of (Streams.update_stream stream_id' f self).1 stream_id
    = Streams.status_of self stream_id.
Proof.
  intros Hf. unfold Streams.update_stream, Streams.status_of.
  destruct (Streams.active_streams self !! stream_id') as [s'|] eqn:Hs'; simpl; [|done].
  destruct (decide (stream_id' = stream_id)) as [->|Hne].
  - rewrite lookup_insert_eq, Hs'. simpl. by rewrite Hf.
  - by rewrite lookup_insert_ne.
Qed.

Lemma push_status_of (iso_now stream_id stream_id' text : string)
    (self : Streams.StreamManager) :
  Streams.status_of (Streams._process_stream_data iso_now stream_id' text self) stream_id
    = Streams.status_of self stream_id.
Proof.
  unfold Streams._process_stream_data.
  destruct (Streams.stream_results self !! stream_id'); [|done].
  by rewrite update_stream_status_of.
Qed.

Lemma custom_loop_status_of (stream_id stream_id' query : string) (duration : Z)
    (start : Qc) (ticks : list Streams.tick) (self self1 : Streams.StreamManager) :
  Streams.custom_loop stream_id' query duration start ticks self = Some self1 →
  Streams.status_of self1 stream_id = Streams.status_of self stream_id.
Proof.
  revert self. induction ticks as [|t ticks IH]; intros self; simpl; [done|].
  case_decide.
  - by intros [= <-].
  - intros H'. rewrite (IH _ H'). apply push_status_of.
Qed.

Lemma process_stream_active (text_processor : string → outcome string)
    (sentiment_analyzer : string → outcome Sentiment.analysis)
    (stream_id : string) (self : Streams.StreamManager) :
  Streams.active_streams
    (Streams.process_stream text_processor sentiment_analyzer stream_id self).1
  = Streams.active_streams self.
Proof.
  unfold Streams.process_stream, Streams.process_stream_run.
  destruct (Streams.active_streams self !! stream_id); [|done].
  destruct (Streams.stream_results self !! stream_id) as [items|]; [|done].
  by destruct (Streams.process_loop text_processor sentiment_analyzer items 0 items)
    as [[? ?] ?].
Qed.

Lemma register_callback_active (stream_id : string) (cb : Streams.callback)
    (self : Streams.StreamManager) :
  Streams.active_streams (Streams.register_callback stream_id cb self).1
  = Streams.active_streams self.
Proof.
  unfold Streams.register_callback.
  destruct (Streams.stream_callbacks self !! stream_id) as [cbs|] eqn:Hc; simpl.
  - by rewrite Hc.
  - by rewrite lookup_insert_eq.
Qed.

Lemma push_active (iso_now stream_id other text : string)
    (self : Streams.StreamManager) (s : Streams.stream_info) :
  Streams.active_streams self !! stream_id = Some s →
  is_Some (Streams.active_streams
             (Streams._process_stream_data iso_now other text self) !! stream_id).
Proof.
  intros Ha. unfold Streams._process_stream_data, Streams.update_stream.
  destruct (Streams.stream_results self !! other); [|by rewrite Ha].
  simpl. destruct (Streams.active_streams self !! other) as [o|] eqn:Ho; simpl;
    [|by rewrite Ha].
  destruct (decide (other = stream_id)) as [->|Hne].
  - by rewrite lookup_insert_eq.
  - by rewrite lookup_insert_ne, Ha.
Qed.

Lemma push_callbacks (iso_now other text : string) (self : Streams.StreamManager) :
  Streams.stream_callbacks (Streams._process_stream_data iso_now other text self)
  = Streams.stream_callbacks self.
Proof.
  unfold Streams._process_stream_data, Streams.update_stream.
  destruct (Streams.stream_results self !! other); [|done]. simpl.
  by destruct (Streams.active_streams self !! other).
Qed.

(** C6, as the code has it.  The status of a session is written without
    looking at the status it has.  For every existing session:
    [stop_stream] sets its status to stopped whatever it was before, also
    completed or error; the custom adapter task, when its loop ends, sets
    the status to completed whatever it is at that moment, also stopped;
    the exception handler of an adapter task sets the status to error and
    stores the message, whatever the status is, also stopped or completed.
    The scoring pass, registering a callback and the two queries change no
    session's status.  A push writes no status in its own statements, and
    changes none when no callback is registered for its session; the
    callbacks it awaits are arbitrary callables, and with one that calls
    [stop_stream] the push leaves the session stopped. *)
Theorem status_writes_unguarded (self : Streams.StreamManager)
    (stream_id other : string) (s : Streams.stream_info)
    (query : string) (duration : Z) (start : Qc) (ticks : list Streams.tick)
    (iso_now text msg : string)
    (text_processor : string → outcome string)
    (sentiment_analyzer : string → outcome Sentiment.analysis)
    (cb : Streams.callback) (reenter : Streams.reentry) (fuel : nat)
    (limit : Z) (processed_only : bool) :
  Streams.active_streams self !! stream_id = Some s →
  Streams.stop_stream stream_id self
    = (Streams.with_active <[stream_id := Streams.set_status Streams.stopped s]> self,
       Returns tt) ∧
  Streams.status_of (Streams.stop_stream stream_id self).1 stream_id
    = Some Streams.stopped ∧
  (∀ self1 s1,
     Streams.custom_loop stream_id query duration start ticks self = Some self1 →
     Streams.active_streams self1 !! stream_id = Some s1 →
     Streams._run_custom_stream stream_id query duration start ticks self
       = Some (Streams.with_active
                 <[stream_id := Streams.set_status Streams.completed s1]> self1,
               Returns tt) ∧
     Streams.status_of
       (Streams.with_active
          <[stream_id := Streams.set_status Streams.completed s1]> self1) stream_id
       = Some Streams.completed) ∧
  Streams.adapter_failed stream_id msg self
    = (Streams.with_active
         <[stream_id := Streams.set_error msg (Streams.set_status Streams.error s)]> self,
       Returns tt) ∧
  Streams.status_of (Streams.adapter_failed stream_id msg self).1 stream_id
    = Some Streams.error ∧
  Streams.status_of (Streams._process_stream_data iso_now other text self) stream_id
    = Streams.status_of self stream_id ∧
  (Streams.stream_callbacks self !! other = None
   ∨ Streams.stream_callbacks self !! other = Some []%list →
   Streams._process_stream_data_awaiting reenter (S fuel) iso_now other text self
     = Some (Streams._process_stream_data iso_now other text self)) ∧
  (∀ items o,
     Streams.stream_results self !! other = Some items →
     Streams.active_streams self !! other = Some o →
     Streams.stream_callbacks self !! other = Some [cb]%list →
     (∀ manager,
        reenter cb other text manager = (Streams.stop_stream stream_id manager).1) →
     ∃ after,
       Streams._process_stream_data_awaiting reenter (S (S fuel)) iso_now other text self
         = Some after ∧
       Streams.status_of after stream_id = Some Streams.stopped) ∧
  Streams.status_of
    (Streams.process_stream text_processor sentiment_analyzer other self).1 stream_id
    = Streams.status_of self stream_id ∧
  Streams.status_of (Streams.register_callback other cb self).1 stream_id
    = Streams.status_of self stream_id ∧
  (Streams.get_stream_status other self).1 = self ∧
  (Streams.get_stream_results other limit processed_only self).1 = self.
Proof.
  intros Ha.
  assert (Hstop : ∀ m s', Streams.active_streams m !! stream_id = Some s' →
            Streams.stop_stream stream_id m
            = (Streams.with_active
                 <[stream_id := Streams.set_status Streams.stopped s']> m, Returns tt)).
  { intros m s' Hm. unfold Streams.stop_stream, Streams.update_stream. by rewrite Hm. }
  split_and!.
  - by apply Hstop.
  - rewrite (Hstop _ _ Ha). unfold Streams.status_of. simpl. by rewrite lookup_insert_eq.
  - intros self1 s1 Hloop Hs1. split.
    + unfold Streams._run_custom_stream. rewrite Hloop. simpl.
      unfold Streams.update_stream. by rewrite Hs1.
    + unfold Streams.status_of. simpl. by rewrite lookup_insert_eq.
  - unfold Streams.adapter_failed, Streams.update_stream. rewrite Ha. simpl.
    rewrite lookup_insert_eq. simpl. unfold Streams.with_active. simpl.
    by rewrite insert_insert_eq.
  - unfold Streams.adapter_failed, Streams.update_stream, Streams.status_of.
    rewrite Ha. simpl. rewrite lookup_insert_eq. simpl. by rewrite lookup_insert_eq.
  - apply push_status_of.
  - intros Hcb. unfold Streams._process_stream_data_awaiting.
    destruct (Streams.stream_results self !! other); [|done].
    destruct (Streams.active_streams self !! other); [|done].
    destruct Hcb as [Hcb|Hcb]; rewrite Hcb; [done|].
    cbn [Streams.await_callbacks]. rewrite push_callbacks, Hcb. done.
  - intros items o Hitems Ho Hcb Hre.
    unfold Streams._process_stream_data_awaiting. rewrite Hitems, Ho, Hcb.
    set (pushed := Streams._process_stream_data iso_now other text self).
    destruct (push_active iso_now stream_id other text self s Ha) as [s' Hs'].
    fold pushed in Hs'.
    assert (Hcbs : Streams.stream_callbacks
              (Streams.stop_stream stream_id pushed).1 !! other = Some [cb]%list).
    { rewrite (Hstop _ _ Hs'). simpl. unfold pushed. by rewrite push_callbacks. }
    assert (Hst : Streams.status_of (Streams.stop_stream stream_id pushed).1 stream_id
                  = Some Streams.stopped).
    { rewrite (Hstop _ _ Hs'). unfold Streams.status_of. simpl.
      by rewrite lookup_insert_eq. }
    exists (Streams.stop_stream stream_id pushed).1. split; [|done].
    cbn [Streams.await_callbacks]. unfold pushed at 1. rewrite push_callbacks, Hcb.
    simpl. rewrite Hre. fold pushed.
    destruct (cb other text); [|done].
    rewrite Hcbs. done.
  - unfold Streams.status_of. by rewrite process_stream_active.
  - unfold Streams.status_of. by rewrite register_callback_active.
  - unfold Streams.get_stream_status.
    by destruct (Streams.active_streams self !! other).
  - unfold Streams.get_stream_results.
    by destruct (Streams.stream_results self !! other).
Qed.

Lemma status_writes_unguarded_witness :
  Streams.status_of Examples.completed_stream "3f2b8c1e-0001" = Some Streams.completed ∧
  Streams.status_of
    (Streams.stop_stream "3f2b8c1e-0001" Examples.completed_stream).1 "3f2b8c1e-0001"
    = Some Streams.stopped ∧
  Streams.status_of
    (Streams.adapter_failed "3f2b8c1e-0001" "connection lost"
       Examples.completed_stream).1 "3f2b8c1e-0001"
    = Some Streams.error ∧
  Streams.status_of Examples.notified_stream "3f2b8c1e-0001" = Some Streams.running ∧
  ∃ after,
    Streams._process_stream_data_awaiting Examples.stop_on_push 2
      "2024-01-01T00:00:01" "3f2b8c1e-0001" "good" Examples.notified_stream
      = Some after ∧
    Streams.status_of after "3f2b8c1e-0001" = Some Streams.stopped.
Proof.
  split; [vm_compute; reflexivity|].
  destruct (Streams.active_streams Examples.completed_stream !! "3f2b8c1e-0001")
    as [s|] eqn:Ha; [|vm_compute in Ha; discriminate].
  pose proof (status_writes_unguarded Examples.completed_stream
                "3f2b8c1e-0001" "3f2b8c1e-0001" s "python" 60 0 [] "" ""
                "connection lost" Examples.plain_processor Examples.vader_analyzer
                Examples.notify Examples.quiet 0 100 false Ha)
    as (_ & Hstop & _ & _ & Hfail & _).
  split; [exact Hstop|]. split; [exact Hfail|].
  split; [vm_compute; reflexivity|].
  destruct (Streams.active_streams Examples.notified_stream !! "3f2b8c1e-0001")
    as [o|] eqn:Ho; [|vm_compute in Ho; discriminate].
  destruct (Streams.stream_results Examples.notified_stream !! "3f2b8c1e-0001")
    as [items|] eqn:Hitems; [|vm_compute in Hitems; discriminate].
  pose proof (status_writes_unguarded Examples.notified_stream
                "3f2b8c1e-0001" "3f2b8c1e-0001" o "python" 60 0 []
                "2024-01-01T00:00:01" "good" "" Examples.plain_processor
                Examples.vader_analyzer Examples.notify Examples.stop_on_push 0 100
                false Ho)
    as (_ & _ & _ & _ & _ & _ & _ & Hpush & _).
  apply (Hpush items o Hitems Ho); [vm_compute; reflexivity | reflexivity].
Defined.

(** C6 as stated fails: [stop_stream] on a session that is already
    completed changes its status to stopped; the adapter task of a stopped
    session, when its duration has elapsed, changes the status from stopped
    to completed; and the exception handler of an adapter task changes the
    status of a stopped session, and of a completed one, to error. *)
Lemma terminal_status_overwritten :
  Streams.status_of Examples.completed_stream "3f2b8c1e-0001" = Some Streams.completed ∧
  Streams.terminal Streams.completed = true ∧
  Streams.status_of
    (Streams.stop_stream "3f2b8c1e-0001" Examples.completed_stream).1 "3f2b8c1e-0001"
    = Some Streams.stopped ∧
  Streams.status_of Examples.stopped_stream "3f2b8c1e-0001" = Some Streams.stopped ∧
  Streams.terminal Streams.stopped = true ∧
  (Streams._run_custom_stream "3f2b8c1e-0001" "python" 60 0 [Examples.late_tick]
     Examples.stopped_stream
   ≫= λ after, Streams.status_of after.1 "3f2b8c1e-0001") = Some Streams.completed ∧
  Streams.status_of
    (Streams.adapter_failed "3f2b8c1e-0001" "connection lost"
       Examples.stopped_stream).1 "3f2b8c1e-0001"
    = Some Streams.error ∧
  Streams.status_of
    (Streams.adapter_failed "3f2b8c1e-0001" "connection lost"
       Examples.completed_stream).1 "3f2b8c1e-0001"
    = Some Streams.error.
Proof. split_and!; vm_compute; reflexivity. Qed.

(** * Further properties of the code *)

(** ** The tables of the manager stay consistent *)

Lemma consistent_init : Streams.consistent Streams.init.
Proof. intros k. simpl. by rewrite !lookup_empty. Qed.

Lemma consistent_update_stream (f : Streams.stream_info → Streams.stream_info)
    (stream_id : string) (self : Streams.StreamManager) :
  (∀ s, Streams.data_count (f s) = Streams.data_count s) →
  Streams.consistent self →
  Streams.consistent (Streams.update_stream stream_id f self).1.
Proof.
  intros Hf Hc k. unfold Streams.update_stream.
  destruct (Streams.active_streams self !! stream_id) as [s|] eqn:Hs; simpl; [|apply Hc].
  specialize (Hc k). destruct (decide (stream_id = k)) as [->|Hne].
  - rewrite lookup_insert_eq. rewrite Hs in Hc. by rewrite Hf.
  - by rewrite lookup_insert_ne.
Qed.

Lemma consistent_start_adapter (launched : outcome unit) (stream_id : string)
    (self : Streams.StreamManager) :
  Streams.consistent self →
  Streams.consistent (Streams.start_adapter launched stream_id self).
Proof.
  intros Hc. unfold Streams.start_adapter.
  destruct launched; repeat apply consistent_update_stream; done.
Qed.

Lemma consistent_start (env : Streams.environment) (source query : string)
    (duration : Z) (self : Streams.StreamManager) :
  Streams.consistent self →
  Streams.consistent (Streams.start_stream env source query duration self).1.
Proof.
  intros Hc.
  set (created := Streams.with_results <[Streams.uuid4 env := []]>
        (Streams.with_active <[Streams.uuid4 env :=
           {| Streams.id := Streams.uuid4 env; Streams.source := source;
              Streams.query := query; Streams.duration := duration;
              Streams.start_time := Streams.now env;
              Streams.stream_status := Streams.initializing;
              Streams.data_count := 0; Streams.stream_error := None |}]> self)).
  assert (Hcreated : Streams.consistent created).
  { intros k. specialize (Hc k). unfold created. simpl.
    destruct (decide (Streams.uuid4 env = k)) as [->|Hne].
    - by rewrite !lookup_insert_eq.
    - by rewrite !lookup_insert_ne. }
  unfold Streams.start_stream. fold created.
  repeat case_decide; simpl; try done;
    by apply consistent_start_adapter.
Qed.

Lemma consistent_push (iso_now stream_id text : string) (self : Streams.StreamManager) :
  Streams.consistent self →
  Streams.consistent (Streams._process_stream_data iso_now stream_id text self).
Proof.
  intros Hc k. unfold Streams._process_stream_data.
  destruct (Streams.stream_results self !! stream_id) as [items|] eqn:Hr; [|apply Hc].
  pose proof (Hc stream_id) as Hid. rewrite Hr in Hid.
  destruct (Streams.active_streams self !! stream_id) as [s|] eqn:Hs; [|done].
  unfold Streams.update_stream. simpl. rewrite Hs. simpl.
  specialize (Hc k). destruct (decide (stream_id = k)) as [->|Hne].
  - rewrite !lookup_insert_eq. simpl. rewrite length_app. simpl. lia.
  - by rewrite !lookup_insert_ne.
Qed.

Lemma process_loop_length (text_processor : string → outcome string)
    (sentiment_analyzer : string → outcome Sentiment.analysis)
    (items items' : list Streams.stream_item) (scored : list nat) (r : outcome unit) :
  Streams.process_loop text_processor sentiment_analyzer items 0 items
    = (items', scored, r) →
  length items' = length items.
Proof.
  intros H.
  apply (process_loop_spec _ _ items [] items' scored r) in H
    as (done & done' & rest & -> & -> & HF & _).
  simpl. rewrite !length_app. f_equal. symmetry. by eapply Forall2_length.
Qed.

Lemma consistent_process (text_processor : string → outcome string)
    (sentiment_analyzer : string → outcome Sentiment.analysis)
    (stream_id : string) (self : Streams.StreamManager) :
  Streams.consistent self →
  Streams.consistent
    (Streams.process_stream text_processor sentiment_analyzer stream_id self).1.
Proof.
  intros Hc. unfold Streams.process_stream, Streams.process_stream_run.
  destruct (Streams.active_streams self !! stream_id) as [s|] eqn:Hs; [|done].
  destruct (Streams.stream_results self !! stream_id) as [items|] eqn:Hr; [|done].
  destruct (Streams.process_loop text_processor sentiment_analyzer items 0 items)
    as [[items' scored] r] eqn:Hloop.
  simpl. intros k. specialize (Hc k). simpl.
  destruct (decide (stream_id = k)) as [->|Hne].
  - rewrite lookup_insert_eq. rewrite Hs, Hr in Hc. rewrite Hs.
    by rewrite (process_loop_length _ _ _ _ _ _ Hloop).
  - by rewrite lookup_insert_ne.
Qed.

Lemma consistent_register (stream_id : string) (cb : Streams.callback)
    (self : Streams.StreamManager) :
  Streams.consistent self →
  Streams.consistent (Streams.register_callback stream_id cb self).1.
Proof.
  intros Hc k. specialize (Hc k). unfold Streams.register_callback.
  destruct (Streams.stream_callbacks self !! stream_id) as [cbs|] eqn:Hcb; simpl.
  - by rewrite Hcb.
  - by rewrite lookup_insert_eq.
Qed.

Lemma consistent_stop (stream_id : string) (self : Streams.StreamManager) :
  Streams.consistent self → Streams.consistent (Streams.stop_stream stream_id self).1.
Proof.
  intros Hc. unfold Streams.stop_stream.
  destruct (Streams.active_streams self !! stream_id); [|done].
  by apply consistent_update_stream.
Qed.

Lemma consistent_custom_loop (stream_id query : string) (duration : Z) (start : Qc)
    (ticks : list Streams.tick) (self self1 : Streams.StreamManager) :
  Streams.consistent self →
  Streams.custom_loop stream_id query duration start ticks self = Some self1 →
  Streams.consistent self1.
Proof.
  revert self. induction ticks as [|t ticks IH]; intros self Hc; simpl; [done|].
  case_decide; [by intros [= <-]|].
  apply IH. by apply consistent_push.
Qed.

Lemma consistent_run_custom (stream_id query : string) (duration : Z) (start : Qc)
    (ticks : list Streams.tick) (self self' : Streams.StreamManager) (r : outcome unit) :
  Streams.consistent self →
  Streams._run_custom_stream stream_id query duration start ticks self = Some (self', r) →
  Streams.consistent self'.
Proof.
  intros Hc. unfold Streams._run_custom_stream.
  destruct (Streams.custom_loop stream_id query duration start ticks self)
    as [self1|] eqn:Hloop; simpl; [|done].
  apply (consistent_custom_loop _ _ _ _ _ _ _ Hc) in Hloop.
  unfold Streams.update_stream.
  destruct (Streams.active_streams self1 !! stream_id) as [s1|] eqn:Hs1.
  - simpl. intros [= <- <-].
    pose proof (consistent_update_stream (Streams.set_status Streams.completed)
                  stream_id self1 (λ _, eq_refl) Hloop) as H.
    unfold Streams.update_stream in H. by rewrite Hs1 in H.
  - simpl. rewrite Hs1. by intros [= <- <-].
Qed.

Lemma consistent_adapter_failed (stream_id msg : string) (self : Streams.StreamManager) :
  Streams.consistent self →
  Streams.consistent (Streams.adapter_failed stream_id msg self).1.
Proof.
  intros Hc. unfold Streams.adapter_failed.
  pose proof (consistent_update_stream (Streams.set_status Streams.error)
                stream_id self (λ _, eq_refl) Hc) as H1.
  destruct (Streams.update_stream stream_id (Streams.set_status Streams.error) self)
    as [self1 [u|e]]; simpl in *; [|done].
  by apply consistent_update_stream.
Qed.

Lemma consistent_step (self self' : Streams.StreamManager) :
  Streams.step self self' → Streams.consistent self → Streams.consistent self'.
Proof.
  intros Hstep Hc. destruct Hstep.
  - by apply consistent_start.
  - by apply consistent_push.
  - by apply consistent_process.
  - by apply consistent_register.
  - unfold Streams.get_stream_status.
    by destruct (Streams.active_streams self !! stream_id).
  - unfold Streams.get_stream_results.
    by destruct (Streams.stream_results self !! stream_id).
  - by apply consistent_stop.
  - by eapply consistent_run_custom.
  - by apply consistent_adapter_failed.
Qed.

(** X1.  In every manager reachable from [__init__] through the public
    methods, the pushes of adapter tasks and the ends of adapter tasks, the
    two tables hold the same session ids and each session's [data_count]
    equals the length of its result list. *)
Theorem reachable_consistent (self : Streams.StreamManager) :
  Streams.reachable self → Streams.consistent self.
Proof.
  unfold Streams.reachable. intros H.
  eapply (rtc_ind_r (λ m, Streams.consistent m)); [apply consistent_init | | exact H].
  intros m m' _ Hstep Hm. by eapply consistent_step.
Qed.

Lemma reachable_consistent_witness :
  Streams.consistent Examples.two_items.
Proof.
  apply reachable_consistent. unfold Streams.reachable.
  eapply rtc_r; [eapply rtc_r; [apply rtc_once, Streams.step_start|]|];
    apply Streams.step_push.
Defined.

(** ** Sessions are never removed *)

Lemma update_stream_dom (f : Streams.stream_info → Streams.stream_info)
    (stream_id : string) (self : Streams.StreamManager) :
  dom (Streams.active_streams (Streams.update_stream stream_id f self).1)
  = dom (Streams.active_streams self).
Proof.
  unfold Streams.update_stream.
  destruct (Streams.active_streams self !! stream_id) as [s|] eqn:Hs; simpl; [|done].
  rewrite dom_insert_L. apply (elem_of_dom_2 (D := gset string)) in Hs. set_solver.
Qed.

Lemma push_dom (iso_now stream_id text : string) (self : Streams.StreamManager) :
  dom (Streams.active_streams (Streams._process_stream_data iso_now stream_id text self))
  = dom (Streams.active_streams self).
Proof.
  unfold Streams._process_stream_data.
  destruct (Streams.stream_results self !! stream_id); [|done].
  by rewrite update_stream_dom.
Qed.

Lemma custom_loop_dom (stream_id query : string) (duration : Z) (start : Qc)
    (ticks : list Streams.tick) (self self1 : Streams.StreamManager) :
  Streams.custom_loop stream_id query duration start ticks self = Some self1 →
  dom (Streams.active_streams self1) = dom (Streams.active_streams self).
Proof.
  revert self. induction ticks as [|t ticks IH]; intros self; simpl; [done|].
  case_decide; [by intros [= <-]|].
  intros H'. rewrite (IH _ H'). apply push_dom.
Qed.

Lemma step_dom (self self' : Streams.StreamManager) :
  Streams.step self self' →
  dom (Streams.active_streams self) ⊆ dom (Streams.active_streams self').
Proof.
  intros Hstep. destruct Hstep.
  - unfold Streams.start_stream, Streams._start_twitter_stream,
      Streams._start_reddit_stream, Streams._start_kafka_stream,
      Streams._start_custom_stream, Streams.start_adapter.
    repeat case_decide; simpl;
      repeat match goal with |- context [Streams.launch ?e ?k] =>
        destruct (Streams.launch e k) end;
      rewrite ?update_stream_dom; simpl; rewrite dom_insert_L; set_solver.
  - by rewrite push_dom.
  - by rewrite process_stream_active.
  - by rewrite register_callback_active.
  - unfold Streams.get_stream_status.
    by destruct (Streams.active_streams self !! stream_id).
  - unfold Streams.get_stream_results.
    by destruct (Streams.stream_results self !! stream_id).
  - unfold Streams.stop_stream.
    destruct (Streams.active_streams self !! stream_id); [|done].
    by rewrite update_stream_dom.
  - unfold Streams._run_custom_stream in H.
    destruct (Streams.custom_loop stream_id query duration start ticks self)
      as [self1|] eqn:Hloop; simpl in H; [|done].
    apply custom_loop_dom in Hloop. rewrite <- Hloop.
    pose proof (update_stream_dom (Streams.set_status Streams.completed)
                  stream_id self1) as Hd.
    destruct (Streams.update_stream stream_id (Streams.set_status Streams.completed) self1)
      as [self2 [u|e]] eqn:Hu; simpl in *.
    + injection H as <- _. by rewrite Hd.
    + unfold Streams.update_stream in Hu.
      destruct (Streams.active_streams self1 !! stream_id) eqn:Hs1; [done|].
      injection Hu as <- <-. unfold Streams.update_stream in H. rewrite Hs1 in H.
      by injection H as <- _.
  - unfold Streams.adapter_failed.
    pose proof (update_stream_dom (Streams.set_status Streams.error) stream_id self) as Hd.
    destruct (Streams.update_stream stream_id (Streams.set_status Streams.error) self)
      as [self1 [u|e]]; simpl in *; [|by rewrite Hd].
    by rewrite update_stream_dom, Hd.
Qed.

(** X2.  No action removes a session: across any sequence of calls, pushes
    and adapter ends, every session id in [active_streams] stays there, so
    the number of streams [health_check] reports never goes down; it counts
    stopped, completed and failed sessions like running ones. *)
Theorem sessions_never_removed (self self' : Streams.StreamManager) :
  rtc Streams.step self self' →
  dom (Streams.active_streams self) ⊆ dom (Streams.active_streams self') ∧
  ((Streams.health_check self).1.2 ≤ (Streams.health_check self').1.2)%nat.
Proof.
  intros H.
  assert (Hsub : dom (Streams.active_streams self) ⊆ dom (Streams.active_streams self')).
  { induction H as [|x y z Hxy _ IH]; [done|].
    etrans; [by apply step_dom | done]. }
  split; [done|]. unfold Streams.health_check. simpl.
  rewrite <- !size_dom. by apply subseteq_size.
Qed.

Lemma sessions_never_removed_witness :
  dom (Streams.active_streams Examples.one_stream)
    ⊆ dom (Streams.active_streams Examples.stopped_stream) ∧
  ((Streams.health_check Examples.one_stream).1.2
   ≤ (Streams.health_check Examples.stopped_stream).1.2)%nat.
Proof.
  apply sessions_never_removed. apply rtc_once, Streams.step_stop.
Defined.

(** ** Starting a stream from a known source *)

(** X3.  For the four known sources [start_stream] never raises: it returns
    the generated id, and a later status query finds the session, with an
    empty result list, in status running when the adapter was launched, or
    in status error with the exception's message when the launch raised.
    Sessions under other ids are left as they were. *)
Theorem start_known_source (env : Streams.environment) (source query : string)
    (duration : Z) (self : Streams.StreamManager) :
  source ∈ Streams.known_sources →
  let after := (Streams.start_stream env source query duration self).1 in
  let created st err :=
    {| Streams.id := Streams.uuid4 env; Streams.source := source;
       Streams.query := query; Streams.duration := duration;
       Streams.start_time := Streams.now env; Streams.stream_status := st;
       Streams.data_count := 0; Streams.stream_error := err |} in
  (Streams.start_stream env source query duration self).2
    = Returns (Streams.uuid4 env) ∧
  Streams.stream_results after !! Streams.uuid4 env = Some [] ∧
  (∀ u, Streams.launch env source = Returns u →
     Streams.get_stream_status (Streams.uuid4 env) after
       = (after, Returns (created Streams.running None))) ∧
  (∀ e, Streams.launch env source = Raises e →
     Streams.get_stream_status (Streams.uuid4 env) after
       = (after, Returns (created Streams.error (Some (str e))))) ∧
  (∀ k, k ≠ Streams.uuid4 env →
     Streams.active_streams after !! k = Streams.active_streams self !! k ∧
     Streams.stream_results after !! k = Streams.stream_results self !! k).
Proof.
  intros Hsrc after created.
  assert (Hcase : source = "twitter" ∨ source = "reddit" ∨ source = "kafka"
                  ∨ source = "custom").
  { unfold Streams.known_sources in Hsrc.
    rewrite !elem_of_cons, elem_of_nil in Hsrc. tauto. }
  assert (Hstart : Streams.start_stream env source query duration self =
    (Streams.start_adapter (Streams.launch env source) (Streams.uuid4 env)
       (Streams.with_results <[Streams.uuid4 env := []]>
          (Streams.with_active
             <[Streams.uuid4 env := created Streams.initializing None]> self)),
     Returns (Streams.uuid4 env))).
  { unfold Streams.start_stream.
    destruct Hcase as [-> | [-> | [-> | ->]]]; repeat case_decide; done. }
  unfold after. rewrite Hstart. simpl. clear Hstart after.
  unfold Streams.start_adapter, Streams.get_stream_status, Streams.update_stream.
  split_and!; [done| | | |].
  - destruct (Streams.launch env source); simpl; rewrite ?lookup_insert_eq; simpl;
      rewrite ?lookup_insert_eq; simpl; by rewrite ?lookup_insert_eq.
  - intros u ->. simpl. rewrite lookup_insert_eq. simpl. by rewrite lookup_insert_eq.
  - intros e ->. simpl. rewrite lookup_insert_eq. simpl. rewrite lookup_insert_eq.
    simpl. by rewrite lookup_insert_eq.
  - intros k Hk.
    destruct (Streams.launch env source); simpl; rewrite ?lookup_insert_eq; simpl;
      rewrite ?lookup_insert_eq; simpl; by rewrite !lookup_insert_ne.
Qed.

Lemma start_known_source_witness :
  (Streams.start_stream Examples.env1 "custom" "python" 60 Streams.init).2
    = Returns "3f2b8c1e-0001" ∧
  Streams.get_stream_status "3f2b8c1e-0001" Examples.one_stream
    = (Examples.one_stream,
       Returns {| Streams.id := "3f2b8c1e-0001"; Streams.source := "custom";
                  Streams.query := "python"; Streams.duration := 60;
                  Streams.start_time := "2024-01-01 00:00:00";
                  Streams.stream_status := Streams.running;
                  Streams.data_count := 0; Streams.stream_error := None |}).
Proof.
  destruct (start_known_source Examples.env1 "custom" "python" 60 Streams.init)
    as (H1 & _ & H3 & _).
  { apply (bool_decide_unpack _). by vm_compute. }
  split; [exact H1 | exact (H3 tt eq_refl)].
Defined.

(** ** Reading the results *)

Lemma last_items_suffix {A} (limit : Z) (l : list A) :
  Streams.last_items limit l `suffix_of` l.
Proof. unfold Streams.last_items. case_decide; apply suffix_drop. Qed.

(** X4.  [get_stream_results] on an existing session changes nothing and
    returns a suffix (the most recent items, in buffer order) of the
    buffer, or of its processed items when [processed_only] is set.  For a
    positive [limit] it returns exactly min(limit, n) items; for
    [limit = 0] the slice [results[-0:]] is the whole list, not the empty
    one; for a negative [limit] it drops the first [-limit] items. *)
Theorem results_are_recent_suffix (stream_id : string) (limit : Z)
    (processed_only : bool) (self : Streams.StreamManager)
    (items : list Streams.stream_item) :
  Streams.stream_results self !! stream_id = Some items →
  let pool := if processed_only
              then filter (λ item, Streams.processed item = true) items else items in
  ∃ out,
    Streams.get_stream_results stream_id limit processed_only self
      = (self, Returns out) ∧
    out `suffix_of` pool ∧
    ((0 < limit)%Z → length out = (Z.to_nat limit `min` length pool)%nat) ∧
    (limit = 0%Z → out = pool) ∧
    ((limit < 0)%Z → out = drop (Z.to_nat (- limit)) pool) ∧
    (processed_only = true → Forall (λ item, Streams.processed item = true) out).
Proof.
  intros Hr pool. unfold Streams.get_stream_results. rewrite Hr. fold pool.
  exists (Streams.last_items limit pool).
  split_and!; [done | apply last_items_suffix | | | |].
  - intros Hpos. unfold Streams.last_items. rewrite decide_True by done.
    rewrite length_drop. lia.
  - intros ->. unfold Streams.last_items. by rewrite decide_False by lia.
  - intros Hneg. unfold Streams.last_items. by rewrite decide_False by lia.
  - intros ->. unfold pool, Streams.last_items.
    assert (Hpool : Forall (λ item, Streams.processed item = true)
                      (filter (λ item, Streams.processed item = true) items)).
    { apply list.Forall_forall. by intros item [? _]%list_elem_of_filter. }
    case_decide; by apply Forall_drop.
Qed.

Lemma results_are_recent_suffix_witness :
  ∃ items out,
    Streams.stream_results Examples.two_items !! "3f2b8c1e-0001" = Some items ∧
    Streams.get_stream_results "3f2b8c1e-0001" 1 false Examples.two_items
      = (Examples.two_items, Returns out) ∧
    out `suffix_of` items ∧
    length out = (1 `min` length items)%nat.
Proof.
  destruct (Streams.stream_results Examples.two_items !! "3f2b8c1e-0001")
    as [items|] eqn:Hr; [|vm_compute in Hr; discriminate].
  destruct (results_are_recent_suffix "3f2b8c1e-0001" 1 false Examples.two_items
              items Hr) as (out & Hout & Hsuf & Hlen & _).
  exists items, out. split_and!; [done | exact Hout | exact Hsuf | by apply Hlen].
Defined.

(** ** Pushing an item *)


(** ** What the scoring pass keeps *)

Lemma score_item_keeps (text_processor : string → outcome string)
    (sentiment_analyzer : string → outcome Sentiment.analysis)
    (item item' : Streams.stream_item) :
  Streams.score_item text_processor sentiment_analyzer item = Returns item' →
  Streams.text item' = Streams.text item ∧
  Streams.timestamp item' = Streams.timestamp item ∧
  Streams.emotions item' = Streams.emotions item.
Proof.
  unfold Streams.score_item. destruct (Streams.processed item).
  - by intros [= <-].
  - intros H. apply bind_returns in H as (pt & _ & H).
    by apply bind_returns in H as (res & _ & [= <-]).
Qed.

(** X6.  Whatever the text processor and the analyzer do (return or
    raise), a call of [process_stream] keeps, for every session, the number
    of buffered items, their order, texts, timestamps and emotions fields;
    it changes neither [active_streams] (so no [data_count] and no status)
    nor the callbacks, touches no buffer but the named session's, and
    returns normally. *)
Theorem process_keeps_items (text_processor : string → outcome string)
    (sentiment_analyzer : string → outcome Sentiment.analysis)
    (stream_id : string) (self : Streams.StreamManager) :
  let after :=
    (Streams.process_stream text_processor sentiment_analyzer stream_id self).1 in
  (Streams.process_stream text_processor sentiment_analyzer stream_id self).2
    = Returns tt ∧
  Streams.active_streams after = Streams.active_streams self ∧
  Streams.stream_callbacks after = Streams.stream_callbacks self ∧
  (∀ k, k ≠ stream_id →
     Streams.stream_results after !! k = Streams.stream_results self !! k) ∧
  (∀ k,
     (λ items : list Streams.stream_item,
        (λ item, (Streams.timestamp item, Streams.text item, Streams.emotions item))
          <$> items) <$> Streams.stream_results after !! k
     = (λ items : list Streams.stream_item,
          (λ item, (Streams.timestamp item, Streams.text item, Streams.emotions item))
            <$> items) <$> Streams.stream_results self !! k).
Proof.
  intros after. unfold after, Streams.process_stream, Streams.process_stream_run.
  destruct (Streams.active_streams self !! stream_id) as [s|] eqn:Hs; [|done].
  destruct (Streams.stream_results self !! stream_id) as [items|] eqn:Hr; [|done].
  destruct (Streams.process_loop text_processor sentiment_analyzer items 0 items)
    as [[items' scored] r] eqn:Hloop. simpl.
  split_and!; [by destruct r as [[]|?] | done | done | |].
  - intros k Hk. by rewrite lookup_insert_ne.
  - intros k. destruct (decide (stream_id = k)) as [<-|Hne];
      [|by rewrite lookup_insert_ne].
    rewrite lookup_insert_eq, Hr. simpl. f_equal.
    apply (process_loop_spec _ _ items [] items' scored r) in Hloop
      as (done & done' & rest & -> & -> & HF & _).
    simpl. rewrite !fmap_app. f_equal.
    clear -HF. induction HF as [|item item' done done' Hitem _ IH]; [done|].
    csimpl. rewrite IH. f_equal.
    by destruct (score_item_keeps _ _ _ _ Hitem) as (-> & -> & ->).
Qed.

(** ** The custom adapter task *)

Lemma custom_loop_running (stream_id query : string) (duration : Z) (start : Qc)
    (ticks : list Streams.tick) (self : Streams.StreamManager) :
  Forall (λ t, ¬ Streams.expired duration start t) ticks →
  Streams.custom_loop stream_id query duration start ticks self = None.
Proof.
  intros H. revert self. induction H as [|t ticks Ht _ IH]; intros self; simpl; [done|].
  rewrite decide_False by exact Ht. apply IH.
Qed.



(** X7.  A custom stream started with [duration = 0] (or a negative
    duration) is unbounded: whatever the clock readings are, the loop of its
    adapter task never breaks, so the task never writes the status
    completed; for a positive duration the task goes on as long as no
    reading is later than [start + duration]. *)
Theorem custom_stream_unbounded (stream_id query : string) (duration : Z) (start : Qc)
    (ticks : list Streams.tick) (self : Streams.StreamManager) :
  (duration ≤ 0)%Z ∨ Forall (λ t, Streams.time_s t - start ≤ Qc_of_Z duration) ticks →
  Streams._run_custom_stream stream_id query duration start ticks self = None.
Proof.
  intros H. unfold Streams._run_custom_stream.
  rewrite custom_loop_running; [done|].
  destruct H as [Hd|Hall].
  - apply list.Forall_forall. intros t _ [Hpos _]. lia.
  - eapply list.Forall_impl; [exact Hall|]. intros t Ht [_ Hlt].
    by apply Qclt_not_le in Hlt.
Qed.

Lemma custom_stream_unbounded_witness :
  Streams._run_custom_stream "3f2b8c1e-0001" "python" 0 0
    [Examples.late_tick; Examples.late_tick] Examples.one_stream = None.
Proof. apply custom_stream_unbounded. left. done. Defined.



(** ** The keys of an emotion result *)

Local Abbreviation covers := Emotion.covers.

Lemma constant_scores_covers (v : Qc) : covers (Emotion.constant_scores v).
Proof. intros k Hk. rewrite constant_scores_lookup, decide_True by done. eauto. Qed.

Lemma fmap_covers (f : Qc → Qc) (m : gmap string Qc) : covers m → covers (f <$> m).
Proof. intros H k Hk. rewrite lookup_fmap. by apply fmap_is_Some, H. Qed.

Lemma ensure_all_covers (m : gmap string Qc) : covers (Emotion.ensure_all m).
Proof.
  unfold Emotion.ensure_all, Emotion.covers.
  generalize Emotion.emotions as l. intros l. revert m.
  induction l as [|e l IH] using rev_ind; intros m k Hk; [by apply elem_of_nil in Hk|].
  rewrite foldl_app. simpl.
  match goal with |- context [foldl ?f m l] => set (acc := foldl f m l) in * end.
  apply elem_of_app in Hk as [Hk|Hk].
  - specialize (IH m k Hk). fold acc in IH.
    destruct (acc !! e) eqn:He; [exact IH|].
    destruct (decide (e = k)) as [->|Hne]; [by rewrite lookup_insert_eq|].
    by rewrite lookup_insert_ne.
  - apply list_elem_of_singleton in Hk as ->.
    destruct (acc !! e) eqn:He; [by rewrite He|].
    by rewrite lookup_insert_eq.
Qed.

Lemma accumulate_covers (nw : gmap string Qc) (model : string)
    (result : gmap string Qc) (todo : list string) (m m' : gmap string Qc) :
  Emotion.accumulate nw model result todo m = Returns m' → covers m → covers m'.
Proof.
  revert m. induction todo as [|e todo IH]; intros m; simpl.
  - by intros [= <-].
  - destruct (result !! e) as [score|]; [|apply IH].
    intros H. apply bind_returns in H as (acc & Hacc & H).
    apply bind_returns in H as (w & Hw & H). intros Hm. apply (IH _ H).
    intros k Hk. destruct (decide (e = k)) as [->|Hne].
    + by rewrite lookup_insert_eq.
    + rewrite lookup_insert_ne by done. by apply Hm.
Qed.

Lemma weighted_scores_covers (nw : gmap string Qc)
    (results : list (string * gmap string Qc)) (m m' : gmap string Qc) :
  Emotion.weighted_scores nw results m = Returns m' → covers m → covers m'.
Proof.
  revert m. induction results as [|[model result] results IH]; intros m;
    cbn [Emotion.weighted_scores].
  - by intros [= <-].
  - intros H. apply bind_returns in H as (m1 & H1 & H). intros Hm.
    apply (IH _ H). exact (accumulate_covers _ _ _ _ _ _ H1 Hm).
Qed.

Lemma count_token_keys (token : string) (lexicon : list (string * list string))
    (counts counts' : gmap string nat) (k : string) :
  Emotion.count_token token lexicon counts = Returns counts' →
  is_Some (counts !! k) → is_Some (counts' !! k).
Proof.
  revert counts. induction lexicon as [|[emotion words] lexicon IH]; intros counts; simpl.
  - by intros [= <-].
  - case_decide; [|apply IH].
    intros Hb. apply bind_returns in Hb as (c & Hc & Hb). intros Hk. apply (IH _ Hb).
    destruct (decide (emotion = k)) as [->|Hne].
    + by rewrite lookup_insert_eq.
    + by rewrite lookup_insert_ne.
Qed.

Lemma count_tokens_keys (tokens : list string) (lexicon : list (string * list string))
    (counts counts' : gmap string nat) (k : string) :
  Emotion.count_tokens tokens lexicon counts = Returns counts' →
  is_Some (counts !! k) → is_Some (counts' !! k).
Proof.
  revert counts. induction tokens as [|token tokens IH]; intros counts; simpl.
  - by intros [= <-].
  - intros H. apply bind_returns in H as (c1 & H1 & H). intros Hk.
    apply (IH _ H). by eapply count_token_keys.
Qed.

Lemma rule_based_covers (self : Emotion.EmotionDetector) (text : string) :
  ∃ m, Emotion._detect_with_rule_based self text = Returns m ∧ covers m.
Proof.
  unfold Emotion._detect_with_rule_based.
  match goal with |- context [try_except ?body _] => destruct body as [m|e] eqn:Hbody end;
    simpl; [|eexists; split; [done | apply constant_scores_covers]].
  exists m. split; [done|].
  apply bind_returns in Hbody as (entry & _ & Hbody).
  destruct entry as [|lexicon stopwords|]; try done.
  apply bind_returns in Hbody as (tokens & _ & Hbody).
  apply bind_returns in Hbody as (counts & Hcounts & Hbody).
  case_decide; injection Hbody as <-.
  - apply fmap_covers, constant_scores_covers.
  - intros k Hk. rewrite lookup_fmap. apply fmap_is_Some.
    eapply count_tokens_keys; [exact Hcounts|].
    revert k Hk. apply list.Forall_forall. apply (bool_decide_unpack _). by vm_compute.
Qed.

Lemma transformer_covers (self : Emotion.EmotionDetector) (text : string) :
  ∃ m, Emotion._detect_with_transformer self text = Returns m ∧ covers m.
Proof.
  unfold Emotion._detect_with_transformer.
  match goal with |- context [try_except ?body _] => destruct body as [m|e] eqn:Hbody end;
    simpl; [|apply rule_based_covers].
  exists m. split; [done|].
  apply bind_returns in Hbody as (entry & _ & Hbody).
  destruct entry as [classifier| |]; try done.
  apply bind_returns in Hbody as (predictions & _ & [= <-]).
  apply ensure_all_covers.
Qed.

Lemma ensemble_covers (self : Emotion.EmotionDetector) (text : string) :
  ∃ m, Emotion._detect_with_ensemble self text = Returns m ∧ covers m.
Proof.
  unfold Emotion._detect_with_ensemble.
  match goal with |- context [try_except ?body _] => destruct body as [m|e] eqn:Hbody end;
    simpl; [|eexists; split; [done | apply constant_scores_covers]].
  exists m. split; [done|].
  apply bind_returns in Hbody as (results & _ & Hbody).
  apply bind_returns in Hbody as (weights & _ & Hbody).
  unfold Emotion.combine in Hbody.
  apply bind_returns in Hbody as (nw & _ & Hbody).
  eapply weighted_scores_covers; [exact Hbody | apply constant_scores_covers].
Qed.

Lemma dispatch_covers (self : Emotion.EmotionDetector) (text : string) :
  ∃ m, Emotion.dispatch self text = Returns m ∧ covers m.
Proof.
  unfold Emotion.dispatch, Emotion._detect_with_custom.
  repeat case_decide;
    auto using rule_based_covers, transformer_covers, ensemble_covers.
Qed.

Lemma detect_exact_keys (self : Emotion.EmotionDetector) (elapsed : Qc) (text : string) :
  ∃ m, Emotion.detect self elapsed text = Returns m ∧
       ∀ k, is_Some (m !! k) ↔ k ∈ Emotion.emotions.
Proof.
  unfold Emotion.detect, Emotion.detect_body.
  destruct (dispatch_covers self text) as (m & -> & Hm). simpl.
  eexists. split; [done|]. intros k. split.
  - intros [v Hv]. by apply map_lookup_filter_Some in Hv as [_ ?].
  - intros Hk.
    assert (Hne : "processing_time" ≠ k).
    { intros <-. by apply processing_time_no_emotion. }
    destruct (Hm k Hk) as [v Hv]. exists v.
    apply map_lookup_filter_Some. split; [|done]. by rewrite lookup_insert_ne.
Qed.

(** X9.  Whatever the model type, the loaded models and the text, [detect]
    returns a dictionary whose keys are exactly the six emotions joy, anger,
    fear, sadness, surprise and disgust: every emotion has a score, and no
    other key (a label of the transformer outside the six, the processing
    time) is passed on. *)
Theorem detect_keys (self : Emotion.EmotionDetector) (elapsed : Qc) (text : string) :
  ∃ m, Emotion.detect self elapsed text = Returns m ∧
       ∀ k, is_Some (m !! k) ↔ k ∈ Emotion.emotions.
Proof. apply detect_exact_keys. Qed.

(** ** Batches *)

Lemma batch_detect_from_spec (self : Emotion.EmotionDetector) (clock : nat → Qc)
    (texts : list string) (j : nat) :
  ∃ results,
    Emotion.batch_detect_from self clock j texts = Returns results ∧
    length results = length texts ∧
    ∀ i text, texts !! i = Some text →
      ∃ m, results !! i = Some m ∧
           Emotion.detect self (clock (j + i)%nat) text = Returns m.
Proof.
  revert j. induction texts as [|text texts IH]; intros j; simpl.
  - exists []. split_and!; try done.
  - destruct (detect_exact_keys self (clock j) text) as (m & Hm & _).
    destruct (IH (S j)) as (results & Hres & Hlen & Hpt).
    rewrite Hm. simpl. rewrite Hres. simpl.
    exists (m :: results). split_and!; [done | by rewrite <- Hlen |].
    intros [|i] t Ht; simpl in *.
    + injection Ht as <-. exists m. by rewrite Nat.add_0_r.
    + destruct (Hpt i t Ht) as (m' & ? & ?). exists m'.
      by replace (j + S i)%nat with (S j + i)%nat by lia.
Qed.

(** X10.  [batch_detect] never raises: for every list of texts (the empty
    one included) it returns one dictionary per text, in the order of the
    texts, the [i]-th being what [detect] returns for the [i]-th text, each
    with exactly the six emotion keys. *)
Theorem batch_detect_total (self : Emotion.EmotionDetector) (clock : nat → Qc)
    (texts : list string) :
  ∃ results,
    Emotion.batch_detect self clock texts = Returns results ∧
    length results = length texts ∧
    (∀ i text, texts !! i = Some text →
       ∃ m, results !! i = Some m ∧ Emotion.detect self (clock i) text = Returns m ∧
            ∀ k, is_Some (m !! k) ↔ k ∈ Emotion.emotions).
Proof.
  destruct (batch_detect_from_spec self clock texts 0) as (results & H & Hlen & Hpt).
  exists results. split_and!; [done..|].
  intros i text Ht. destruct (Hpt i text Ht) as (m & Hm & Hd). exists m.
  split_and!; [done | done |].
  destruct (detect_exact_keys self (clock i) text) as (m' & Hm' & Hk).
  simpl in Hd. rewrite Hd in Hm'. by injection Hm' as <-.
Qed.

Lemma batch_analyze_from_returns (self : Sentiment.SentimentAnalyzer)
    (clock : nat → Qc) (texts : list string) (j : nat) :
  (∀ i text, texts !! i = Some text →
     returned (Sentiment.analyze self (clock (j + i)%nat) text)) →
  ∃ results,
    Sentiment.batch_analyze_from self clock j texts = Returns results ∧
    length results = length texts ∧
    ∀ i text, texts !! i = Some text →
      ∃ r, results !! i = Some r ∧
           Sentiment.analyze self (clock (j + i)%nat) text = Returns r.
Proof.
  revert j. induction texts as [|text texts IH]; intros j Hall;
    cbn [Sentiment.batch_analyze_from].
  - exists []. split_and!; try done.
  - pose proof (Hall 0%nat text eq_refl) as H0. rewrite Nat.add_0_r in H0.
    destruct (Sentiment.analyze self (clock j) text) as [r|e] eqn:Hr; [|done].
    destruct (IH (S j)) as (results & Hres & Hlen & Hpt).
    { intros i t Ht. specialize (Hall (S i) t Ht).
      by replace (j + S i)%nat with (S j + i)%nat in Hall by lia. }
    simpl. rewrite Hres. simpl.
    exists (r :: results). split_and!; [done | by rewrite <- Hlen |].
    intros [|i] t Ht; simpl in *.
    + injection Ht as <-. exists r. by rewrite Nat.add_0_r.
    + destruct (Hpt i t Ht) as (r' & ? & ?). exists r'.
      by replace (j + S i)%nat with (S j + i)%nat by lia.
Qed.

Lemma batch_analyze_from_raises (self : Sentiment.SentimentAnalyzer)
    (clock : nat → Qc) (texts : list string) (j n : nat) (text : string) (e : exn) :
  texts !! n = Some text →
  Sentiment.analyze self (clock (j + n)%nat) text = Raises e →
  (∀ i t, (i < n)%nat → texts !! i = Some t →
     returned (Sentiment.analyze self (clock (j + i)%nat) t)) →
  Sentiment.batch_analyze_from self clock j texts = Raises e.
Proof.
  revert j n. induction texts as [|t0 texts IH]; intros j n Hn He Hbefore; [done|].
  cbn [Sentiment.batch_analyze_from]. destruct n as [|n]; simpl in Hn.
  - injection Hn as ->. rewrite Nat.add_0_r in He. by rewrite He.
  - pose proof (Hbefore 0%nat t0 ltac:(lia) eq_refl) as H0.
    rewrite Nat.add_0_r in H0.
    destruct (Sentiment.analyze self (clock j) t0) as [r|e0]; [|done]. simpl.
    rewrite (IH (S j) n); [done | done | |].
    + by replace (S j + n)%nat with (j + S n)%nat by lia.
    + intros i t Hi Ht. specialize (Hbefore (S i) t ltac:(lia) Ht).
      by replace (j + S i)%nat with (S j + i)%nat in Hbefore by lia.
Qed.

(** X11.  [batch_analyze] is all or nothing.  When [analyze] returns for
    every text, it returns one result per text, in order, the [i]-th being
    the result of [analyze] on the [i]-th text.  When [analyze] raises on
    some text, [batch_analyze] raises the exception of the first such text
    and the results of the texts before it are not returned. *)
Theorem batch_analyze_all_or_nothing (self : Sentiment.SentimentAnalyzer)
    (clock : nat → Qc) (texts : list string) :
  ((∀ i text, texts !! i = Some text →
      returned (Sentiment.analyze self (clock i) text)) →
   ∃ results,
     Sentiment.batch_analyze self clock texts = Returns results ∧
     length results = length texts ∧
     ∀ i text, texts !! i = Some text →
       ∃ r, results !! i = Some r ∧
            Sentiment.analyze self (clock i) text = Returns r) ∧
  (∀ n text e,
     texts !! n = Some text →
     Sentiment.analyze self (clock n) text = Raises e →
     (∀ i t, (i < n)%nat → texts !! i = Some t →
        returned (Sentiment.analyze self (clock i) t)) →
     Sentiment.batch_analyze self clock texts = Raises e).
Proof.
  split.
  - intros Hall. apply (batch_analyze_from_returns self clock texts 0 Hall).
  - intros n text e Hn He Hbefore.
    by apply (batch_analyze_from_raises self clock texts 0 n text e).
Qed.

Lemma batch_analyze_all_or_nothing_witness :
  (∃ results,
     Sentiment.batch_analyze Examples.vader_only (λ _, 0) ["good"; "bad"]
       = Returns results ∧
     length results = 2%nat) ∧
  Sentiment.batch_analyze Examples.failing_bert (λ _, 0) ["good"; "bad"]
    = Raises (Exception "CUDA out of memory").
Proof.
  split.
  - destruct (proj1 (batch_analyze_all_or_nothing Examples.vader_only (λ _, 0)
                       ["good"; "bad"])) as (results & Hres & Hlen & _).
    + intros [|[|i]] text Ht; [by vm_compute | by vm_compute | done].
    + exists results. split; [exact Hres | exact Hlen].
  - apply (proj2 (batch_analyze_all_or_nothing Examples.failing_bert (λ _, 0)
                    ["good"; "bad"]) 0%nat "good").
    + reflexivity.
    + vm_compute; reflexivity.
    + intros i t Hi. lia.
Defined.

(** ** Constructing an analyzer *)

Lemma ensemble_without_backends (self : Sentiment.SentimentAnalyzer) (text : string)
    (weights : gmap string Qc) :
  Sentiment.models self !! "bert" = None →
  Sentiment.models self !! "vader" = None →
  Sentiment.models self !! "textblob" = None →
  Sentiment.ensemble_weights self = Returns weights →
  Sentiment._analyze_with_ensemble self text =
    Returns {| Sentiment.sentiment := Sentiment.neutral; Sentiment.confidence := 0;
               Sentiment.model := "ensemble";
               Sentiment.positive_score := 0; Sentiment.negative_score := 0;
               Sentiment.neutral_score := 0; Sentiment.individual_results := [] |}.
Proof.
  intros Hb Hv Ht Hw.
  unfold Sentiment._analyze_with_ensemble, Sentiment.collect_results, Sentiment.collect.
  rewrite Hb, Hv, Ht. simpl. rewrite Hw. simpl.
  unfold Sentiment.combine, Sentiment.ensemble_dict, Sentiment.final_sentiment. simpl.
  repeat case_decide; try done; exfalso;
    match goal with H : _ ∧ _ |- _ => destruct H as [H _]; by apply Qclt_not_eq in H end.
Qed.

(** X12.  An analyzer constructed with [model_type = "custom"] loads the
    custom entry only, whatever the loaders do, so its ensemble has no
    backend to ask: [analyze] answers every text with the label neutral,
    confidence 0 and scores 0, 0, 0. *)
Theorem custom_analyzer_always_neutral (env : Sentiment.loaders)
    (default_model : outcome string) :
  ∃ self,
    Sentiment.__init__ env default_model (Some "custom") = Returns self ∧
    Sentiment.health_check self = ("healthy", "custom", {["custom"]}) ∧
    ∀ elapsed text,
      Sentiment.analyze self elapsed text =
        Returns {| Sentiment.body := Sentiment.OfEnsemble
                     {| Sentiment.sentiment := Sentiment.neutral;
                        Sentiment.confidence := 0; Sentiment.model := "ensemble";
                        Sentiment.positive_score := 0; Sentiment.negative_score := 0;
                        Sentiment.neutral_score := 0;
                        Sentiment.individual_results := [] |};
                   Sentiment.processing_time := elapsed |}.
Proof.
  eexists. split_and!.
  - unfold Sentiment.__init__, Sentiment.load_models. simpl. reflexivity.
  - unfold Sentiment.health_check. simpl.
    f_equal; try (rewrite dom_insert_L; set_solver).
  - intros elapsed text. unfold Sentiment.analyze, Sentiment._analyze_with_custom. simpl.
    by rewrite (ensemble_without_backends _ text Sentiment.default_weights).
Qed.

(** X14.  A model type outside bert, vader, textblob, custom and all is
    accepted by the constructor, which then loads no model; the error shows
    only at use: every call of [analyze] raises [ValueError] ("Unknown model
    type: ..."), and so does [batch_analyze] on every non-empty list, while
    on the empty list it returns the empty list. *)
Theorem unknown_model_type (env : Sentiment.loaders) (default_model : outcome string)
    (model_type : string) (clock : nat → Qc) :
  model_type ∉ ["bert"; "vader"; "textblob"; "custom"; "all"; ""] →
  let self := {| Sentiment.model_type := model_type; Sentiment.models := ∅ |} in
  let unknown := ValueError ("Unknown model type: " +:+ model_type) in
  Sentiment.__init__ env default_model (Some model_type) = Returns self ∧
  (∀ elapsed text, Sentiment.analyze self elapsed text = Raises unknown) ∧
  (∀ text texts, Sentiment.batch_analyze self clock (text :: texts) = Raises unknown) ∧
  Sentiment.batch_analyze self clock [] = Returns [].
Proof.
  intros Hm self unknown.
  assert (Hne : ∀ k, k ∈ ["bert"; "vader"; "textblob"; "custom"; "all"; ""] →
                     model_type ≠ k) by by intros k Hk ->.
  assert (Han : ∀ elapsed text, Sentiment.analyze self elapsed text = Raises unknown).
  { intros elapsed text. unfold Sentiment.analyze. simpl.
    by rewrite !decide_False by (apply Hne; set_solver). }
  split_and!; [| done | | done].
  - unfold Sentiment.__init__, Sentiment.load_models.
    rewrite (decide_False (P := model_type = "")) by (apply Hne; set_solver). simpl.
    repeat (rewrite decide_False
              by (intros [?|?]; (eapply Hne; [|eassumption]); set_solver); simpl).
    done.
  - intros text texts. unfold Sentiment.batch_analyze.
    cbn [Sentiment.batch_analyze_from]. by rewrite Han.
Qed.

Lemma unknown_model_type_witness :
  Sentiment.__init__ Examples.loaders_ok Examples.no_default_model (Some "ensemble")
    = Returns {| Sentiment.model_type := "ensemble"; Sentiment.models := ∅ |} ∧
  Sentiment.analyze {| Sentiment.model_type := "ensemble"; Sentiment.models := ∅ |}
    0 "I love this" = Raises (ValueError "Unknown model type: ensemble").
Proof.
  destruct (unknown_model_type Examples.loaders_ok Examples.no_default_model
              "ensemble" (λ _, 0)) as (H1 & H2 & _).
  { apply (bool_decide_unpack _). by vm_compute. }
  split; [exact H1 | exact (H2 0 "I love this")].
Defined.

(** ** Constructing an emotion detector *)

(** X15.  The transformer loader falls back: when the pipeline cannot be
    loaded but the stopword list can, a detector constructed for the
    transformer (the default model type) holds the rule-based model alone,
    the constructor raises nothing, and [detect] answers every text with
    what the rule-based method returns. *)
Theorem transformer_falls_back_to_rules (env : Emotion.loaders)
    (tokenizer : string → outcome (list string)) (e : exn) (stopwords : gset string) :
  Emotion.load_pipeline env = Raises e →
  Emotion.load_stopwords env = Returns stopwords →
  ∃ self,
    Emotion.__init__ env tokenizer None = Returns self ∧
    Emotion.__init__ env tokenizer (Some "transformer") = Returns self ∧
    Emotion.model_type self = "transformer" ∧
    Emotion.models self =
      {[ "rule-based" := Emotion.RuleBasedModel Emotion.emotion_lexicon stopwords ]} ∧
    ∀ elapsed text,
      Emotion.detect self elapsed text =
        Emotion.detect_body (Emotion._detect_with_rule_based self text) elapsed.
Proof.
  intros Hp Hs. eexists. split_and!.
  - unfold Emotion.__init__, Emotion.load_models, Emotion._load_transformer_model,
      Emotion._load_rule_based_model. simpl. rewrite Hp. simpl. rewrite Hs. simpl.
    reflexivity.
  - unfold Emotion.__init__, Emotion.load_models, Emotion._load_transformer_model,
      Emotion._load_rule_based_model. simpl. rewrite Hp. simpl. by rewrite Hs.
  - done.
  - done.
  - intros elapsed text. unfold Emotion.detect, Emotion.dispatch. simpl.
    by rewrite lookup_insert_ne.
Qed.

Lemma transformer_falls_back_to_rules_witness :
  ∃ self,
    Emotion.__init__ Examples.no_pipeline Examples.one_token None = Returns self ∧
    Emotion.models self =
      {[ "rule-based" :=
           Emotion.RuleBasedModel Emotion.emotion_lexicon {[ "i"; "am"; "so" ]} ]}.
Proof.
  destruct (transformer_falls_back_to_rules Examples.no_pipeline Examples.one_token
              (Exception "connection error") {[ "i"; "am"; "so" ]} eq_refl eq_refl)
    as (self & H1 & _ & _ & H4 & _).
  exists self. split; [exact H1 | exact H4].
Defined.

Lemma detect_body_constant (v elapsed : Qc) :
  Emotion.detect_body (Returns (Emotion.constant_scores v)) elapsed
  = Returns (Emotion.constant_scores v).
Proof.
  unfold Emotion.detect_body, try_except. cbn [mbind outcome_bind].
  f_equal; apply filter_processing_time, constant_scores_keys.
Qed.

(** X16.  A model type outside transformer, rule-based, custom and all is
    accepted by the constructor, which loads no model.  [detect] then takes
    the rule-based branch, finds no rule-based model, and answers every
    text with the same score 1/6 for each of the six emotions. *)
Theorem unknown_emotion_model_type (env : Emotion.loaders)
    (tokenizer : string → outcome (list string)) (model_type : string) :
  model_type ∉ ["transformer"; "rule-based"; "custom"; "all"; ""] →
  let self := {| Emotion.model_type := model_type; Emotion.models := ∅;
                 Emotion.word_tokenize := tokenizer |} in
  Emotion.__init__ env tokenizer (Some model_type) = Returns self ∧
  (∀ elapsed text,
     Emotion.detect self elapsed text = Returns Emotion.uniform_scores) ∧
  (∀ emotion, emotion ∈ Emotion.emotions →
     Emotion.uniform_scores !! emotion = Some (qc 1 6)).
Proof.
  intros Hm self.
  assert (Hne : ∀ k, k ∈ ["transformer"; "rule-based"; "custom"; "all"; ""] →
                     model_type ≠ k) by by intros k Hk ->.
  split_and!.
  - unfold Emotion.__init__, Emotion.load_models.
    rewrite (decide_False (P := model_type = "")) by (apply Hne; set_solver). simpl.
    repeat (rewrite decide_False
              by (intros [?|?]; (eapply Hne; [|eassumption]); set_solver); simpl).
    done.
  - intros elapsed text. unfold Emotion.detect, Emotion.dispatch. simpl.
    rewrite !decide_False;
      [| apply Hne; set_solver | apply Hne; set_solver
       | intros [?|[? _]]; (eapply Hne; [|eassumption]); set_solver
       | intros [? _]; (eapply Hne; [|eassumption]); set_solver ].
    unfold Emotion._detect_with_rule_based. simpl.
    apply detect_body_constant.
  - intros emotion He. unfold Emotion.uniform_scores.
    rewrite constant_scores_lookup, decide_True by done. f_equal; qc_closed.
Qed.

Lemma unknown_emotion_model_type_witness :
  Emotion.detect {| Emotion.model_type := "ensemble"; Emotion.models := ∅;
                    Emotion.word_tokenize := Examples.one_token |} 0 "I am so happy"
  = Returns Emotion.uniform_scores.
Proof.
  destruct (unknown_emotion_model_type Examples.no_pipeline Examples.one_token
              "ensemble") as (_ & H2 & _).
  { apply (bool_decide_unpack _). by vm_compute. }
  exact (H2 0 "I am so happy").
Defined.

(** X17.  A detector constructed with [model_type = "custom"] loads the
    custom entry only, whatever the loaders do; its ensemble has no backend,
    and [detect] answers every text with the score 0 for each emotion. *)
Theorem custom_detector_always_zero (env : Emotion.loaders)
    (tokenizer : string → outcome (list string)) :
  ∃ self,
    Emotion.__init__ env tokenizer (Some "custom") = Returns self ∧
    dom (Emotion.models self) = {["custom"]} ∧
    ∀ elapsed text,
      Emotion.detect self elapsed text = Returns (Emotion.constant_scores 0).
Proof.
  eexists. split_and!.
  - unfold Emotion.__init__, Emotion.load_models. simpl. reflexivity.
  - simpl. rewrite dom_insert_L. set_solver.
  - intros elapsed text. unfold Emotion.detect, Emotion.dispatch. simpl.
    unfold Emotion._detect_with_custom, Emotion._detect_with_ensemble,
      Emotion.collect_results, Emotion.collect. simpl.
    apply detect_body_constant.
Qed.

(** ** Order on the rationals *)

Lemma this_plus (x y : Qc) : (this (x + y) == this x + this y)%Q.
Proof. unfold Qcplus. simpl. apply Qred_correct. Qed.

Lemma this_mult (x y : Qc) : (this (x * y) == this x * this y)%Q.
Proof. unfold Qcmult. simpl. apply Qred_correct. Qed.

Lemma this_opp (x : Qc) : (this (- x) == - this x)%Q.
Proof. unfold Qcopp. simpl. apply Qred_correct. Qed.

Lemma this_minus (x y : Qc) : (this (x - y) == this x - this y)%Q.
Proof. unfold Qcminus. rewrite this_plus, this_opp. reflexivity. Qed.

Lemma this_qc (n : Z) (d : positive) : (this (qc n d) == n # d)%Q.
Proof. unfold qc. simpl. apply Qred_correct. Qed.

Lemma this_Q2Qc (q : Q) : (this (Q2Qc q) == q)%Q.
Proof. simpl. apply Qred_correct. Qed.

Lemma Qc_eq_Qeq (x y : Qc) : x = y → (this x == this y)%Q.
Proof. by intros ->. Qed.

Lemma Qcabs_cases (x : Qc) : (0 ≤ x ∧ Qcabs x = x) ∨ (x ≤ 0 ∧ Qcabs x = - x).
Proof.
  destruct (Qclt_le_dec x 0) as [H|H].
  - right. apply Qclt_le_weak in H. split; [done | by apply Qcabs_neg].
  - left. split; [done | by apply Qcabs_pos].
Qed.

(** Goals and hypotheses on [Qc], with [+], [-], [*] and literals, as goals
    on [Q]. *)
Ltac qc_to_q :=
  unfold Qcle, Qclt in *;
  repeat match goal with
  | H : context [this (_ + _)] |- _ => rewrite this_plus in H
  | H : context [this (_ - _)] |- _ => rewrite this_minus in H
  | H : context [this (_ * _)] |- _ => rewrite this_mult in H
  | H : context [this (- _)] |- _ => rewrite this_opp in H
  | H : context [this (qc _ _)] |- _ => rewrite this_qc in H
  | H : context [this (Q2Qc _)] |- _ => rewrite this_Q2Qc in H
  | |- context [this (_ + _)] => rewrite this_plus
  | |- context [this (_ - _)] => rewrite this_minus
  | |- context [this (_ * _)] => rewrite this_mult
  | |- context [this (- _)] => rewrite this_opp
  | |- context [this (qc _ _)] => rewrite this_qc
  | |- context [this (Q2Qc _)] => rewrite this_Q2Qc
  end.

(** Splitting a statement into its cases, and closing a case by
    computation on labels or by linear arithmetic. *)
Ltac split_cases :=
  repeat match goal with
  | |- _ ∧ _ => split
  | |- _ ↔ _ => split
  | |- _ → _ => intro
  end.

Ltac finish_case :=
  first [ done | discriminate | congruence
        | by (qc_to_q; lra) | by (exfalso; qc_to_q; lra)
        | by (qc_to_q; nra) | by (exfalso; qc_to_q; nra) ].

(** ** The single models *)

(** X18.  A VADER result is labelled by the compound score [c] alone:
    positive iff [c >= 0.05], negative iff [c <= -0.05], neutral strictly
    between.  Its confidence is [|c|] for positive and negative and
    [1 - |c|] for neutral, so a non-neutral result has confidence at least
    0.05, a neutral one more than 0.95, and the confidence lies in [0, 1]
    whenever [c] lies in [-1, 1]. *)
Theorem vader_label_confidence (self : Sentiment.SentimentAnalyzer) (text : string)
    (r : Sentiment.model_result) :
  Sentiment._analyze_with_vader self text = Returns r →
  ∃ pos neg neu c,
    Sentiment.mr_scores r = Sentiment.VaderScores pos neg neu c ∧
    (Sentiment.mr_sentiment r = Sentiment.positive ↔ qc 5 100 ≤ c) ∧
    (Sentiment.mr_sentiment r = Sentiment.negative ↔ c ≤ - qc 5 100) ∧
    (Sentiment.mr_sentiment r = Sentiment.neutral ↔ - qc 5 100 < c ∧ c < qc 5 100) ∧
    (Sentiment.mr_sentiment r = Sentiment.neutral →
       Sentiment.mr_confidence r = 1 - Qcabs c ∧ qc 95 100 < Sentiment.mr_confidence r) ∧
    (Sentiment.mr_sentiment r ≠ Sentiment.neutral →
       Sentiment.mr_confidence r = Qcabs c ∧ qc 5 100 ≤ Sentiment.mr_confidence r) ∧
    (- 1 ≤ c → c ≤ 1 →
       0 ≤ Sentiment.mr_confidence r ∧ Sentiment.mr_confidence r ≤ 1).
Proof.
  unfold Sentiment._analyze_with_vader. rewrite log_and_raise_id. intros H.
  apply bind_returns in H as (entry & _ & H).
  destruct entry as [|polarity_scores| |]; try done.
  apply bind_returns in H as (scores & _ & [= <-]). simpl.
  exists (Sentiment.v_pos scores), (Sentiment.v_neg scores),
    (Sentiment.v_neu scores), (Sentiment.v_compound scores).
  set (c := Sentiment.v_compound scores).
  split; [done|].
  destruct (decide (qc 5 100 ≤ c)) as [Hp|Hp];
    [|destruct (decide (c ≤ - qc 5 100)) as [Hn|Hn]]; simpl;
    destruct (Qcabs_cases c) as [[Hc ->]|[Hc ->]];
    split_cases; finish_case.
Qed.

Lemma vader_label_confidence_witness :
  ∃ r pos neg neu c,
    Sentiment._analyze_with_vader Examples.vader_only "I love this" = Returns r ∧
    Sentiment.mr_scores r = Sentiment.VaderScores pos neg neu c ∧
    (Sentiment.mr_sentiment r = Sentiment.positive ↔ qc 5 100 ≤ c).
Proof.
  destruct (Sentiment._analyze_with_vader Examples.vader_only "I love this")
    as [r|e] eqn:Hr; [|vm_compute in Hr; discriminate].
  destruct (vader_label_confidence Examples.vader_only "I love this" r Hr)
    as (pos & neg & neu & c & Hsc & Hpos & _).
  exists r, pos, neg, neu, c. split_and!; [done | exact Hsc | exact Hpos].
Defined.



(** X20.  A BERT result reports the two softmax scores and takes the larger
    as its confidence: the label is positive only if the positive score is
    at least the negative one, negative only if the negative score is at
    least the positive one, the confidence is the score of the label, and it
    is at least 1/2 when the two scores sum to 1.  The label is never
    neutral. *)
Theorem bert_label_confidence (self : Sentiment.SentimentAnalyzer) (text : string)
    (r : Sentiment.model_result) :
  Sentiment._analyze_with_bert self text = Returns r →
  ∃ pos neg,
    Sentiment.mr_scores r = Sentiment.BertScores pos neg ∧
    Sentiment.mr_sentiment r ≠ Sentiment.neutral ∧
    (Sentiment.mr_sentiment r = Sentiment.positive →
       neg ≤ pos ∧ Sentiment.mr_confidence r = pos) ∧
    (Sentiment.mr_sentiment r = Sentiment.negative →
       pos ≤ neg ∧ Sentiment.mr_confidence r = neg) ∧
    pos ≤ Sentiment.mr_confidence r ∧ neg ≤ Sentiment.mr_confidence r ∧
    (pos + neg = 1 → qc 1 2 ≤ Sentiment.mr_confidence r).
Proof.
  unfold Sentiment._analyze_with_bert. rewrite log_and_raise_id. intros H.
  apply bind_returns in H as (entry & _ & H).
  destruct entry as [softmax| | |]; try done.
  apply bind_returns in H as ([s0 s1] & _ & [= <-]). simpl.
  exists s1, s0. split; [done|].
  destruct (decide (s0 < s1)) as [Hlt|Hge]; simpl.
  - split_cases; try finish_case.
    apply Qc_eq_Qeq in H. qc_to_q. lra.
  - split_cases; try finish_case.
    apply Qc_eq_Qeq in H. qc_to_q. lra.
Qed.

Lemma bert_label_confidence_witness :
  ∃ r pos neg,
    Sentiment._analyze_with_bert Examples.all_models "I love this" = Returns r ∧
    Sentiment.mr_scores r = Sentiment.BertScores pos neg ∧
    pos ≤ Sentiment.mr_confidence r ∧ neg ≤ Sentiment.mr_confidence r.
Proof.
  destruct (Sentiment._analyze_with_bert Examples.all_models "I love this")
    as [r|e] eqn:Hr; [|vm_compute in Hr; discriminate].
  destruct (bert_label_confidence Examples.all_models "I love this" r Hr)
    as (pos & neg & Hsc & _ & _ & _ & H1 & H2 & _).
  exists r, pos, neg. split_and!; [done | exact Hsc | exact H1 | exact H2].
Defined.

(** ** A zero total weight *)

Lemma normalized_zero_raises (weights : gmap string Qc) (available : list string)
    (m : string) :
  m ∈ available → is_Some (weights !! m) →
  normalized_comprehension weights 0 available = Raises ZeroDivisionError.
Proof.
  intros Hm [c Hc]. induction available as [|b l IH]; [by apply elem_of_nil in Hm|].
  cbn [normalized_comprehension]. destruct (decide (m = b)) as [<-|Hne].
  - rewrite Hc. unfold truediv. by rewrite decide_True.
  - apply elem_of_cons in Hm as [?|Hm]; [done|].
    destruct (weights !! b); [|by apply IH].
    unfold truediv. by rewrite decide_True.
Qed.

Lemma getitem_returns {V} (d : gmap string V) (k : string) (v : V) :
  getitem d k = Returns v → d !! k = Some v.
Proof. unfold getitem. destruct (d !! k); [by intros [= ->] | done]. Qed.

(** X22.  If the configured weights of the loaded backends sum to zero, with
    at least one of them configured, the sentiment ensemble raises
    [ZeroDivisionError] from the weight normalization, and [analyze] with
    [model_type = "all"] raises it as well. *)
Theorem zero_total_weight_raises (self : Sentiment.SentimentAnalyzer)
    (text : string) (elapsed : Qc) (results : list (string * Sentiment.model_result))
    (weights : gmap string Qc) (m : string) :
  Sentiment.collect_results self text = Returns results →
  Sentiment.ensemble_weights self = Returns weights →
  m ∈ results.*1 → is_Some (weights !! m) →
  total_of weights results.*1 = 0 →
  Sentiment._analyze_with_ensemble self text = Raises ZeroDivisionError ∧
  (Sentiment.model_type self = "all" →
   Sentiment.analyze self elapsed text = Raises ZeroDivisionError).
Proof.
  intros Hres Hweights Hm Hsome Hzero.
  assert (He : Sentiment._analyze_with_ensemble self text = Raises ZeroDivisionError).
  { unfold Sentiment._analyze_with_ensemble, Sentiment.combine.
    rewrite log_and_raise_id, Hres. simpl. rewrite Hweights. simpl.
    rewrite Hzero. by rewrite (normalized_zero_raises weights _ m Hm Hsome). }
  split; [done|]. intros Hall.
  unfold Sentiment.analyze. rewrite log_and_raise_id, Hall. simpl.
  by rewrite He.
Qed.

Lemma zero_total_weight_raises_witness :
  Sentiment._analyze_with_ensemble Examples.zero_weight "I love this"
    = Raises ZeroDivisionError.
Proof.
  refine (proj1 (zero_total_weight_raises Examples.zero_weight "I love this" 0
    Examples.zero_weight_results {[ "vader" := 0 ]} "vader" _ _ _ _ _)).
  - vm_compute; reflexivity.
  - vm_compute; reflexivity.
  - apply (bool_decide_unpack _). by vm_compute.
  - exists 0. by vm_compute.
  - apply qc_eq. vm_compute. reflexivity.
Defined.

(** X23.  If the configured weights of the loaded emotion models sum to
    zero, with at least one of them configured, the emotion ensemble does
    not raise: the division error of the weight normalization is caught and
    the uniform scores, 1/6 for each of the six emotions, are returned. *)
Theorem zero_total_weight_uniform (self : Emotion.EmotionDetector)
    (text : string) (results : list (string * gmap string Qc))
    (weights : gmap string Qc) (m : string) :
  Emotion.collect_results self text = Returns results →
  Emotion.ensemble_weights self = Returns weights →
  m ∈ results.*1 → is_Some (weights !! m) →
  total_of weights results.*1 = 0 →
  Emotion._detect_with_ensemble self text = Returns Emotion.uniform_scores ∧
  ∀ emotion, emotion ∈ Emotion.emotions →
    Emotion.uniform_scores !! emotion = Some (qc 1 6).
Proof.
  intros Hres Hweights Hm Hsome Hzero. split.
  - unfold Emotion._detect_with_ensemble, Emotion.combine.
    rewrite Hres. simpl. rewrite Hweights. simpl.
    rewrite Hzero. by rewrite (normalized_zero_raises weights _ m Hm Hsome).
  - intros emotion He. unfold Emotion.uniform_scores.
    rewrite constant_scores_lookup, decide_True by done. f_equal; qc_closed.
Qed.

Lemma zero_total_weight_uniform_witness :
  Emotion._detect_with_ensemble Examples.zero_weight_detector "I love this"
    = Returns Emotion.uniform_scores.
Proof.
  refine (proj1 (zero_total_weight_uniform Examples.zero_weight_detector "I love this"
    Examples.transformer_only_results {[ "transformer" := 0 ]} "transformer" _ _ _ _ _)).
  - vm_compute; reflexivity.
  - vm_compute; reflexivity.
  - apply (bool_decide_unpack _). by vm_compute.
  - exists 0. by vm_compute.
  - apply qc_eq. vm_compute. reflexivity.
Defined.
